(** * Tool-hire chatbot: the route handlers and the client's phase logic

    A shallow embedding of the three revisions of
    [app/api/tool-recommendation/route.js] found in the repository and of
    the completion block of [app/components/ToolHireChatbot.jsx].

    - [Part000]: the first route (plain-text conversation context, REST
      call to the model through [fetchGeminiResponse]).
    - [Part002]: the SDK route with streaming and a [partialResponse]
      object for the recommendation phase.
    - [Part001]: the SDK route with [continuationMode] and a
      [partialResponse] string for both phases.
    - [Client]: what the chat component does with the terminal record of a
      response.

    The route handlers are asynchronous JavaScript functions that read
    files, call the model and enqueue newline-delimited JSON records.  They
    are written here in a small exception-and-log monad [Eff]: a
    computation either returns or throws an error message, and leaves the
    ordered list of the external actions it performed. *)

From Stdlib Require Import String Ascii List Bool Arith Lia.
Import ListNotations.
Open Scope list_scope.
Open Scope string_scope.

(* ===================================================================== *)
(** ** JavaScript strings *)
(* ===================================================================== *)

Module Js.

(** The double quote and line feed characters of the template literals. *)
Definition dquote : string := String (ascii_of_nat 34) EmptyString.
Definition nl : string := String (ascii_of_nat 10) EmptyString.

(** [startsWith s t]: [t] is a prefix of [s]. *)
Fixpoint startsWith (s t : string) {struct t} : bool :=
  match t with
  | EmptyString => true
  | String b t' =>
      match s with
      | EmptyString => false
      | String a s' => if Ascii.eqb a b then startsWith s' t' else false
      end
  end.

(** [String.prototype.includes]: [t] occurs in [s] at some position. *)
Fixpoint includes (s t : string) : bool :=
  startsWith s t
  || match s with
     | EmptyString => false
     | String _ s' => includes s' t
     end.

(** Truthiness of a string: every string but the empty one. *)
Definition truthy (s : string) : bool :=
  match s with
  | EmptyString => false
  | String _ _ => true
  end.

(** [a || b] on strings. *)
Definition or (a b : string) : string := if truthy a then a else b.

(** Repeated [+=] of the fragments of a stream onto an accumulator. *)
Definition concat (fragments : list string) : string :=
  fold_right append "" fragments.

End Js.

(* ===================================================================== *)
(** ** Data model *)
(* ===================================================================== *)

(** One entry of the conversation history, the object
    [{ role, parts: [{ text }] }] the handlers build. *)
Record Turn : Type := mkTurn { role : string; text : string }.

(** A JSON object sent to the client, either as the body of a plain
    response or as one newline-delimited record of a stream.  A key the
    object literal does not have is [None]. *)
Module Rec.
Record t : Type := mk {
  chunk : option string;
  done : option bool;
  error : option bool;
  text : option string;
  conversationHistory : option (list Turn);
  conversationContext : option string;
  isComplete : option bool;
  projectInformation : option string;
  continuation : option bool;
  fullResponse : option string;
  partialText : option string
}.

(** The object with no key. *)
Definition empty : t :=
  mk None None None None None None None None None None None.

(** One [key: value] pair of an object literal. *)
Inductive Field : Type :=
| Chunk (v : string)
| Done (v : bool)
| Error (v : bool)
| Text (v : string)
| ConversationHistory (v : list Turn)
| ConversationContext (v : string)
| IsComplete (v : bool)
| ProjectInformation (v : string)
| Continuation (v : bool)
| FullResponse (v : string)
| PartialText (v : string).

Definition set (r : t) (f : Field) : t :=
  match f with
  | Chunk v =>
      mk (Some v) (done r) (error r) (text r) (conversationHistory r)
         (conversationContext r) (isComplete r) (projectInformation r)
         (continuation r) (fullResponse r) (partialText r)
  | Done v =>
      mk (chunk r) (Some v) (error r) (text r) (conversationHistory r)
         (conversationContext r) (isComplete r) (projectInformation r)
         (continuation r) (fullResponse r) (partialText r)
  | Error v =>
      mk (chunk r) (done r) (Some v) (text r) (conversationHistory r)
         (conversationContext r) (isComplete r) (projectInformation r)
         (continuation r) (fullResponse r) (partialText r)
  | Text v =>
      mk (chunk r) (done r) (error r) (Some v) (conversationHistory r)
         (conversationContext r) (isComplete r) (projectInformation r)
         (continuation r) (fullResponse r) (partialText r)
  | ConversationHistory v =>
      mk (chunk r) (done r) (error r) (text r) (Some v)
         (conversationContext r) (isComplete r) (projectInformation r)
         (continuation r) (fullResponse r) (partialText r)
  | ConversationContext v =>
      mk (chunk r) (done r) (error r) (text r) (conversationHistory r)
         (Some v) (isComplete r) (projectInformation r)
         (continuation r) (fullResponse r) (partialText r)
  | IsComplete v =>
      mk (chunk r) (done r) (error r) (text r) (conversationHistory r)
         (conversationContext r) (Some v) (projectInformation r)
         (continuation r) (fullResponse r) (partialText r)
  | ProjectInformation v =>
      mk (chunk r) (done r) (error r) (text r) (conversationHistory r)
         (conversationContext r) (isComplete r) (Some v)
         (continuation r) (fullResponse r) (partialText r)
  | Continuation v =>
      mk (chunk r) (done r) (error r) (text r) (conversationHistory r)
         (conversationContext r) (isComplete r) (projectInformation r)
         (Some v) (fullResponse r) (partialText r)
  | FullResponse v =>
      mk (chunk r) (done r) (error r) (text r) (conversationHistory r)
         (conversationContext r) (isComplete r) (projectInformation r)
         (continuation r) (Some v) (partialText r)
  | PartialText v =>
      mk (chunk r) (done r) (error r) (text r) (conversationHistory r)
         (conversationContext r) (isComplete r) (projectInformation r)
         (continuation r) (fullResponse r) (Some v)
  end.

(** The object literal [{ k1: v1, ..., kn: vn }]. *)
Definition object (fields : list Field) : t := fold_left set fields empty.
End Rec.

(** A candidate of the REST payload read by [fetchGeminiResponse]:
    [candidates[0].content.parts[0].text] is a string, is [undefined], or
    the path to it does not exist (the property access throws). *)
Inductive Candidate : Type :=
| CandidateText (t : string)
| CandidateNoText
| CandidateMalformed (typeError : string).

(** What [fetch] followed by [response.json()] can give. *)
Inductive FetchOutcome : Type :=
| FetchThrows (message : string)
| FetchNotOk (status : string) (errorText : string)
| FetchBadJson (message : string)
| FetchJson (candidates : option (list Candidate)).

(** A computation returns a value or throws an [Error] with a message. *)
Inductive Completion (A : Type) : Type :=
| Return (a : A)
| Throw (message : string).
Arguments Return {A} a.
Arguments Throw {A} message.

(** A streaming generation: the fragments the async iterator yields, in
    order, then either its normal end or an exception.  A call that
    rejects before the first fragment has no fragment and an exception. *)
Record StreamReply : Type := mkStream {
  fragments : list string;
  failure : option string
}.

(** The external actions of a handler, in the order they happen. *)
Inductive Event : Type :=
| ReadFile (filename : string)
| Fetch (model : string) (content : string)
| GenerateContent (prompt : string)
| GenerateContentStream (prompt : string)
| SendMessage (history : list Turn) (message : string)
| SendMessageStream (history : list Turn) (message : string)
| Enqueue (record : Rec.t)
| Close.

(** Everything outside the handlers: the files under [public/], the model
    behind the REST endpoint and behind the SDK (a chat is a history and a
    message), and [String.prototype.replace]. *)
Record World : Type := mkWorld {
  readFile : string -> Completion string;
  fetch : string -> string -> FetchOutcome;
  generateContent : string -> Completion string;
  generateContentStream : string -> StreamReply;
  sendMessage : list Turn -> string -> Completion string;
  sendMessageStream : list Turn -> string -> StreamReply;
  replace : string -> string -> string -> string
}.

(* ===================================================================== *)
(** ** The effect monad *)
(* ===================================================================== *)

Definition Eff (A : Type) : Type := (Completion A * list Event)%type.

Definition ret {A : Type} (a : A) : Eff A := (Return a, []).

Definition throw {A : Type} (message : string) : Eff A := (Throw message, []).

Definition bind {A B : Type} (m : Eff A) (k : A -> Eff B) : Eff B :=
  match fst m with
  | Return a => (fst (k a), (snd m ++ snd (k a))%list)
  | Throw message => (Throw message, snd m)
  end.

(** [try { body } catch (error) { handler(error.message) }]. *)
Definition tryCatch {A : Type} (body : Eff A) (handler : string -> Eff A) : Eff A :=
  match fst body with
  | Return a => (Return a, snd body)
  | Throw message => (fst (handler message), (snd body ++ snd (handler message))%list)
  end.

(** An external call: the action is logged and the world's answer is the
    completion. *)
Definition call {A : Type} (e : Event) (answer : Completion A) : Eff A :=
  (answer, [e]).

Definition enqueue (record : Rec.t) : Eff unit := call (Enqueue record) (Return tt).

Definition close : Eff unit := call Close (Return tt).

Declare Scope eff_scope.
Delimit Scope eff_scope with eff.
Notation "x <- m ;; k" := (bind m (fun x => k))
  (at level 100, m at next level, right associativity) : eff_scope.
Notation "m ;;; k" := (bind m (fun _ => k))
  (at level 100, right associativity) : eff_scope.
Open Scope eff_scope.

(** [for await (const chunk of stream) { acc = body(acc, chunk) }]. *)
Fixpoint forEach {A : Type} (chunks : list string) (acc : A)
    (body : A -> string -> Eff A) : Eff A :=
  match chunks with
  | [] => ret acc
  | chunkText :: rest => acc' <- body acc chunkText ;; forEach rest acc' body
  end.

Definition forAwait {A : Type} (stream : StreamReply) (acc : A)
    (body : A -> string -> Eff A) : Eff A :=
  acc' <- forEach (fragments stream) acc body ;;
  match failure stream with
  | None => ret acc'
  | Some message => throw message
  end.

(** The records a computation enqueued, in order: the body of the
    streaming response. *)
Fixpoint records (log : list Event) : list Rec.t :=
  match log with
  | [] => []
  | Enqueue r :: log' => r :: records log'
  | _ :: log' => records log'
  end.

(** The files a computation tried to read, in order. *)
Fixpoint reads (log : list Event) : list string :=
  match log with
  | [] => []
  | ReadFile f :: log' => f :: reads log'
  | _ :: log' => reads log'
  end.

(** The calls to the model a computation made, in order. *)
Fixpoint generations (log : list Event) : list Event :=
  match log with
  | [] => []
  | Enqueue _ :: log' => generations log'
  | Close :: log' => generations log'
  | ReadFile _ :: log' => generations log'
  | e :: log' => e :: generations log'
  end.

(** The completion sentinel of the specification. *)
Definition SENTINEL : string := "## FINAL SUMMARY ##".

(** [history.pop()] guarded as in the continuation branches: the last
    entry is removed when the history is not empty and its role is
    ["model"]. *)
Definition popPartialModelTurn (conversationHistory : list Turn) : list Turn :=
  match rev conversationHistory with
  | [] => conversationHistory
  | lastTurn :: _ =>
      if String.eqb (role lastTurn) "model"
      then removelast conversationHistory
      else conversationHistory
  end.

(** What [POST] hands back: a JSON body with an HTTP status, or a stream
    of newline-delimited records. *)
Inductive Response : Type :=
| JsonResponse (status : nat) (body : Rec.t)
| StreamResponse (body : list Rec.t).

(** A streaming handler builds a [ReadableStream] whose [start] runs the
    given computation; the response carries what it enqueued. *)
Definition streamingResponse (start : Eff unit) : Eff Response :=
  (Return (StreamResponse (records (snd start))), snd start).

(* ===================================================================== *)
(** ** The first route, over a plain-text context (part_000) *)
(* ===================================================================== *)

Module Part000.
Section Route.

Variable w : World.
(** The two prompt texts of the file. *)
Variable IMPROVED_PROMPT : string.
Variable PROMPT_TEMPLATE : string.

(** The text every failure of the REST call is turned into. *)
Definition fallbackText : string :=
  "Error generating response. Please try again.".

(** The message of the [TypeError] raised by a method call on
    [undefined]. *)
Definition undefinedIncludes : string :=
  "Cannot read properties of undefined (reading 'includes')".

(** [fetchGeminiResponse]: the reply's [text], [None] when it is
    [undefined]. *)
Definition fetchGeminiResponse (content model : string) : Eff (option string) :=
  tryCatch
    (data <-
       call (Fetch model content)
            (match fetch w model content with
             | FetchThrows message => Throw message
             | FetchNotOk status _ =>
                 Throw ("Gemini API returned status " ++ status)
             | FetchBadJson message => Throw message
             | FetchJson candidates => Return candidates
             end) ;;
     match data with
     | None | Some [] => throw "No response from Gemini API"
     | Some (CandidateText t :: _) => ret (Some t)
     | Some (CandidateNoText :: _) => ret None
     | Some (CandidateMalformed typeError :: _) => throw typeError
     end)
    (fun _ => ret (Some fallbackText)).

Definition readFromFile (filename : string) : Eff string :=
  tryCatch (call (ReadFile filename) (readFile w filename))
           (fun error => throw error).

(** The context [handleInformationGathering] sends to the model: the
    one it received, or the initial one, with the user turn appended. *)
Definition contextSent (userInput conversationContext : string) : string :=
  if negb (Js.truthy conversationContext) then
    ("System:" ++ Js.nl ++ IMPROVED_PROMPT ++ Js.nl ++ Js.nl)
    ++ "User: " ++ Js.or userInput "Hello! I'd like to discuss my project." ++ Js.nl
  else
    conversationContext ++ Js.nl ++ "User: " ++ userInput ++ Js.nl.

Definition handleInformationGathering
    (userInput conversationContext : string) : Eff Rec.t :=
  let conversationContext :=
    if negb (Js.truthy conversationContext) then
      let conversationContext := "System:" ++ Js.nl ++ IMPROVED_PROMPT ++ Js.nl ++ Js.nl in
      conversationContext
      ++ "User: " ++ Js.or userInput "Hello! I'd like to discuss my project." ++ Js.nl
    else
      conversationContext ++ Js.nl ++ "User: " ++ userInput ++ Js.nl in
  response <- fetchGeminiResponse conversationContext "gemini-2.0-flash" ;;
  match response with
  | None => throw undefinedIncludes
  | Some aiOutput =>
      let isComplete := Js.includes aiOutput "FINAL SUMMARY" in
      let projectInformation := if isComplete then aiOutput else "" in
      let conversationContext :=
        conversationContext ++ Js.nl ++ "AI: " ++ aiOutput ++ Js.nl in
      ret (Rec.object [Rec.Text aiOutput;
                       Rec.ConversationContext conversationContext;
                       Rec.IsComplete isComplete;
                       Rec.ProjectInformation projectInformation])
  end.

Definition handleToolRecommendation (projectInformation : string) : Eff Rec.t :=
  catalog <-
    tryCatch
      (toolInformation <- readFromFile "tool_information.txt" ;;
       ret (Some toolInformation))
      (fun _ => ret None) ;;
  match catalog with
  | None =>
      ret (Rec.object
             [Rec.Text "Error: Unable to access tool information. Please try again later.";
              Rec.Error true])
  | Some toolInformation =>
      let prompt :=
        replace w
          (replace w PROMPT_TEMPLATE "{project_information}" projectInformation)
          "{tool_information}" toolInformation in
      response <- fetchGeminiResponse prompt "gemini-2.0-flash" ;;
      match response with
      | Some resultText =>
          ret (Rec.object [Rec.Text resultText; Rec.Error false])
      | None => ret (Rec.object [Rec.Error false])
      end
  end.

Record Request : Type := mkRequest {
  phase : string;
  userInput : string;
  conversationContext : string;
  projectInformation : string
}.

Definition POST (body : Request) : Eff Response :=
  tryCatch
    (if String.eqb (phase body) "gathering" then
       result <-
         handleInformationGathering (userInput body)
           (conversationContext body) ;;
       ret (JsonResponse 200 result)
     else if String.eqb (phase body) "recommendation" then
       result <- handleToolRecommendation (projectInformation body) ;;
       ret (JsonResponse 200 result)
     else
       ret (JsonResponse 400
              (Rec.object
                 [Rec.Error true;
                  Rec.Text "Invalid phase specified. Must be 'gathering' or 'recommendation'."])))
    (fun _ =>
       ret (JsonResponse 500
              (Rec.object
                 [Rec.Error true;
                  Rec.Text "An error occurred while processing your request."]))).

End Route.
End Part000.

(* ===================================================================== *)
(** ** The route with [continuationMode] (part_001) *)
(* ===================================================================== *)

Module Part001.
Section Route.

(** [initializeGeminiModel] configures the SDK model, with
    [IMPROVED_PROMPT] as its system instruction: the configured model is
    the model of the world. *)
Variable w : World.
(** The template of the recommendation prompt. *)
Variable PROMPT_TEMPLATE : string.

Definition readFromFile (filename : string) : Eff string :=
  tryCatch (call (ReadFile filename) (readFile w filename))
           (fun error => throw error).

Definition formatChatHistory (history : list Turn) : list Turn :=
  match history with
  | [] => []
  | _ => map (fun msg => mkTurn (role msg) (text msg)) history
  end.

(** The continuation prompt of the gathering phase. *)
Definition gatheringContinuationPrompt (partialResponse : string) : string :=
  "The previous response was cut off. Here was the partial response: "
  ++ Js.dquote ++ partialResponse ++ Js.dquote
  ++ ". Please continue from where you left off.".

(** The continuation prompt of the recommendation phase. *)
Definition recommendationContinuationPrompt (partialResponse : string) : string :=
  "The previous response was cut off. Here was the partial response: "
  ++ Js.dquote ++ partialResponse ++ Js.dquote
  ++ ". Please continue from where you left off without repeating any content.".

(** The template with its three placeholders replaced. *)
Definition recommendationPrompt
    (projectInformation toolInformation productUrls : string) : string :=
  replace w
    (replace w
       (replace w PROMPT_TEMPLATE "{project_information}" projectInformation)
       "{tool_information}" toolInformation)
    "{product_urls_file}" productUrls.

Definition streamErrorRecord (message : string) : Rec.t :=
  Rec.object [Rec.Error true;
              Rec.Text ("Error in streaming response: " ++ message);
              Rec.Done true].

Definition catalogErrorText : string :=
  "Error: Unable to access tool information or product URLs. Please try again later.".

Definition streamInformationGathering
    (userInput : string) (conversationHistory : list Turn)
    (continuationMode : bool) (partialResponse : string) : Eff unit :=
  tryCatch
    ((if continuationMode && Js.truthy partialResponse then
        let continuationPrompt := gatheringContinuationPrompt partialResponse in
        let history := formatChatHistory conversationHistory in
        streamResult <-
          call (SendMessageStream history continuationPrompt)
               (Return (sendMessageStream w history continuationPrompt)) ;;
        continuationResponseText <-
          forAwait streamResult ""
            (fun continuationResponseText chunkText =>
               enqueue (Rec.object [Rec.Chunk chunkText; Rec.Done false;
                                    Rec.Continuation true]) ;;;
               ret (continuationResponseText ++ chunkText)) ;;
        let fullResponseText := partialResponse ++ continuationResponseText in
        let isComplete := Js.includes fullResponseText "## FINAL SUMMARY ##" in
        let projectInformation := if isComplete then fullResponseText else "" in
        let conversationHistory := popPartialModelTurn conversationHistory in
        let conversationHistory :=
          (conversationHistory ++ [mkTurn "model" fullResponseText])%list in
        enqueue (Rec.object [Rec.Done true;
                             Rec.ConversationHistory conversationHistory;
                             Rec.IsComplete isComplete;
                             Rec.ProjectInformation projectInformation;
                             Rec.Continuation true;
                             Rec.FullResponse fullResponseText])
      else
        let history :=
          match conversationHistory with
          | [] => []
          | _ => formatChatHistory conversationHistory
          end in
        streamResult <-
          call (SendMessageStream history userInput)
               (Return (sendMessageStream w history userInput)) ;;
        fullResponseText <-
          forAwait streamResult ""
            (fun fullResponseText chunkText =>
               enqueue (Rec.object [Rec.Chunk chunkText; Rec.Done false]) ;;;
               ret (fullResponseText ++ chunkText)) ;;
        let isComplete := Js.includes fullResponseText "## FINAL SUMMARY ##" in
        let projectInformation := if isComplete then fullResponseText else "" in
        let conversationHistory :=
          (conversationHistory ++ [mkTurn "user" userInput])%list in
        let conversationHistory :=
          (conversationHistory ++ [mkTurn "model" fullResponseText])%list in
        enqueue (Rec.object [Rec.Done true;
                             Rec.ConversationHistory conversationHistory;
                             Rec.IsComplete isComplete;
                             Rec.ProjectInformation projectInformation])) ;;;
     close)
    (fun message => enqueue (streamErrorRecord message) ;;; close).

Definition streamToolRecommendation
    (projectInformation : string) (continuationMode : bool)
    (partialResponse : string) : Eff unit :=
  tryCatch
    (catalog <-
       tryCatch
         (toolInformation <- readFromFile "tool_information.txt" ;;
          productUrls <- readFromFile "product_urls.txt" ;;
          ret (Some (toolInformation, productUrls)))
         (fun _ =>
            enqueue (Rec.object [Rec.Error true; Rec.Text catalogErrorText;
                                 Rec.Done true]) ;;;
            close ;;;
            ret None) ;;
     match catalog with
     | None => ret tt
     | Some (toolInformation, productUrls) =>
         streamResult <-
           (if continuationMode && Js.truthy partialResponse then
              let continuationPrompt :=
                recommendationContinuationPrompt partialResponse in
              call (GenerateContentStream continuationPrompt)
                   (Return (generateContentStream w continuationPrompt))
            else
              let prompt :=
                recommendationPrompt projectInformation toolInformation
                  productUrls in
              call (GenerateContentStream prompt)
                   (Return (generateContentStream w prompt))) ;;
         responseText <-
           forAwait streamResult (if continuationMode then partialResponse else "")
             (fun responseText chunkText =>
                enqueue (Rec.object [Rec.Chunk chunkText; Rec.Done false;
                                     Rec.Continuation continuationMode]) ;;;
                ret (responseText ++ chunkText)) ;;
         enqueue (Rec.object [Rec.Done true; Rec.Text responseText;
                              Rec.Continuation continuationMode]) ;;;
         close
     end)
    (fun message => enqueue (streamErrorRecord message) ;;; close).

(** The prompt the recommendation handlers send to the model: the two
    branches of their [if (continuationMode && partialResponse)]. *)
Definition promptSent
    (projectInformation : string) (continuationMode : bool)
    (partialResponse toolInformation productUrls : string) : string :=
  if continuationMode && Js.truthy partialResponse
  then recommendationContinuationPrompt partialResponse
  else recommendationPrompt projectInformation toolInformation productUrls.

(** The chat history and the message the gathering handlers send to
    the model: the branches of their [if (continuationMode &&
    partialResponse)] and of their test for a new conversation. *)
Definition messageSent
    (userInput : string) (conversationHistory : list Turn)
    (continuationMode : bool) (partialResponse : string)
    : list Turn * string :=
  if continuationMode && Js.truthy partialResponse
  then (formatChatHistory conversationHistory,
        gatheringContinuationPrompt partialResponse)
  else (match conversationHistory with
        | [] => []
        | _ => formatChatHistory conversationHistory
        end, userInput).

Definition handleInformationGathering
    (userInput : string) (conversationHistory : list Turn)
    (continuationMode : bool) (partialResponse : string) : Eff Rec.t :=
  exchange <-
    (if continuationMode && Js.truthy partialResponse then
       let continuationPrompt := gatheringContinuationPrompt partialResponse in
       let history := formatChatHistory conversationHistory in
       continuationOutput <-
         call (SendMessage history continuationPrompt)
              (sendMessage w history continuationPrompt) ;;
       let aiOutput := partialResponse ++ continuationOutput in
       let conversationHistory := popPartialModelTurn conversationHistory in
       let conversationHistory :=
         (conversationHistory ++ [mkTurn "model" aiOutput])%list in
       ret (aiOutput, conversationHistory)
     else
       match conversationHistory with
       | [] =>
           aiOutput <-
             call (SendMessage [] userInput) (sendMessage w [] userInput) ;;
           ret (aiOutput, [mkTurn "user" userInput; mkTurn "model" aiOutput])
       | _ =>
           let history := formatChatHistory conversationHistory in
           aiOutput <-
             call (SendMessage history userInput)
                  (sendMessage w history userInput) ;;
           let conversationHistory :=
             (conversationHistory ++ [mkTurn "user" userInput])%list in
           let conversationHistory :=
             (conversationHistory ++ [mkTurn "model" aiOutput])%list in
           ret (aiOutput, conversationHistory)
       end) ;;
  let aiOutput := fst exchange in
  let conversationHistory := snd exchange in
  let isComplete := Js.includes aiOutput "## FINAL SUMMARY ##" in
  let projectInformation := if isComplete then aiOutput else "" in
  ret (Rec.object [Rec.Text aiOutput;
                   Rec.ConversationHistory conversationHistory;
                   Rec.IsComplete isComplete;
                   Rec.ProjectInformation projectInformation;
                   Rec.Continuation continuationMode]).

Definition handleToolRecommendation
    (projectInformation : string) (continuationMode : bool)
    (partialResponse : string) : Eff Rec.t :=
  catalog <-
    tryCatch
      (toolInformation <- readFromFile "tool_information.txt" ;;
       productUrls <- readFromFile "product_urls.txt" ;;
       ret (Some (toolInformation, productUrls)))
      (fun _ => ret None) ;;
  match catalog with
  | None => ret (Rec.object [Rec.Text catalogErrorText; Rec.Error true])
  | Some (toolInformation, productUrls) =>
      resultText <-
        (if continuationMode && Js.truthy partialResponse then
           let continuationPrompt :=
             recommendationContinuationPrompt partialResponse in
           continuationText <-
             call (GenerateContent continuationPrompt)
                  (generateContent w continuationPrompt) ;;
           ret (partialResponse ++ continuationText)
         else
           let prompt :=
             recommendationPrompt projectInformation toolInformation
               productUrls in
           call (GenerateContent prompt) (generateContent w prompt)) ;;
      ret (Rec.object [Rec.Text resultText; Rec.Error false;
                       Rec.Continuation continuationMode])
  end.

(** The parsed request body, with the defaults of the destructuring. *)
Record Request : Type := mkRequest {
  phase : string;
  userInput : string;
  conversationHistory : list Turn;
  projectInformation : string;
  streaming : bool;
  continuationMode : bool;
  partialResponse : string
}.

Definition POST (body : Request) : Eff Response :=
  tryCatch
    (if streaming body then
       if String.eqb (phase body) "gathering" then
         streamingResponse
           (streamInformationGathering (userInput body)
              (conversationHistory body) (continuationMode body)
              (partialResponse body))
       else if String.eqb (phase body) "recommendation" then
         streamingResponse
           (streamToolRecommendation (projectInformation body)
              (continuationMode body) (partialResponse body))
       else
         ret (JsonResponse 400
                (Rec.object
                   [Rec.Error true;
                    Rec.Text "Invalid phase specified for streaming. Must be 'gathering' or 'recommendation'."]))
     else
       if String.eqb (phase body) "gathering" then
         result <-
           handleInformationGathering (userInput body)
             (conversationHistory body) (continuationMode body)
             (partialResponse body) ;;
         ret (JsonResponse 200 result)
       else if String.eqb (phase body) "recommendation" then
         result <-
           handleToolRecommendation (projectInformation body)
             (continuationMode body) (partialResponse body) ;;
         ret (JsonResponse 200 result)
       else
         ret (JsonResponse 400
                (Rec.object
                   [Rec.Error true;
                    Rec.Text "Invalid phase specified. Must be 'gathering' or 'recommendation'."])))
    (fun message =>
       ret (JsonResponse 500
              (Rec.object
                 [Rec.Error true;
                  Rec.Text ("An error occurred while processing your request: "
                            ++ message)]))).

End Route.
End Part001.

(* ===================================================================== *)
(** ** The route with a [partialResponse] object (part_002) *)
(* ===================================================================== *)

Module Part002.
Section Route.

(** [initializeGeminiModel] configures the SDK model, here without a
    system instruction: the prompt is sent as the first message. *)
Variable w : World.
(** The two prompt texts of the file. *)
Variable IMPROVED_PROMPT : string.
Variable PROMPT_TEMPLATE : string.

(** The snapshot of an interrupted generation sent back by the client. *)
Record PartialResponse : Type := mkPartial {
  partialText : string;
  partialPhase : string
}.

Definition readFromFile (filename : string) : Eff string :=
  tryCatch (call (ReadFile filename) (readFile w filename))
           (fun error => throw error).

Definition formatChatHistory (history : list Turn) : list Turn :=
  match history with
  | [] => []
  | _ => map (fun msg => mkTurn (role msg) (text msg)) history
  end.

(** The prompt that asks to continue [previousOutput]. *)
Definition continuationPrompt (previousOutput : string) : string :=
  Js.nl
  ++ "The following is a partially completed response that was cut off due to a timeout."
  ++ Js.nl
  ++ "Please continue the response from where it was cut off, maintaining the same format and quality."
  ++ Js.nl ++ Js.nl
  ++ "Partial response:" ++ Js.nl
  ++ previousOutput ++ Js.nl ++ Js.nl
  ++ "Continue from where the response was cut off:".

Definition recommendationPrompt
    (projectInformation toolInformation productUrls : string) : string :=
  replace w
    (replace w
       (replace w PROMPT_TEMPLATE "{project_information}" projectInformation)
       "{tool_information}" toolInformation)
    "{product_urls_file}" productUrls.

Definition streamErrorRecord (message : string) : Rec.t :=
  Rec.object [Rec.Error true;
              Rec.Text ("Error in streaming response: " ++ message);
              Rec.Done true].

Definition catalogErrorText : string :=
  "Error: Unable to access tool information or product URLs. Please try again later.".

Definition streamInformationGathering
    (userInput : string) (conversationHistory : list Turn) : Eff unit :=
  tryCatch
    (conversationHistory <-
       match conversationHistory with
       | [] =>
           call (SendMessage [] IMPROVED_PROMPT)
                (sendMessage w [] IMPROVED_PROMPT) ;;;
           ret [mkTurn "user" IMPROVED_PROMPT;
                mkTurn "model" "System initialization complete"]
       | _ => ret conversationHistory
       end ;;
     streamResult <-
       call (GenerateContentStream userInput)
            (Return (generateContentStream w userInput)) ;;
     fullResponseText <-
       forAwait streamResult ""
         (fun fullResponseText chunkText =>
            enqueue (Rec.object [Rec.Chunk chunkText; Rec.Done false]) ;;;
            ret (fullResponseText ++ chunkText)) ;;
     let isComplete := Js.includes fullResponseText "## FINAL SUMMARY ##" in
     let projectInformation := if isComplete then fullResponseText else "" in
     let conversationHistory :=
       (conversationHistory ++ [mkTurn "user" userInput])%list in
     let conversationHistory :=
       (conversationHistory ++ [mkTurn "model" fullResponseText])%list in
     enqueue (Rec.object [Rec.Done true;
                          Rec.ConversationHistory conversationHistory;
                          Rec.IsComplete isComplete;
                          Rec.ProjectInformation projectInformation]) ;;;
     close)
    (fun message => enqueue (streamErrorRecord message) ;;; close).

Definition streamToolRecommendation
    (projectInformation : string)
    (partialResponse : option PartialResponse) : Eff unit :=
  tryCatch
    (catalog <-
       tryCatch
         (toolInformation <- readFromFile "tool_information.txt" ;;
          productUrls <- readFromFile "product_urls.txt" ;;
          ret (Some (toolInformation, productUrls)))
         (fun _ =>
            enqueue (Rec.object [Rec.Error true; Rec.Text catalogErrorText;
                                 Rec.Done true]) ;;;
            close ;;;
            ret None) ;;
     match catalog with
     | None => ret tt
     | Some (toolInformation, productUrls) =>
         let previousOutput :=
           match partialResponse with
           | Some partial => Js.or (partialText partial) ""
           | None => ""
           end in
         let prompt :=
           match partialResponse with
           | Some _ => continuationPrompt previousOutput
           | None =>
               recommendationPrompt projectInformation toolInformation
                 productUrls
           end in
         streamResult <-
           call (GenerateContentStream prompt)
                (Return (generateContentStream w prompt)) ;;
         newResponseText <-
           forAwait streamResult ""
             (fun newResponseText chunkText =>
                enqueue (Rec.object [Rec.Chunk chunkText; Rec.Done false]) ;;;
                ret (newResponseText ++ chunkText)) ;;
         let fullResponseText :=
           match partialResponse with
           | Some _ => previousOutput ++ newResponseText
           | None => newResponseText
           end in
         enqueue (Rec.object [Rec.Done true; Rec.Text fullResponseText;
                              Rec.PartialText newResponseText]) ;;;
         close
     end)
    (fun message => enqueue (streamErrorRecord message) ;;; close).

(** The prompt the recommendation handlers send to the model: the two
    branches of their [if (partialResponse)]. *)
Definition promptSent
    (projectInformation : string) (partialResponse : option PartialResponse)
    (toolInformation productUrls : string) : string :=
  match partialResponse with
  | Some partial => continuationPrompt (Js.or (partialText partial) "")
  | None => recommendationPrompt projectInformation toolInformation productUrls
  end.

Definition handleInformationGathering
    (userInput : string) (conversationHistory : list Turn) : Eff Rec.t :=
  opened <-
    match conversationHistory with
    | [] =>
        systemResponse <-
          call (SendMessage [] IMPROVED_PROMPT)
               (sendMessage w [] IMPROVED_PROMPT) ;;
        let conversationHistory :=
          [mkTurn "user" IMPROVED_PROMPT; mkTurn "model" systemResponse] in
        ret (conversationHistory, conversationHistory)
    | _ => ret (formatChatHistory conversationHistory, conversationHistory)
    end ;;
  let chat := fst opened in
  let conversationHistory := snd opened in
  aiOutput <- call (SendMessage chat userInput) (sendMessage w chat userInput) ;;
  let conversationHistory :=
    (conversationHistory ++ [mkTurn "user" userInput])%list in
  let conversationHistory :=
    (conversationHistory ++ [mkTurn "model" aiOutput])%list in
  let isComplete := Js.includes aiOutput "## FINAL SUMMARY ##" in
  let projectInformation := if isComplete then aiOutput else "" in
  ret (Rec.object [Rec.Text aiOutput;
                   Rec.ConversationHistory conversationHistory;
                   Rec.IsComplete isComplete;
                   Rec.ProjectInformation projectInformation]).

Definition handleToolRecommendation
    (projectInformation : string)
    (partialResponse : option PartialResponse) : Eff Rec.t :=
  catalog <-
    tryCatch
      (toolInformation <- readFromFile "tool_information.txt" ;;
       productUrls <- readFromFile "product_urls.txt" ;;
       ret (Some (toolInformation, productUrls)))
      (fun _ => ret None) ;;
  match catalog with
  | None => ret (Rec.object [Rec.Text catalogErrorText; Rec.Error true])
  | Some (toolInformation, productUrls) =>
      let previousOutput :=
        match partialResponse with
        | Some partial => Js.or (partialText partial) ""
        | None => ""
        end in
      let prompt :=
        match partialResponse with
        | Some _ => continuationPrompt previousOutput
        | None =>
            recommendationPrompt projectInformation toolInformation
              productUrls
        end in
      newResponseText <-
        call (GenerateContent prompt) (generateContent w prompt) ;;
      let fullResponseText :=
        match partialResponse with
        | Some _ => previousOutput ++ newResponseText
        | None => newResponseText
        end in
      ret (Rec.object [Rec.Text fullResponseText;
                       Rec.PartialText newResponseText;
                       Rec.Error false])
  end.

Record Request : Type := mkRequest {
  phase : string;
  userInput : string;
  conversationHistory : list Turn;
  projectInformation : string;
  streaming : bool;
  partialResponse : option PartialResponse
}.

Definition POST (body : Request) : Eff Response :=
  tryCatch
    (if streaming body then
       if String.eqb (phase body) "gathering" then
         streamingResponse
           (streamInformationGathering (userInput body)
              (conversationHistory body))
       else if String.eqb (phase body) "recommendation" then
         streamingResponse
           (streamToolRecommendation (projectInformation body)
              (partialResponse body))
       else
         ret (JsonResponse 400
                (Rec.object
                   [Rec.Error true;
                    Rec.Text "Invalid phase specified for streaming. Must be 'gathering' or 'recommendation'."]))
     else
       if String.eqb (phase body) "gathering" then
         result <-
           handleInformationGathering (userInput body)
             (conversationHistory body) ;;
         ret (JsonResponse 200 result)
       else if String.eqb (phase body) "recommendation" then
         result <-
           handleToolRecommendation (projectInformation body)
             (partialResponse body) ;;
         ret (JsonResponse 200 result)
       else
         ret (JsonResponse 400
                (Rec.object
                   [Rec.Error true;
                    Rec.Text "Invalid phase specified. Must be 'gathering' or 'recommendation'."])))
    (fun message =>
       ret (JsonResponse 500
              (Rec.object
                 [Rec.Error true;
                  Rec.Text ("An error occurred while processing your request: "
                            ++ message)]))).

End Route.
End Part002.

(* ===================================================================== *)
(** ** The stream on the wire *)
(* ===================================================================== *)

(** [JSON.stringify] on a record of a route, and [JSON.parse] followed by
    the property reads of the client: [None] when the parse or a property
    read throws. *)
Record Json : Type := mkJson {
  stringify : Rec.t -> string;
  parse : string -> option Rec.t
}.

Module Wire.

(** [s.split("\n")]. *)
Fixpoint split (s : string) : list string :=
  match s with
  | EmptyString => [EmptyString]
  | String c s' =>
      if Ascii.eqb c (ascii_of_nat 10) then EmptyString :: split s'
      else
        match split s' with
        | [] => [String c EmptyString]
        | first :: rest => String c first :: rest
        end
  end.

(** [chunkText.split("\n").filter(Boolean)]: the lines of the decoded
    text of one read, without the empty ones.  Nothing is carried over
    from one read to the next. *)
Definition lines (chunkText : string) : list string :=
  filter Js.truthy (split chunkText).

(** What a route enqueues for a record:
    [encoder.encode(JSON.stringify(record) + "\n")]. *)
Definition line (json : Json) (r : Rec.t) : string :=
  stringify json r ++ Js.nl.

(** The text of a read in which the records [rs] arrive whole. *)
Definition encode (json : Json) (rs : list Rec.t) : string :=
  Js.concat (map (line json) rs).

(** No line feed in [s]. *)
Fixpoint oneLine (s : string) : bool :=
  match s with
  | EmptyString => true
  | String c s' => negb (Ascii.eqb c (ascii_of_nat 10)) && oneLine s'
  end.

(** [JSON.stringify] writes the record [r] as one line that is not
    empty, and [JSON.parse] reads it back. *)
Definition readable (json : Json) (r : Rec.t) : Prop :=
  parse json (stringify json r) = Some r
  /\ oneLine (stringify json r) = true
  /\ stringify json r <> EmptyString.

End Wire.

(* ===================================================================== *)
(** ** The chat component (ToolHireChatbot.jsx) *)
(* ===================================================================== *)

(** The part of the component's state the requests depend on: the phase,
    the conversation history and the project information, together with
    the calls to [handleRecommendationPhase] it has scheduled.  The list
    of rendered messages (apart from the error messages of a stream) and
    the loading flag are left out, and so is [handleResetProject], which
    starts a new project.  The watchdog timer is modelled apart. *)
Module Client.

Inductive Phase : Type := gathering | recommendation.

Record State : Type := mkState {
  phase : Phase;
  conversationHistory : list Turn;
  projectInformation : option string;
  scheduled : list (option string)
}.

(** [useState] initial values. *)
Definition initial : State := mkState gathering [] (Some "") [].

Definition isGathering (p : Phase) : bool :=
  match p with gathering => true | recommendation => false end.

(** Truthiness of an optional boolean key. *)
Definition truthy (b : option bool) : bool :=
  match b with Some true => true | _ => false end.

(** The inner [for] loop over the lines of one read: a line that does
    not parse is logged and skipped, an error record breaks out of the
    loop, a record that is not done is a fragment, any other record
    becomes [completeData]. *)
Fixpoint readChunks (json : Json) (chunks : list string)
    (completeData : option Rec.t) : option Rec.t :=
  match chunks with
  | [] => completeData
  | chunk :: rest =>
      match parse json chunk with
      | None => readChunks json rest completeData
      | Some data =>
          if truthy (Rec.error data) then completeData
          else if negb (truthy (Rec.done data)) then
            readChunks json rest completeData
          else readChunks json rest (Some data)
      end
  end.

(** The [while] loop over the reads of the response body, each read
    given by its decoded text. *)
Definition readStream (json : Json) (reads : list string) : option Rec.t :=
  fold_left (fun completeData chunkText =>
               readChunks json (Wire.lines chunkText) completeData)
            reads None.

(** The [content] of the system messages that the [data.error] branch of
    the inner loop adds for one read. *)
Fixpoint errorMessages (json : Json) (chunks : list string)
    : list (option string) :=
  match chunks with
  | [] => []
  | chunk :: rest =>
      match parse json chunk with
      | None => errorMessages json rest
      | Some data =>
          if truthy (Rec.error data) then [Rec.text data]
          else errorMessages json rest
      end
  end.

(** The system messages added while a stream is read. *)
Definition systemMessages (json : Json) (reads : list string)
    : list (option string) :=
  flat_map (fun chunkText => errorMessages json (Wire.lines chunkText)) reads.

(** The block run once the stream has ended, with the [phase] the
    handler closed over. *)
Definition onComplete (phase : Phase) (completeData : Rec.t) (st : State)
    : State :=
  let st :=
    match Rec.conversationHistory completeData with
    | Some history =>
        mkState (Client.phase st) history (projectInformation st) (scheduled st)
    | None => st
    end in
  if truthy (Rec.isComplete completeData) && isGathering phase then
    mkState recommendation (conversationHistory st)
            (Rec.projectInformation completeData)
            (scheduled st ++ [Rec.projectInformation completeData])
  else st.

(** What [handleSendMessage] and [handleContinuationForGathering] do to
    the state once their stream has ended: [seen] is the [phase] of the
    render that created the handler, [st] the state at the end of the
    stream. *)
Definition handleSendMessage (json : Json) (seen : Phase)
    (reads : list string) (st : State) : State :=
  match readStream json reads with
  | Some completeData => onComplete seen completeData st
  | None => st
  end.

(** [handleRecommendationPhase] and [handleContinuationForRecommendation]
    call [setIsLoading], [setCurrentStreamingMessage] and [setMessages]
    only: they render the stream and write none of the modelled state. *)
Definition handleRecommendationPhase (st : State) (reads : list string)
    : State := st.

(** A handler of the gathering phase that has been started: the [phase]
    it closed over, and whether its stream has ended. *)
Record Handler : Type := mkHandler {
  seen : Phase;
  ended : bool
}.

(** The state of the component and the gathering handlers started so
    far, oldest first. *)
Record Component : Type := mkComponent {
  state : State;
  handlers : list Handler
}.

Definition mounted : Component := mkComponent initial [].

Definition start (seen : Phase) (c : Component) : Component :=
  mkComponent (state c) (handlers c ++ [mkHandler seen false]).

(** The handler [n] with its stream marked as ended. *)
Fixpoint finish (n : nat) (hs : list Handler) : list Handler :=
  match hs, n with
  | [], _ => []
  | h :: rest, 0 => mkHandler (seen h) true :: rest
  | h :: rest, S n' => h :: finish n' rest
  end.

(** What happens to the component, in any order.  The handlers are
    asynchronous, so the stream of one can end after another one was
    started:
    - the user sends a message: [handleSendMessage] of the current
      render starts, and closes over the current phase;
    - the watchdog armed by the handler [n] runs out: the timer callback
      was created by [resetTimeoutTimer] of the render of that handler,
      so [handleTimeout] and [handleContinuationForGathering] of that
      render start, and close over the phase that handler closed over;
    - the stream of the handler [n] ends, once;
    - a recommendation request is answered.
    Whether the watchdog of a handler is still armed is not tracked
    here, so the runs of the component are among the runs of these
    steps.  The initial-message effect, whose completion block does not
    test the phase, is left out. *)
Inductive Step : Type :=
| Send
| Timeout (n : nat)
| Complete (n : nat) (reads : list string)
| Recommend (reads : list string).

Definition step (json : Json) (c : Component) (s : Step) : Component :=
  match s with
  | Send => start (phase (state c)) c
  | Timeout n =>
      match nth_error (handlers c) n with
      | Some h => start (seen h) c
      | None => c
      end
  | Complete n reads =>
      match nth_error (handlers c) n with
      | Some h =>
          if ended h then c
          else mkComponent (handleSendMessage json (seen h) reads (state c))
                           (finish n (handlers c))
      | None => c
      end
  | Recommend reads =>
      mkComponent (handleRecommendationPhase (state c) reads) (handlers c)
  end.

Definition run (json : Json) (c : Component) (steps : list Step) : Component :=
  fold_left (step json) steps c.

(** Whether a step switches the phase from gathering to recommendation. *)
Definition fires (json : Json) (c : Component) (s : Step) : bool :=
  isGathering (phase (state c))
  && negb (isGathering (phase (state (step json c s)))).

(** How many times the phase switches along a run. *)
Fixpoint transitions (json : Json) (c : Component) (steps : list Step) : nat :=
  match steps with
  | [] => 0
  | s :: rest =>
      (if fires json c s then 1 else 0) + transitions json (step json c s) rest
  end.

End Client.

(* ===================================================================== *)
(** ** Records named in the statements below *)
(* ===================================================================== *)

(** The terminal record of a gathering stream that ended normally, with
    the extra keys of a continuation. *)
Definition gatheringDone (history : list Turn) (fullResponseText : string)
    (continuationFields : list Rec.Field) : Rec.t :=
  Rec.object
    ([Rec.Done true;
      Rec.ConversationHistory history;
      Rec.IsComplete (Js.includes fullResponseText "## FINAL SUMMARY ##");
      Rec.ProjectInformation
        (if Js.includes fullResponseText "## FINAL SUMMARY ##"
         then fullResponseText else "")]
     ++ continuationFields)%list.

(** The terminal record of a stream whose catalog could not be read (the
    same in part_001 and part_002). *)
Definition catalogErrorRecord : Rec.t :=
  Rec.object [Rec.Error true; Rec.Text Part001.catalogErrorText; Rec.Done true].

(** The body of the plain response when the catalog cannot be read. *)
Definition catalogErrorResult : Rec.t :=
  Rec.object [Rec.Text Part001.catalogErrorText; Rec.Error true].

(** [returns m P]: when the computation returns, its value satisfies [P]. *)
Definition returns {A : Type} (m : Eff A) (P : A -> Prop) : Prop :=
  match fst m with
  | Return a => P a
  | Throw _ => True
  end.

(** The last record of a stream. *)
Definition terminal (stream : list Rec.t) : option Rec.t :=
  match rev stream with
  | [] => None
  | r :: _ => Some r
  end.

(** A concrete world for the examples: every file holds ["catalog"], the
    model answers ["tial"] to a plain call and streams ["b"], ["c"], the
    REST endpoint answers with status 500, and [replace] leaves the
    template alone. *)
Definition exampleWorld : World :=
  mkWorld (fun _ => Return "catalog")
          (fun _ _ => FetchNotOk "500" "")
          (fun _ => Return "tial")
          (fun _ => mkStream ["b"; "c"] None)
          (fun _ _ => Return "tial")
          (fun _ _ => mkStream ["b"; "c"] None)
          (fun template _ _ => template).

(** A world whose model continues with [" SUMMARY ## done"]. *)
Definition splitSentinelWorld : World :=
  mkWorld (fun _ => Return "catalog")
          (fun _ _ => FetchNotOk "500" "")
          (fun _ => Return " SUMMARY ## done")
          (fun _ => mkStream [" SUMM"; "ARY ## done"] None)
          (fun _ _ => Return " SUMMARY ## done")
          (fun _ _ => mkStream [" SUMM"; "ARY ## done"] None)
          (fun template _ _ => template).

(** The outcomes of the REST call that end in the [catch] of
    [fetchGeminiResponse]: a network failure, a failure status, a body
    that is not JSON, no candidate list, an empty one, or a first
    candidate on which the path to the text does not exist. *)
Definition fetchCaught (o : FetchOutcome) : bool :=
  match o with
  | FetchThrows _ | FetchNotOk _ _ | FetchBadJson _ => true
  | FetchJson None | FetchJson (Some []) => true
  | FetchJson (Some (CandidateMalformed _ :: _)) => true
  | FetchJson (Some (_ :: _)) => false
  end.

(** The first candidate of the payload holds no text:
    [candidates[0].content.parts[0].text] is [undefined]. *)
Definition textMissing (o : FetchOutcome) : bool :=
  match o with
  | FetchJson (Some (CandidateNoText :: _)) => true
  | _ => false
  end.

(** The completion gateway returned a failure status or an empty or
    malformed result. *)
Definition upstreamFails (o : FetchOutcome) : bool :=
  fetchCaught o || textMissing o.

(** A reply that speaks of the summary without the marker. *)
Definition unmarkedReply : string :=
  "I will write the FINAL SUMMARY once you tell me the size of the deck.".

(** A world whose REST endpoint answers with [unmarkedReply]. *)
Definition unmarkedWorld : World :=
  mkWorld (fun _ => Return "catalog")
          (fun _ _ => FetchJson (Some [CandidateText unmarkedReply]))
          (fun _ => Return unmarkedReply)
          (fun _ => mkStream [unmarkedReply] None)
          (fun _ _ => Return unmarkedReply)
          (fun _ _ => mkStream [unmarkedReply] None)
          (fun template _ _ => template).

(** The full output text a gathering result carries: its [text] key or,
    for the terminal record of a stream, the text of the model turn that
    ends its history. *)
Definition outputText (r : Rec.t) : option string :=
  match Rec.text r with
  | Some t => Some t
  | None =>
      match Rec.conversationHistory r with
      | Some history =>
          match rev history with
          | turn :: _ => Some (text turn)
          | [] => None
          end
      | None => None
      end
  end.

(** The invariant of the project information: a non-empty string exactly
    when [isComplete] is [true], and then the full output text. *)
Definition projectInformationInvariant (r : Rec.t) : Prop :=
  ((exists s, Rec.projectInformation r = Some s /\ s <> "")
   <-> Rec.isComplete r = Some true)
  /\ (Rec.isComplete r = Some true -> Rec.projectInformation r = outputText r).

(** Reading one of the two catalog files fails. *)
Definition catalogFails (w : World) : Prop :=
  (exists e, readFile w "tool_information.txt" = Throw e)
  \/ (exists e, readFile w "product_urls.txt" = Throw e).

(** A world in which the product URL file is missing. *)
Definition noUrlsWorld : World :=
  mkWorld (fun filename =>
             if String.eqb filename "product_urls.txt"
             then Throw "ENOENT: no such file or directory"
             else Return "catalog")
          (fun _ _ => FetchNotOk "500" "")
          (fun _ => Return "tial")
          (fun _ => mkStream ["b"; "c"] None)
          (fun _ _ => Return "tial")
          (fun _ _ => mkStream ["b"; "c"] None)
          (fun template _ _ => template).

(** A record that carries a fragment only. *)
Definition isFragment (r : Rec.t) : Prop :=
  Rec.chunk r <> None
  /\ Rec.done r = Some false
  /\ Rec.error r = None
  /\ Rec.text r = None
  /\ Rec.conversationHistory r = None
  /\ Rec.isComplete r = None
  /\ Rec.projectInformation r = None.

(** The final state of a gathering turn whose full text is [full]: the
    updated history, ending with the full text, the completion flag and
    the project information. *)
Definition gatheringState (full : string) (r : Rec.t) : Prop :=
  Rec.error r = None
  /\ Rec.conversationHistory r <> None
  /\ outputText r = Some full
  /\ Rec.isComplete r = Some (Js.includes full SENTINEL)
  /\ Rec.projectInformation r <> None.

(** The final state of a recommendation whose full text is [full]. *)
Definition recommendationState (full : string) (r : Rec.t) : Prop :=
  Rec.error r = None /\ Rec.text r = Some full.

(** The record that ends a failed stream: an error flag and a message,
    and none of the final state. *)
Definition isErrorRecord (r : Rec.t) : Prop :=
  Rec.error r = Some true
  /\ Rec.text r <> None
  /\ Rec.conversationHistory r = None
  /\ Rec.isComplete r = None
  /\ Rec.projectInformation r = None.

(** The terminal-record discipline of a stream: fragments only, then one
    last record with [done: true] that satisfies [final]. *)
Definition disciplined (final : Rec.t -> Prop) (stream : list Rec.t) : Prop :=
  exists fragments last,
    stream = (fragments ++ [last])%list
    /\ Forall isFragment fragments
    /\ Rec.done last = Some true
    /\ final last.

(** The number of records of a stream with [done: true]. *)
Definition doneCount (stream : list Rec.t) : nat :=
  length (filter (fun r => match Rec.done r with Some true => true | _ => false end)
                 stream).

(** What the last record must be: the final state when the request went
    through, the error record when it did not. *)
Definition stateOrError (ok : bool) (state : Rec.t -> Prop) (r : Rec.t) : Prop :=
  if ok then state r else isErrorRecord r.

Definition endsNormally (s : StreamReply) : bool :=
  match failure s with None => true | Some _ => false end.

Definition returned {A : Type} (c : Completion A) : bool :=
  match c with Return _ => true | Throw _ => false end.

(** A world whose model stream breaks after the fragment ["par"]. *)
Definition brokenStreamWorld : World :=
  mkWorld (fun _ => Return "catalog")
          (fun _ _ => FetchNotOk "500" "")
          (fun _ => Throw "fetch failed")
          (fun _ => mkStream ["par"] (Some "fetch failed"))
          (fun _ _ => Throw "fetch failed")
          (fun _ _ => mkStream ["par"] (Some "fetch failed"))
          (fun template _ _ => template).

(** The record of one fragment. *)
Definition chunkRecord (extra : list Rec.Field) (chunkText : string) : Rec.t :=
  Rec.object ([Rec.Chunk chunkText; Rec.Done false] ++ extra)%list.

(* ===================================================================== *)
(** ** Notions for the properties of the routes *)
(* ===================================================================== *)

(** The turns of a list of exchanges, a user input and the reply to it. *)
Definition exchangeTurns (exchanges : list (string * string)) : list Turn :=
  flat_map (fun e => [mkTurn "user" (fst e); mkTurn "model" (snd e)]) exchanges.

(** A history made of exchanges: a user turn, a model turn, and so on. *)
Fixpoint alternates (h : list Turn) : bool :=
  match h with
  | [] => true
  | u :: m :: rest =>
      String.eqb (role u) "user" && String.eqb (role m) "model" && alternates rest
  | _ => false
  end.

(** Successive plain gathering requests to part_001, none a continuation,
    each sent with the history the previous one returned, as the client
    does; [None] when a request fails. *)
Fixpoint conversation001 (w : World) (inputs : list string) (h : list Turn)
    : option (list Turn) :=
  match inputs with
  | [] => Some h
  | u :: rest =>
      match fst (Part001.handleInformationGathering w u h false "") with
      | Return r =>
          match Rec.conversationHistory r with
          | Some h' => conversation001 w rest h'
          | None => None
          end
      | Throw _ => None
      end
  end.

(** What a record says apart from the conversation history. *)
Definition withoutHistory (r : Rec.t) : Rec.t :=
  Rec.mk (Rec.chunk r) (Rec.done r) (Rec.error r) (Rec.text r) None
         (Rec.conversationContext r) (Rec.isComplete r)
         (Rec.projectInformation r) (Rec.continuation r) (Rec.fullResponse r)
         (Rec.partialText r).

(** The statuses [POST] answers with, and what a body of each holds. *)
Definition answered (r : Response) : Prop :=
  match r with
  | JsonResponse status body =>
      (status = 200 \/ status = 400 \/ status = 500)
      /\ (status <> 200 -> Rec.error body = Some true /\ Rec.text body <> None)
  | StreamResponse body => doneCount body = 1
  end.

(** A world whose model echoes the message of a chat and streams it in
    one fragment. *)
Definition echoWorld : World :=
  mkWorld (fun _ => Return "catalog")
          (fun _ _ => FetchJson (Some [CandidateText "reply"]))
          (fun prompt => Return prompt)
          (fun prompt => mkStream [prompt] None)
          (fun _ message => Return message)
          (fun _ message => mkStream [message] None)
          (fun template _ _ => template).

(* ===================================================================== *)
(** ** [String.prototype.replace] with a string pattern *)
(* ===================================================================== *)

Module JsReplace.

(** [s.substring(n)]. *)
Fixpoint drop (n : nat) (s : string) : string :=
  match n, s with
  | 0, _ => s
  | S _, EmptyString => EmptyString
  | S n', String _ s' => drop n' s'
  end.

(** The text before and the text after the first occurrence of
    [pattern] in [s], [None] when there is none. *)
Fixpoint cut (s pattern : string) : option (string * string) :=
  if Js.startsWith s pattern then Some ("", drop (String.length pattern) s)
  else
    match s with
    | EmptyString => None
    | String c s' =>
        match cut s' pattern with
        | Some (before, after) => Some (String c before, after)
        | None => None
        end
    end.

(** The replacement text with its dollar patterns expanded.  A string
    pattern has no capture, so the patterns are the two dollars (one
    dollar), dollar ampersand (the match), dollar backquote (the text
    before the match) and dollar quote (the text after it); any other
    dollar stands for itself. *)
Fixpoint getSubstitution (matched before after replacement : string) : string :=
  match replacement with
  | EmptyString => EmptyString
  | String c rest =>
      if Ascii.eqb c "$" then
        match rest with
        | EmptyString => String c EmptyString
        | String d rest' =>
            if Ascii.eqb d "$" then
              String "$" (getSubstitution matched before after rest')
            else if Ascii.eqb d "&" then
              matched ++ getSubstitution matched before after rest'
            else if Ascii.eqb d "`" then
              before ++ getSubstitution matched before after rest'
            else if Ascii.eqb d "'" then
              after ++ getSubstitution matched before after rest'
            else String c (getSubstitution matched before after rest)
        end
      else String c (getSubstitution matched before after rest)
  end.

(** [s.replace(pattern, replacement)]: the first occurrence only. *)
Definition replace (s pattern replacement : string) : string :=
  match cut s pattern with
  | None => s
  | Some (before, after) =>
      before ++ getSubstitution pattern before after replacement ++ after
  end.

(** [c] does not occur in [s]. *)
Fixpoint without (c : ascii) (s : string) : bool :=
  match s with
  | EmptyString => true
  | String x s' => negb (Ascii.eqb x c) && without c s'
  end.

End JsReplace.

(** The world [w] with the [replace] of JavaScript. *)
Definition withReplace (w : World) : World :=
  mkWorld (readFile w) (fetch w) (generateContent w) (generateContentStream w)
          (sendMessage w) (sendMessageStream w) JsReplace.replace.

(* ===================================================================== *)
(** ** The client's stream watchdog (ToolHireChatbot.jsx, lines 28-106) *)
(* ===================================================================== *)

Module Watchdog.

(** The object kept in [currentRequestRef]. *)
Record RequestInfo : Type := mkInfo {
  phase : Client.Phase;
  userInput : option string;
  projectInformation : option string
}.

(** What [handleTimeout] does: the system message it adds and the
    continuation handler it calls. *)
Inductive Action : Type :=
| TimeoutNotice
| ContinueGathering (userInput : option string) (partialResponse : string)
| ContinueRecommendation (projectInformation : option string)
                         (partialResponse : string).

(** The four refs of the component, the timers that [setTimeout] has
    armed and that have neither fired nor been cleared, the identifier
    of the next timer, and the actions of [handleTimeout] so far. *)
Record State : Type := mkState {
  timeoutRef : option nat;
  responseRef : string;
  isStreamingRef : bool;
  currentRequestRef : RequestInfo;
  timers : list nat;
  nextTimer : nat;
  actions : list Action
}.

(** [useRef] initial values; timer identifiers are positive. *)
Definition initial : State :=
  mkState None "" false (mkInfo Client.gathering (Some "") (Some "")) [] 1 [].

Definition clearTimeout (id : nat) (armed : list nat) : list nat :=
  filter (fun t => negb (Nat.eqb t id)) armed.

Definition clearTimeoutTimer (st : State) : State :=
  match timeoutRef st with
  | Some id =>
      if negb (Nat.eqb id 0) then
        mkState None (responseRef st) (isStreamingRef st)
                (currentRequestRef st) (clearTimeout id (timers st))
                (nextTimer st) (actions st)
      else st
  | None => st
  end.

Definition resetTimeoutTimer (st : State) : State :=
  let st := clearTimeoutTimer st in
  if isStreamingRef st then
    mkState (Some (nextTimer st)) (responseRef st) (isStreamingRef st)
            (currentRequestRef st) (nextTimer st :: timers st)
            (S (nextTimer st)) (actions st)
  else st.

Definition startStreamTracking (requestInfo : RequestInfo) (st : State)
    : State :=
  resetTimeoutTimer
    (mkState (timeoutRef st) "" true requestInfo (timers st) (nextTimer st)
             (actions st)).

Definition updateResponseContent (chunk : string) (st : State) : State :=
  resetTimeoutTimer
    (mkState (timeoutRef st) (responseRef st ++ chunk) (isStreamingRef st)
             (currentRequestRef st) (timers st) (nextTimer st) (actions st)).

Definition finishStreamTracking (st : State) : State :=
  let st := clearTimeoutTimer st in
  mkState (timeoutRef st) (responseRef st) false (currentRequestRef st)
          (timers st) (nextTimer st) (actions st).

(** The continuation [handleTimeout] starts for a request. *)
Definition continuation (requestInfo : RequestInfo) (partialResponse : string)
    : Action :=
  match phase requestInfo with
  | Client.gathering =>
      ContinueGathering (userInput requestInfo) partialResponse
  | Client.recommendation =>
      ContinueRecommendation (projectInformation requestInfo) partialResponse
  end.

Definition handleTimeout (partialResponse : string) (st : State) : State :=
  mkState (timeoutRef st) (responseRef st) (isStreamingRef st)
          (currentRequestRef st) (timers st) (nextTimer st)
          (actions st
           ++ [TimeoutNotice;
               continuation (currentRequestRef st) partialResponse])%list.

(** The refs part of [handleResetProject]. *)
Definition handleResetProject (st : State) : State :=
  let st := clearTimeoutTimer st in
  mkState (timeoutRef st) "" false
          (mkInfo Client.gathering (Some "") (Some ""))
          (timers st) (nextTimer st) (actions st).

(** The timer [id] runs out: an armed timer leaves the armed ones and
    its callback runs; a timer that was cleared does nothing. *)
Definition fire (id : nat) (st : State) : State :=
  if existsb (Nat.eqb id) (timers st) then
    let st :=
      mkState (timeoutRef st) (responseRef st) (isStreamingRef st)
              (currentRequestRef st) (clearTimeout id (timers st))
              (nextTimer st) (actions st) in
    let st := handleTimeout (responseRef st) st in
    mkState (timeoutRef st) (responseRef st) false (currentRequestRef st)
            (timers st) (nextTimer st) (actions st)
  else st.

(** What can happen to the watchdog, in any order: the calls of its
    functions by the handlers, the reset of the project, the cleanup of
    the initial-message effect (lines 1074-1076), which runs
    [clearTimeoutTimer] when one of its dependencies has changed, and a
    timer that runs out. *)
Inductive Event : Type :=
| Start (requestInfo : RequestInfo)
| Update (chunk : string)
| Finish
| Reset
| Cleanup
| Fire (id : nat).

Definition step (st : State) (e : Event) : State :=
  match e with
  | Start requestInfo => startStreamTracking requestInfo st
  | Update chunk => updateResponseContent chunk st
  | Finish => finishStreamTracking st
  | Reset => handleResetProject st
  | Cleanup => clearTimeoutTimer st
  | Fire id => fire id st
  end.

Definition run (events : list Event) (st : State) : State :=
  fold_left step events st.

Definition isStart (e : Event) : bool :=
  match e with Start _ => true | _ => false end.

(** The number of timeouts handled so far. *)
Definition timeouts (st : State) : nat :=
  length (filter (fun a => match a with TimeoutNotice => true | _ => false end)
                 (actions st)).

(** [data.chunk] appended to a string. *)
Definition chunkOf (data : Rec.t) : string :=
  match Rec.chunk data with Some c => c | None => "undefined" end.

(** The calls of [updateResponseContent] in the inner [for] loop of the
    stream handlers: one for each line that parses to a record that is
    neither an error nor done, up to the first error record of the
    read. *)
Fixpoint trackChunks (json : Json) (chunks : list string) (st : State)
    : State :=
  match chunks with
  | [] => st
  | chunk :: rest =>
      match parse json chunk with
      | None => trackChunks json rest st
      | Some data =>
          if Client.truthy (Rec.error data) then st
          else if negb (Client.truthy (Rec.done data)) then
            trackChunks json rest (updateResponseContent (chunkOf data) st)
          else trackChunks json rest st
      end
  end.

Definition trackStream (json : Json) (reads : list string) (st : State)
    : State :=
  fold_left (fun st chunkText => trackChunks json (Wire.lines chunkText) st)
            reads st.

(** The reading loop and the [if (completeData)] after it. *)
Definition receive (json : Json) (reads : list string) (st : State) : State :=
  let st := trackStream json reads st in
  match Client.readStream json reads with
  | Some _ => finishStreamTracking st
  | None => st
  end.

(** The watchdog calls of [handleSendMessage] (for a message that is
    not blank) and [handleRecommendationPhase], which start the tracking
    before the request; [response] is [None] when [fetch] throws or the
    response is not ok, and else holds the decoded text of each read of
    the body. *)
Definition handleSendMessage (json : Json) (requestInfo : RequestInfo)
    (response : option (list string)) (st : State) : State :=
  let st := startStreamTracking requestInfo st in
  match response with
  | None => st
  | Some reads => receive json reads st
  end.

(** The watchdog calls of [handleContinuationForGathering] and
    [handleContinuationForRecommendation], which start the tracking once
    the response is there. *)
Definition handleContinuation (json : Json) (requestInfo : RequestInfo)
    (response : option (list string)) (st : State) : State :=
  match response with
  | None => st
  | Some reads => receive json reads (startStreamTracking requestInfo st)
  end.

(** The watchdog calls of the initial-message effect (lines 903-1072):
    as [handleSendMessage], then [finishStreamTracking] in the [finally]
    of the promise chain. *)
Definition initialMessage (json : Json) (requestInfo : RequestInfo)
    (response : option (list string)) (st : State) : State :=
  finishStreamTracking (handleSendMessage json requestInfo response st).

(** At most one timer is armed; it is the one in [timeoutRef], and a
    stream is being tracked. *)
Definition guarded (st : State) : Prop :=
  timers st = []
  \/ exists id, id <> 0 /\ timers st = [id] /\ timeoutRef st = Some id
                /\ isStreamingRef st = true.

End Watchdog.

(* ===================================================================== *)
(** ** Notions for the stream on the wire *)
(* ===================================================================== *)

(** A record that arrives whole and does not end the inner loop of its
    read. *)
Definition passes (json : Json) (d : Rec.t) : Prop :=
  Wire.readable json d /\ Client.truthy (Rec.error d) = false.

(** The terminal record of a completed gathering turn, for the
    examples. *)
Definition completeRecord : Rec.t :=
  Rec.object [Rec.Done true; Rec.IsComplete true;
              Rec.ProjectInformation "## FINAL SUMMARY ## deck"].

(** A codec for the examples: it writes a record as the name of its
    kind, and reads the three names back as the records of the
    examples. *)
Definition exampleJson : Json :=
  mkJson
    (fun r =>
       if Client.truthy (Rec.error r) then "{error}"
       else if Client.truthy (Rec.done r) then "{done}"
       else "{chunk}")
    (fun s =>
       if String.eqb s "{error}" then
         Some (Part001.streamErrorRecord "fetch failed")
       else if String.eqb s "{done}" then Some completeRecord
       else if String.eqb s "{chunk}" then Some (chunkRecord [] "par")
       else None).

(** A world whose REST endpoint answers with one candidate that holds no
    text. *)
Definition noTextWorld : World :=
  mkWorld (fun _ => Return "catalog")
          (fun _ _ => FetchJson (Some [CandidateNoText]))
          (fun _ => Return "tial")
          (fun _ => mkStream ["b"; "c"] None)
          (fun _ _ => Return "tial")
          (fun _ _ => mkStream ["b"; "c"] None)
          (fun template _ _ => template).

(* ===================================================================== *)
(** ** Strings: what [includes] decides *)
(* ===================================================================== *)

Lemma startsWith_iff (s t : string) :
  Js.startsWith s t = true <-> exists b, s = t ++ b.
Proof.
  revert s; induction t as [|c t IH]; intros s; simpl.
  - split; [intros _; now exists s | reflexivity].
  - destruct s as [|a s]; simpl.
    + split; [discriminate | intros [b Hb]; discriminate].
    + destruct (Ascii.eqb_spec a c) as [->|Hne].
      * rewrite IH. split; intros [b Hb]; exists b; congruence.
      * split; [discriminate | intros [b Hb]; congruence].
Qed.

Lemma includes_iff (s t : string) :
  Js.includes s t = true <-> exists a b, s = a ++ t ++ b.
Proof.
  induction s as [|c s IH]; simpl.
  - rewrite orb_false_r, startsWith_iff. split.
    + intros [b Hb]. now exists "", b.
    + intros [a [b Hab]]. destruct a as [|x a]; [now exists b | discriminate].
  - rewrite orb_true_iff, IH.
    change (match t with
            | "" => true
            | String b t' => if Ascii.eqb c b then Js.startsWith s t' else false
            end) with (Js.startsWith (String c s) t).
    rewrite startsWith_iff. split.
    + intros [[b Hb] | [a [b Hab]]].
      * now exists "", b.
      * exists (String c a), b. simpl. now rewrite Hab.
    + intros [a [b Hab]]. destruct a as [|x a].
      * left. now exists b.
      * right. exists a, b. simpl in Hab. congruence.
Qed.

Lemma includes_nonempty (s t : string) :
  Js.includes s t = true -> t <> "" -> s <> "".
Proof.
  intros H Ht ->. apply includes_iff in H. destruct H as [a [b H]].
  destruct a; [destruct t; [contradiction | discriminate] | discriminate].
Qed.

Lemma or_empty (s : string) : Js.or s "" = s.
Proof. now destruct s. Qed.

Lemma append_empty_r (s : string) : s ++ "" = s.
Proof. induction s as [|c s IH]; simpl; [reflexivity | now rewrite IH]. Qed.

Lemma append_assoc (a b c : string) : (a ++ b) ++ c = a ++ b ++ c.
Proof. induction a as [|x a IH]; simpl; [reflexivity | now rewrite IH]. Qed.

(* ===================================================================== *)
(** ** The streaming loop in closed form *)
(* ===================================================================== *)

Section Loop.

(** The record enqueued for one fragment. *)
Variable record : string -> Rec.t.
Variable body : string -> string -> Eff string.
Hypothesis body_enqueues :
  forall acc chunkText,
    body acc chunkText = (Return (acc ++ chunkText), [Enqueue (record chunkText)]).

Lemma forEach_enqueue (chunks : list string) (acc : string) :
  forEach chunks acc body
  = (Return (acc ++ Js.concat chunks),
     map (fun chunkText => Enqueue (record chunkText)) chunks).
Proof.
  revert acc; induction chunks as [|c chunks IH]; intros acc; simpl.
  - unfold ret. now rewrite append_empty_r.
  - unfold bind. rewrite body_enqueues. simpl. rewrite IH. simpl.
    now rewrite append_assoc.
Qed.

Lemma forAwait_enqueue (stream : StreamReply) (acc : string) :
  forAwait stream acc body
  = (match failure stream with
     | None => Return (acc ++ Js.concat (fragments stream))
     | Some message => Throw message
     end,
     map (fun chunkText => Enqueue (record chunkText)) (fragments stream)).
Proof.
  unfold forAwait, bind. rewrite forEach_enqueue. simpl.
  destruct (failure stream); simpl; now rewrite app_nil_r.
Qed.

End Loop.

Lemma records_app (l1 l2 : list Event) :
  records (l1 ++ l2) = (records l1 ++ records l2)%list.
Proof.
  induction l1 as [|e l1 IH]; simpl; [reflexivity|].
  destruct e; simpl; now rewrite IH.
Qed.

Lemma records_enqueues (record : string -> Rec.t) (chunks : list string) :
  records (map (fun chunkText => Enqueue (record chunkText)) chunks)
  = map record chunks.
Proof. induction chunks as [|c chunks IH]; simpl; [reflexivity | now rewrite IH]. Qed.

Lemma reads_enqueues (record : string -> Rec.t) (chunks : list string) :
  reads (map (fun chunkText => Enqueue (record chunkText)) chunks) = [].
Proof. induction chunks as [|c chunks IH]; simpl; [reflexivity | exact IH]. Qed.

Lemma generations_enqueues (record : string -> Rec.t) (chunks : list string) :
  generations (map (fun chunkText => Enqueue (record chunkText)) chunks) = [].
Proof. induction chunks as [|c chunks IH]; simpl; [reflexivity | exact IH]. Qed.

Lemma reads_app (l1 l2 : list Event) :
  reads (l1 ++ l2) = (reads l1 ++ reads l2)%list.
Proof.
  induction l1 as [|e l1 IH]; simpl; [reflexivity|].
  destruct e; simpl; now rewrite IH.
Qed.

Lemma generations_app (l1 l2 : list Event) :
  generations (l1 ++ l2) = (generations l1 ++ generations l2)%list.
Proof.
  induction l1 as [|e l1 IH]; simpl; [reflexivity|].
  destruct e; simpl; now rewrite IH.
Qed.

(** Evaluation of the monad's combinators on computations in head-normal
    form. *)
Ltac eff := cbn [tryCatch call bind fst snd ret throw enqueue close app].

(** Rewrites the streaming loop whose body enqueues [record chunkText]. *)
Ltac loop record :=
  rewrite (forAwait_enqueue record) by (intros; reflexivity).

(* ===================================================================== *)
(** ** part_001: what each handler does, in closed form *)
(* ===================================================================== *)

Section Part001Runs.

Variable w : World.
Variable PROMPT_TEMPLATE : string.

Lemma streamInformationGathering001_continuation
    (userInput : string) (h : list Turn) (cm : bool) (p : string) :
  cm && Js.truthy p = true ->
  let prompt := Part001.gatheringContinuationPrompt p in
  let s := sendMessageStream w (Part001.formatChatHistory h) prompt in
  let full := p ++ Js.concat (fragments s) in
  Part001.streamInformationGathering w userInput h cm p
  = (Return tt,
     [SendMessageStream (Part001.formatChatHistory h) prompt]
     ++ map (fun c => Enqueue (Rec.object [Rec.Chunk c; Rec.Done false;
                                           Rec.Continuation true]))
            (fragments s)
     ++ [Enqueue
           (match failure s with
            | None =>
                gatheringDone
                  (popPartialModelTurn h ++ [mkTurn "model" full]) full
                  [Rec.Continuation true; Rec.FullResponse full]
            | Some m => Part001.streamErrorRecord m
            end);
         Close])%list.
Proof.
  intros Hc prompt s full. subst prompt s full.
  unfold Part001.streamInformationGathering. rewrite Hc. eff.
  loop (fun c => Rec.object [Rec.Chunk c; Rec.Done false; Rec.Continuation true]).
  eff. destruct (failure _); eff; rewrite ?app_nil_r, <- ?app_assoc; reflexivity.
Qed.

Lemma streamInformationGathering001_fresh
    (userInput : string) (h : list Turn) (cm : bool) (p : string) :
  cm && Js.truthy p = false ->
  let history := match h with [] => [] | _ => Part001.formatChatHistory h end in
  let s := sendMessageStream w history userInput in
  let full := Js.concat (fragments s) in
  Part001.streamInformationGathering w userInput h cm p
  = (Return tt,
     [SendMessageStream history userInput]
     ++ map (fun c => Enqueue (Rec.object [Rec.Chunk c; Rec.Done false]))
            (fragments s)
     ++ [Enqueue
           (match failure s with
            | None =>
                gatheringDone
                  (h ++ [mkTurn "user" userInput; mkTurn "model" full]) full []
            | Some m => Part001.streamErrorRecord m
            end);
         Close])%list.
Proof.
  intros Hc history s full. subst history s full.
  unfold Part001.streamInformationGathering. rewrite Hc. eff.
  loop (fun c => Rec.object [Rec.Chunk c; Rec.Done false]).
  eff. destruct (failure _); eff; rewrite ?app_nil_r, <- ?app_assoc; reflexivity.
Qed.

Lemma streamToolRecommendation001_catalog
    (pi : string) (cm : bool) (p t u : string) :
  readFile w "tool_information.txt" = Return t ->
  readFile w "product_urls.txt" = Return u ->
  let prompt := Part001.promptSent w PROMPT_TEMPLATE pi cm p t u in
  let s := generateContentStream w prompt in
  Part001.streamToolRecommendation w PROMPT_TEMPLATE pi cm p
  = (Return tt,
     [ReadFile "tool_information.txt"; ReadFile "product_urls.txt"; GenerateContentStream prompt]
     ++ map (fun c => Enqueue (Rec.object [Rec.Chunk c; Rec.Done false;
                                           Rec.Continuation cm]))
            (fragments s)
     ++ [Enqueue
           (match failure s with
            | None =>
                Rec.object
                  [Rec.Done true;
                   Rec.Text ((if cm then p else "") ++ Js.concat (fragments s));
                   Rec.Continuation cm]
            | Some m => Part001.streamErrorRecord m
            end);
         Close])%list.
Proof.
  intros Ht Hu prompt s. subst prompt s.
  unfold Part001.streamToolRecommendation, Part001.readFromFile,
    Part001.promptSent.
  rewrite Ht, Hu.
  destruct (cm && Js.truthy p); eff;
    loop (fun c => Rec.object [Rec.Chunk c; Rec.Done false; Rec.Continuation cm]);
    eff; destruct (failure _); eff; rewrite ?app_nil_r; reflexivity.
Qed.

Lemma streamToolRecommendation001_no_tool
    (pi : string) (cm : bool) (p e : string) :
  readFile w "tool_information.txt" = Throw e ->
  Part001.streamToolRecommendation w PROMPT_TEMPLATE pi cm p
  = (Return tt, [ReadFile "tool_information.txt"; Enqueue catalogErrorRecord; Close]).
Proof.
  intros Ht.
  unfold Part001.streamToolRecommendation, Part001.readFromFile.
  rewrite Ht. reflexivity.
Qed.

Lemma streamToolRecommendation001_no_urls
    (pi : string) (cm : bool) (p t e : string) :
  readFile w "tool_information.txt" = Return t ->
  readFile w "product_urls.txt" = Throw e ->
  Part001.streamToolRecommendation w PROMPT_TEMPLATE pi cm p
  = (Return tt,
     [ReadFile "tool_information.txt"; ReadFile "product_urls.txt"; Enqueue catalogErrorRecord; Close]).
Proof.
  intros Ht Hu.
  unfold Part001.streamToolRecommendation, Part001.readFromFile.
  rewrite Ht, Hu. reflexivity.
Qed.

Lemma handleInformationGathering001_continuation
    (userInput : string) (h : list Turn) (cm : bool) (p : string) :
  cm && Js.truthy p = true ->
  let prompt := Part001.gatheringContinuationPrompt p in
  let history := Part001.formatChatHistory h in
  Part001.handleInformationGathering w userInput h cm p
  = (match sendMessage w history prompt with
     | Return c =>
         Return
           (Rec.object
              [Rec.Text (p ++ c);
               Rec.ConversationHistory
                 (popPartialModelTurn h ++ [mkTurn "model" (p ++ c)]);
               Rec.IsComplete (Js.includes (p ++ c) "## FINAL SUMMARY ##");
               Rec.ProjectInformation
                 (if Js.includes (p ++ c) "## FINAL SUMMARY ##"
                  then p ++ c else "");
               Rec.Continuation cm])
     | Throw m => Throw m
     end,
     [SendMessage history prompt]).
Proof.
  intros Hc prompt history. subst prompt history.
  unfold Part001.handleInformationGathering. rewrite Hc.
  destruct (sendMessage w _ _); reflexivity.
Qed.

Lemma handleInformationGathering001_fresh
    (userInput : string) (h : list Turn) (cm : bool) (p : string) :
  cm && Js.truthy p = false ->
  let history := match h with [] => [] | _ => Part001.formatChatHistory h end in
  Part001.handleInformationGathering w userInput h cm p
  = (match sendMessage w history userInput with
     | Return t =>
         Return
           (Rec.object
              [Rec.Text t;
               Rec.ConversationHistory
                 (h ++ [mkTurn "user" userInput; mkTurn "model" t]);
               Rec.IsComplete (Js.includes t "## FINAL SUMMARY ##");
               Rec.ProjectInformation
                 (if Js.includes t "## FINAL SUMMARY ##" then t else "");
               Rec.Continuation cm])
     | Throw m => Throw m
     end,
     [SendMessage history userInput]).
Proof.
  intros Hc history. subst history.
  unfold Part001.handleInformationGathering. rewrite Hc.
  destruct h as [|x h]; destruct (sendMessage w _ _); try reflexivity.
  eff. rewrite <- app_assoc. reflexivity.
Qed.

Lemma handleToolRecommendation001_catalog
    (pi : string) (cm : bool) (p t u : string) :
  readFile w "tool_information.txt" = Return t ->
  readFile w "product_urls.txt" = Return u ->
  let prompt := Part001.promptSent w PROMPT_TEMPLATE pi cm p t u in
  Part001.handleToolRecommendation w PROMPT_TEMPLATE pi cm p
  = (match generateContent w prompt with
     | Return c =>
         Return
           (Rec.object
              [Rec.Text (if cm && Js.truthy p then p ++ c else c);
               Rec.Error false; Rec.Continuation cm])
     | Throw m => Throw m
     end,
     [ReadFile "tool_information.txt"; ReadFile "product_urls.txt"; GenerateContent prompt]).
Proof.
  intros Ht Hu prompt. subst prompt.
  unfold Part001.handleToolRecommendation, Part001.readFromFile,
    Part001.promptSent.
  rewrite Ht, Hu.
  destruct (cm && Js.truthy p); eff; destruct (generateContent w _); reflexivity.
Qed.

Lemma handleToolRecommendation001_no_tool
    (pi : string) (cm : bool) (p e : string) :
  readFile w "tool_information.txt" = Throw e ->
  Part001.handleToolRecommendation w PROMPT_TEMPLATE pi cm p
  = (Return catalogErrorResult,
     [ReadFile "tool_information.txt"]).
Proof.
  intros Ht.
  unfold Part001.handleToolRecommendation, Part001.readFromFile.
  rewrite Ht. reflexivity.
Qed.

Lemma handleToolRecommendation001_no_urls
    (pi : string) (cm : bool) (p t e : string) :
  readFile w "tool_information.txt" = Return t ->
  readFile w "product_urls.txt" = Throw e ->
  Part001.handleToolRecommendation w PROMPT_TEMPLATE pi cm p
  = (Return catalogErrorResult,
     [ReadFile "tool_information.txt"; ReadFile "product_urls.txt"]).
Proof.
  intros Ht Hu.
  unfold Part001.handleToolRecommendation, Part001.readFromFile.
  rewrite Ht, Hu. reflexivity.
Qed.

End Part001Runs.

(* ===================================================================== *)
(** ** part_002: what each handler does, in closed form *)
(* ===================================================================== *)

Section Part002Runs.

Variable w : World.
Variable IMPROVED_PROMPT : string.
Variable PROMPT_TEMPLATE : string.

(** The gathering stream of part_002: an empty history is first seeded
    with the prompt exchange, and the user input goes to the model without
    the chat. *)
Lemma streamInformationGathering002_run (userInput : string) (h : list Turn) :
  let s := generateContentStream w userInput in
  let full := Js.concat (fragments s) in
  let seed :=
    [mkTurn "user" IMPROVED_PROMPT; mkTurn "model" "System initialization complete"] in
  Part002.streamInformationGathering w IMPROVED_PROMPT userInput h
  = match h with
    | [] =>
        match sendMessage w [] IMPROVED_PROMPT with
        | Throw m =>
            (Return tt,
             [SendMessage [] IMPROVED_PROMPT;
              Enqueue (Part002.streamErrorRecord m); Close])
        | Return _ =>
            (Return tt,
             [SendMessage [] IMPROVED_PROMPT; GenerateContentStream userInput]
             ++ map (fun c => Enqueue (chunkRecord [] c)) (fragments s)
             ++ [Enqueue
                   (match failure s with
                    | None =>
                        gatheringDone
                          (seed ++ [mkTurn "user" userInput; mkTurn "model" full])
                          full []
                    | Some m => Part002.streamErrorRecord m
                    end);
                 Close])%list
        end
    | _ =>
        (Return tt,
         [GenerateContentStream userInput]
         ++ map (fun c => Enqueue (chunkRecord [] c)) (fragments s)
         ++ [Enqueue
               (match failure s with
                | None =>
                    gatheringDone
                      (h ++ [mkTurn "user" userInput; mkTurn "model" full])
                      full []
                | Some m => Part002.streamErrorRecord m
                end);
             Close])%list
    end.
Proof.
  intros s full seed. subst s full seed.
  unfold Part002.streamInformationGathering.
  destruct h as [|x h]; eff.
  - destruct (sendMessage w [] IMPROVED_PROMPT); eff; [|reflexivity].
    loop (chunkRecord []).
    eff. destruct (failure _); eff; rewrite ?app_nil_r, <- ?app_assoc; reflexivity.
  - loop (chunkRecord []).
    eff. destruct (failure _); eff; rewrite ?app_nil_r, <- ?app_assoc; reflexivity.
Qed.

(** The recommendation stream of part_002 when both files are read. *)
Lemma streamToolRecommendation002_catalog
    (pi : string) (partial : option Part002.PartialResponse) (t u : string) :
  readFile w "tool_information.txt" = Return t ->
  readFile w "product_urls.txt" = Return u ->
  let prompt := Part002.promptSent w PROMPT_TEMPLATE pi partial t u in
  let s := generateContentStream w prompt in
  Part002.streamToolRecommendation w PROMPT_TEMPLATE pi partial
  = (Return tt,
     [ReadFile "tool_information.txt"; ReadFile "product_urls.txt";
      GenerateContentStream prompt]
     ++ map (fun c => Enqueue (chunkRecord [] c)) (fragments s)
     ++ [Enqueue
           (match failure s with
            | None =>
                Rec.object
                  [Rec.Done true;
                   Rec.Text
                     (match partial with
                      | Some x =>
                          Js.or (Part002.partialText x) ""
                          ++ Js.concat (fragments s)
                      | None => Js.concat (fragments s)
                      end);
                   Rec.PartialText (Js.concat (fragments s))]
            | Some m => Part002.streamErrorRecord m
            end);
         Close])%list.
Proof.
  intros Ht Hu prompt s. subst prompt s.
  unfold Part002.streamToolRecommendation, Part002.readFromFile,
    Part002.promptSent.
  rewrite Ht, Hu.
  destruct partial; eff; loop (chunkRecord []);
    eff; destruct (failure _); eff; rewrite ?app_nil_r; reflexivity.
Qed.

Lemma streamToolRecommendation002_no_tool
    (pi : string) (partial : option Part002.PartialResponse) (e : string) :
  readFile w "tool_information.txt" = Throw e ->
  Part002.streamToolRecommendation w PROMPT_TEMPLATE pi partial
  = (Return tt,
     [ReadFile "tool_information.txt"; Enqueue catalogErrorRecord; Close]).
Proof.
  intros Ht.
  unfold Part002.streamToolRecommendation, Part002.readFromFile.
  rewrite Ht. reflexivity.
Qed.

Lemma streamToolRecommendation002_no_urls
    (pi : string) (partial : option Part002.PartialResponse) (t e : string) :
  readFile w "tool_information.txt" = Return t ->
  readFile w "product_urls.txt" = Throw e ->
  Part002.streamToolRecommendation w PROMPT_TEMPLATE pi partial
  = (Return tt,
     [ReadFile "tool_information.txt"; ReadFile "product_urls.txt";
      Enqueue catalogErrorRecord; Close]).
Proof.
  intros Ht Hu.
  unfold Part002.streamToolRecommendation, Part002.readFromFile.
  rewrite Ht, Hu. reflexivity.
Qed.

Lemma handleInformationGathering002_run (userInput : string) (h : list Turn) :
  Part002.handleInformationGathering w IMPROVED_PROMPT userInput h
  = match h with
    | [] =>
        match sendMessage w [] IMPROVED_PROMPT with
        | Throw m => (Throw m, [SendMessage [] IMPROVED_PROMPT])
        | Return systemResponse =>
            let seed :=
              [mkTurn "user" IMPROVED_PROMPT; mkTurn "model" systemResponse] in
            (match sendMessage w seed userInput with
             | Return t =>
                 Return
                   (Rec.object
                      [Rec.Text t;
                       Rec.ConversationHistory
                         (seed ++ [mkTurn "user" userInput; mkTurn "model" t]);
                       Rec.IsComplete (Js.includes t "## FINAL SUMMARY ##");
                       Rec.ProjectInformation
                         (if Js.includes t "## FINAL SUMMARY ##" then t else "")])
             | Throw m => Throw m
             end,
             [SendMessage [] IMPROVED_PROMPT; SendMessage seed userInput])
        end
    | _ =>
        (match sendMessage w (Part002.formatChatHistory h) userInput with
         | Return t =>
             Return
               (Rec.object
                  [Rec.Text t;
                   Rec.ConversationHistory
                     (h ++ [mkTurn "user" userInput; mkTurn "model" t]);
                   Rec.IsComplete (Js.includes t "## FINAL SUMMARY ##");
                   Rec.ProjectInformation
                     (if Js.includes t "## FINAL SUMMARY ##" then t else "")])
         | Throw m => Throw m
         end,
         [SendMessage (Part002.formatChatHistory h) userInput])
    end.
Proof.
  unfold Part002.handleInformationGathering.
  destruct h as [|x h]; eff.
  - destruct (sendMessage w [] IMPROVED_PROMPT); eff; [|reflexivity].
    destruct (sendMessage w _ userInput); reflexivity.
  - destruct (sendMessage w _ userInput); eff; [|reflexivity].
    rewrite <- app_assoc. reflexivity.
Qed.

Lemma handleToolRecommendation002_catalog
    (pi : string) (partial : option Part002.PartialResponse) (t u : string) :
  readFile w "tool_information.txt" = Return t ->
  readFile w "product_urls.txt" = Return u ->
  let prompt := Part002.promptSent w PROMPT_TEMPLATE pi partial t u in
  Part002.handleToolRecommendation w PROMPT_TEMPLATE pi partial
  = (match generateContent w prompt with
     | Return c =>
         Return
           (Rec.object
              [Rec.Text
                 (match partial with
                  | Some x => Js.or (Part002.partialText x) "" ++ c
                  | None => c
                  end);
               Rec.PartialText c; Rec.Error false])
     | Throw m => Throw m
     end,
     [ReadFile "tool_information.txt"; ReadFile "product_urls.txt";
      GenerateContent prompt]).
Proof.
  intros Ht Hu prompt. subst prompt.
  unfold Part002.handleToolRecommendation, Part002.readFromFile,
    Part002.promptSent.
  rewrite Ht, Hu.
  destruct partial; eff; destruct (generateContent w _); reflexivity.
Qed.

Lemma handleToolRecommendation002_no_tool
    (pi : string) (partial : option Part002.PartialResponse) (e : string) :
  readFile w "tool_information.txt" = Throw e ->
  Part002.handleToolRecommendation w PROMPT_TEMPLATE pi partial
  = (Return catalogErrorResult, [ReadFile "tool_information.txt"]).
Proof.
  intros Ht.
  unfold Part002.handleToolRecommendation, Part002.readFromFile.
  rewrite Ht. reflexivity.
Qed.

Lemma handleToolRecommendation002_no_urls
    (pi : string) (partial : option Part002.PartialResponse) (t e : string) :
  readFile w "tool_information.txt" = Return t ->
  readFile w "product_urls.txt" = Throw e ->
  Part002.handleToolRecommendation w PROMPT_TEMPLATE pi partial
  = (Return catalogErrorResult,
     [ReadFile "tool_information.txt"; ReadFile "product_urls.txt"]).
Proof.
  intros Ht Hu.
  unfold Part002.handleToolRecommendation, Part002.readFromFile.
  rewrite Ht, Hu. reflexivity.
Qed.

End Part002Runs.

Lemma terminal_snoc (rs : list Rec.t) (r : Rec.t) :
  terminal (rs ++ [r]) = Some r.
Proof. unfold terminal. now rewrite rev_app_distr. Qed.

(* ===================================================================== *)
(** ** Stitching of a continued recommendation *)
(* ===================================================================== *)

(** C1 (stitch correctness).  A continuation run of the recommendation
    stream whose catalog reads succeed and whose model stream yields the
    fragments [c1 .. cn] and ends normally sends one chunk record per
    fragment, in order, and then a terminal [done: true] record whose
    [text] is the partial text followed by the fragments,
    [p ++ c1 ++ ... ++ cn], with nothing in between.  This holds for the
    route with [continuationMode] (part_001) and for the route with a
    [partialResponse] object (part_002). *)
Theorem stitch_correctness
    (w : World) (PROMPT_TEMPLATE projectInformation p phase t u : string)
    (cs : list string) :
  readFile w "tool_information.txt" = Return t ->
  readFile w "product_urls.txt" = Return u ->
  (generateContentStream w
     (Part001.promptSent w PROMPT_TEMPLATE projectInformation true p t u)
   = mkStream cs None ->
   records (snd (Part001.streamToolRecommendation w PROMPT_TEMPLATE
                   projectInformation true p))
   = (map (chunkRecord [Rec.Continuation true]) cs
      ++ [Rec.object [Rec.Done true; Rec.Text (p ++ Js.concat cs);
                      Rec.Continuation true]])%list)
  /\ (generateContentStream w
        (Part002.promptSent w PROMPT_TEMPLATE projectInformation
           (Some (Part002.mkPartial p phase)) t u)
      = mkStream cs None ->
      records (snd (Part002.streamToolRecommendation w PROMPT_TEMPLATE
                      projectInformation (Some (Part002.mkPartial p phase))))
      = (map (chunkRecord []) cs
         ++ [Rec.object [Rec.Done true; Rec.Text (p ++ Js.concat cs);
                         Rec.PartialText (Js.concat cs)]])%list).
Proof.
  intros Ht Hu. split; intros Hs.
  - rewrite (streamToolRecommendation001_catalog w PROMPT_TEMPLATE
               projectInformation true p t u Ht Hu).
    cbv zeta. rewrite Hs. cbn [fragments failure snd app records].
    rewrite records_app. cbn [records].
    rewrite (records_enqueues (chunkRecord [Rec.Continuation true])).
    reflexivity.
  - rewrite (streamToolRecommendation002_catalog w PROMPT_TEMPLATE
               projectInformation (Some (Part002.mkPartial p phase)) t u Ht Hu).
    cbv zeta. rewrite Hs. cbn [fragments failure snd app records].
    rewrite records_app. cbn [records].
    rewrite (records_enqueues (chunkRecord [])).
    cbn [Part002.partialText]. rewrite or_empty. reflexivity.
Qed.

(** The run of C1 on the example world: partial text ["a"], fragments
    ["b"] and ["c"]. *)
Lemma stitch_correctness_witness :
  terminal (records (snd (Part001.streamToolRecommendation exampleWorld
                            "template" "project" true "a")))
  = Some (Rec.object [Rec.Done true; Rec.Text "abc"; Rec.Continuation true])
  /\ terminal (records (snd (Part002.streamToolRecommendation exampleWorld
                               "template" "project"
                               (Some (Part002.mkPartial "a" "recommendation")))))
     = Some (Rec.object [Rec.Done true; Rec.Text "abc"; Rec.PartialText "bc"]).
Proof.
  destruct (stitch_correctness exampleWorld "template" "project" "a"
              "recommendation" "catalog" "catalog" ["b"; "c"]
              eq_refl eq_refl) as [H1 H2].
  split.
  - rewrite (H1 eq_refl). reflexivity.
  - rewrite (H2 eq_refl). reflexivity.
Defined.

(* ===================================================================== *)
(** ** Completion of a continued gathering turn *)
(* ===================================================================== *)

(** C2 (completion detection under continuation).  For a gathering
    request in continuation mode with partial text [p], the terminal
    record's [isComplete] is [includes] of the stitched text [p ++ c]
    (where [c] is what the continuation produced), and
    [projectInformation] is that stitched text when the flag is set.  So a
    sentinel of which [p] holds the beginning and [c] the end is detected.
    Streaming handler first, plain handler second. *)
Theorem completion_detection_under_continuation
    (w : World) (userInput : string) (h : list Turn) (p : string) :
  let sent := Part001.messageSent userInput h true p in
  (forall cs : list string,
     sendMessageStream w (fst sent) (snd sent) = mkStream cs None ->
     exists r,
       terminal (records (snd (Part001.streamInformationGathering w userInput h true p)))
       = Some r
       /\ Rec.done r = Some true
       /\ Rec.isComplete r = Some (Js.includes (p ++ Js.concat cs) SENTINEL)
       /\ Rec.projectInformation r
          = Some (if Js.includes (p ++ Js.concat cs) SENTINEL
                  then p ++ Js.concat cs else ""))
  /\ (forall c : string,
        sendMessage w (fst sent) (snd sent) = Return c ->
        exists r,
          fst (Part001.handleInformationGathering w userInput h true p) = Return r
          /\ Rec.isComplete r = Some (Js.includes (p ++ c) SENTINEL)
          /\ Rec.projectInformation r
             = Some (if Js.includes (p ++ c) SENTINEL then p ++ c else "")).
Proof.
  intros sent. subst sent. unfold Part001.messageSent.
  destruct (true && Js.truthy p) eqn:Hc; cbn [fst snd]; split.
  - intros cs Hs.
    rewrite (streamInformationGathering001_continuation w userInput h true p Hc).
    cbv zeta. rewrite Hs. cbn [fragments failure snd app records].
    rewrite records_app. cbn [records]. rewrite terminal_snoc.
    eexists; split; [reflexivity|]. repeat split.
  - intros c Hs.
    rewrite (handleInformationGathering001_continuation w userInput h true p Hc).
    cbv zeta. rewrite Hs. cbn [fst].
    eexists; split; [reflexivity|]. repeat split.
  - intros cs Hs.
    rewrite (streamInformationGathering001_fresh w userInput h true p Hc).
    cbv zeta. rewrite Hs. cbn [fragments failure snd app records].
    rewrite records_app. cbn [records]. rewrite terminal_snoc.
    destruct p; [|discriminate].
    eexists; split; [reflexivity|]. repeat split.
  - intros c Hs.
    rewrite (handleInformationGathering001_fresh w userInput h true p Hc).
    cbv zeta. rewrite Hs. cbn [fst].
    destruct p; [|discriminate].
    eexists; split; [reflexivity|]. repeat split.
Qed.

(** C2 on a sentinel cut in two by the interruption: the partial text
    ends with ["## FINAL"], the continuation starts with [" SUMMARY ##"]. *)
Lemma completion_detection_under_continuation_witness :
  exists r,
    terminal (records (snd (Part001.streamInformationGathering splitSentinelWorld
                              "deck" [mkTurn "user" "deck"] true "ok ## FINAL")))
    = Some r
    /\ Rec.isComplete r = Some true
    /\ Rec.projectInformation r = Some "ok ## FINAL SUMMARY ## done".
Proof.
  destruct (completion_detection_under_continuation splitSentinelWorld
              "deck" [mkTurn "user" "deck"] "ok ## FINAL") as [H _].
  destruct (H [" SUMM"; "ARY ## done"] eq_refl) as [r [Hr [_ [Hc Hp]]]].
  exists r. split; [exact Hr|]. split; [exact Hc | exact Hp].
Defined.

(* ===================================================================== *)
(** ** part_000: what each handler does, in closed form *)
(* ===================================================================== *)

Section Part000Runs.

Variable w : World.
Variable IMPROVED_PROMPT : string.

Lemma fetchGeminiResponse_run (content model : string) :
  Part000.fetchGeminiResponse w content model
  = (Return (match fetch w model content with
             | FetchJson (Some (CandidateText t :: _)) => Some t
             | FetchJson (Some (CandidateNoText :: _)) => None
             | _ => Some Part000.fallbackText
             end),
     [Fetch model content]).
Proof.
  unfold Part000.fetchGeminiResponse.
  destruct (fetch w model content) as [m|st e|m|[[|[t| |e] cs]|]]; reflexivity.
Qed.

Lemma fetchGeminiResponse_failure (content model : string) :
  fetchCaught (fetch w model content) = true ->
  Part000.fetchGeminiResponse w content model
  = (Return (Some Part000.fallbackText), [Fetch model content]).
Proof.
  intros Hf. rewrite fetchGeminiResponse_run.
  destruct (fetch w model content) as [m|st e|m|[[|[t| |e] cs]|]];
    try reflexivity; discriminate.
Qed.

Lemma handleInformationGathering000_run (userInput conversationContext : string) :
  let sent := Part000.contextSent IMPROVED_PROMPT userInput conversationContext in
  Part000.handleInformationGathering w IMPROVED_PROMPT userInput conversationContext
  = (match fst (Part000.fetchGeminiResponse w sent "gemini-2.0-flash") with
     | Return (Some aiOutput) =>
         Return
           (Rec.object
              [Rec.Text aiOutput;
               Rec.ConversationContext
                 (sent ++ Js.nl ++ "AI: " ++ aiOutput ++ Js.nl);
               Rec.IsComplete (Js.includes aiOutput "FINAL SUMMARY");
               Rec.ProjectInformation
                 (if Js.includes aiOutput "FINAL SUMMARY" then aiOutput else "")])
     | Return None => Throw Part000.undefinedIncludes
     | Throw m => Throw m
     end,
     [Fetch "gemini-2.0-flash" sent]).
Proof.
  intros sent. subst sent.
  unfold Part000.handleInformationGathering, Part000.contextSent.
  destruct (negb (Js.truthy conversationContext));
    rewrite fetchGeminiResponse_run; eff;
    destruct (fetch w _ _) as [m|st e|m|[[|[t| |e] cs]|]]; reflexivity.
Qed.

End Part000Runs.

(* ===================================================================== *)
(** ** The completion guard *)
(* ===================================================================== *)

(** In the SDK routes the flag of a plain gathering reply is set exactly
    when the reply contains the sentinel. *)
Lemma gathering_guard_plain
    (w : World) (IMPROVED_PROMPT userInput : string) (h : list Turn)
    (cm : bool) (p : string) :
  returns (Part001.handleInformationGathering w userInput h cm p)
    (fun r => exists t, Rec.text r = Some t
                        /\ (Rec.isComplete r = Some true
                            <-> exists a b, t = a ++ SENTINEL ++ b))
  /\ returns (Part002.handleInformationGathering w IMPROVED_PROMPT userInput h)
       (fun r => exists t, Rec.text r = Some t
                           /\ (Rec.isComplete r = Some true
                               <-> exists a b, t = a ++ SENTINEL ++ b)).
Proof.
  assert (G : forall t : string,
             Some (Js.includes t "## FINAL SUMMARY ##") = Some true
             <-> exists a b, t = a ++ SENTINEL ++ b).
  { intros t. rewrite <- includes_iff. unfold SENTINEL.
    split; [now intros [= ->] | now intros ->]. }
  unfold returns. split.
  - destruct (cm && Js.truthy p) eqn:Hc.
    + rewrite (handleInformationGathering001_continuation w userInput h cm p Hc).
      cbv zeta. cbn [fst]. destruct (sendMessage w _ _); [|exact I].
      eexists; split; [reflexivity | apply G].
    + rewrite (handleInformationGathering001_fresh w userInput h cm p Hc).
      cbv zeta. cbn [fst]. destruct (sendMessage w _ _); [|exact I].
      eexists; split; [reflexivity | apply G].
  - rewrite handleInformationGathering002_run.
    destruct h as [|x h].
    + destruct (sendMessage w [] IMPROVED_PROMPT); [|exact I].
      cbv zeta. cbn [fst]. destruct (sendMessage w _ userInput); [|exact I].
      eexists; split; [reflexivity | apply G].
    + cbn [fst]. destruct (sendMessage w _ userInput); [|exact I].
      eexists; split; [reflexivity | apply G].
Qed.

(** C3 (phase-completion guard), on the first route.  Its handler tests
    [includes("FINAL SUMMARY")]: on a reply that names the summary without
    the marker the flag is set and the reply becomes the project
    information, although the reply does not contain the sentinel
    ["## FINAL SUMMARY ##"]. *)
Theorem legacy_guard_accepts_unmarked_reply :
  forall IMPROVED_PROMPT userInput conversationContext : string,
  exists r,
    fst (Part000.handleInformationGathering unmarkedWorld IMPROVED_PROMPT
           userInput conversationContext) = Return r
    /\ Rec.text r = Some unmarkedReply
    /\ Rec.isComplete r = Some true
    /\ Rec.projectInformation r = Some unmarkedReply
    /\ Js.includes unmarkedReply SENTINEL = false.
Proof.
  intros IP u ctx. rewrite handleInformationGathering000_run.
  cbv zeta. rewrite fetchGeminiResponse_run. cbn [fst fetch unmarkedWorld].
  eexists; split; [reflexivity|]. repeat split.
Qed.

(* ===================================================================== *)
(** ** The project information *)
(* ===================================================================== *)

Lemma invariant_of_flag (r : Rec.t) (t marker : string) :
  marker <> "" ->
  Rec.isComplete r = Some (Js.includes t marker) ->
  Rec.projectInformation r = Some (if Js.includes t marker then t else "") ->
  outputText r = Some t ->
  projectInformationInvariant r.
Proof.
  intros Hm Hc Hp Ho. unfold projectInformationInvariant.
  rewrite Hc, Hp, Ho.
  destruct (Js.includes t marker) eqn:Hi; split.
  - split; [reflexivity|]. intros _. exists t. split; [reflexivity|].
    now apply (includes_nonempty t marker).
  - reflexivity.
  - split; [|discriminate]. intros [s [[= <-] Hs]]. now contradiction Hs.
  - discriminate.
Qed.

Lemma invariant_absent (r : Rec.t) :
  Rec.isComplete r = None ->
  Rec.projectInformation r = None ->
  projectInformationInvariant r.
Proof.
  intros Hc Hp. unfold projectInformationInvariant. rewrite Hc, Hp.
  split; [split|]; try discriminate. intros [s [H _]]. discriminate.
Qed.

Lemma invariant_gatheringDone (history : list Turn) (t : string) :
  projectInformationInvariant
    (gatheringDone (history ++ [mkTurn "model" t]) t [])
  /\ projectInformationInvariant
       (gatheringDone (history ++ [mkTurn "model" t]) t
          [Rec.Continuation true; Rec.FullResponse t]).
Proof.
  split; apply (invariant_of_flag _ t "## FINAL SUMMARY ##");
    try discriminate; try reflexivity;
    unfold outputText; cbn; rewrite rev_app_distr; reflexivity.
Qed.

Lemma invariant_plain (t marker : string) (r : Rec.t) :
  marker <> "" ->
  Rec.text r = Some t ->
  Rec.isComplete r = Some (Js.includes t marker) ->
  Rec.projectInformation r = Some (if Js.includes t marker then t else "") ->
  projectInformationInvariant r.
Proof.
  intros Hm Ht Hc Hp. apply (invariant_of_flag r t marker Hm Hc Hp).
  unfold outputText. now rewrite Ht.
Qed.

Lemma invariant_chunks (extra : list Rec.Field) (chunks : list string) :
  (forall c, Rec.isComplete (chunkRecord extra c) = None
             /\ Rec.projectInformation (chunkRecord extra c) = None) ->
  Forall projectInformationInvariant (map (chunkRecord extra) chunks).
Proof.
  intros H. apply Forall_forall. intros r Hr. apply in_map_iff in Hr.
  destruct Hr as [c [<- _]]. apply invariant_absent; apply H.
Qed.

Lemma invariant_streamError (record : Rec.t) :
  Rec.isComplete record = None ->
  Rec.projectInformation record = None ->
  Forall projectInformationInvariant [record].
Proof. intros Hc Hp. constructor; [now apply invariant_absent | constructor]. Qed.

(** C4 (ProjectInformation invariant).  In every result of a gathering
    handler (the plain handlers of the three routes when they return, and
    every record of the two gathering streams, whatever the mode and
    whatever the model does) [projectInformation] is a non-empty string
    if and only if [isComplete] is [true], and when it is,
    [projectInformation] is the full output text. *)
Theorem project_information_invariant
    (w : World) (IMPROVED_PROMPT userInput conversationContext : string)
    (h : list Turn) (continuationMode : bool) (partialResponse : string) :
  returns (Part001.handleInformationGathering w userInput h continuationMode
             partialResponse) projectInformationInvariant
  /\ returns (Part002.handleInformationGathering w IMPROVED_PROMPT userInput h)
       projectInformationInvariant
  /\ returns (Part000.handleInformationGathering w IMPROVED_PROMPT userInput
                conversationContext) projectInformationInvariant
  /\ Forall projectInformationInvariant
       (records (snd (Part001.streamInformationGathering w userInput h
                        continuationMode partialResponse)))
  /\ Forall projectInformationInvariant
       (records (snd (Part002.streamInformationGathering w IMPROVED_PROMPT
                        userInput h))).
Proof.
  assert (Hne : "## FINAL SUMMARY ##" <> "") by discriminate.
  assert (Hne0 : "FINAL SUMMARY" <> "") by discriminate.
  unfold returns. repeat apply conj.
  - destruct (continuationMode && Js.truthy partialResponse) eqn:Hc.
    + rewrite (handleInformationGathering001_continuation w userInput h _ _ Hc).
      cbv zeta. cbn [fst]. destruct (sendMessage w _ _); [|exact I].
      now apply (invariant_plain (partialResponse ++ a) "## FINAL SUMMARY ##").
    + rewrite (handleInformationGathering001_fresh w userInput h _ _ Hc).
      cbv zeta. cbn [fst]. destruct (sendMessage w _ _); [|exact I].
      now apply (invariant_plain a "## FINAL SUMMARY ##").
  - rewrite handleInformationGathering002_run. destruct h as [|x h].
    + destruct (sendMessage w [] IMPROVED_PROMPT); [|exact I].
      cbv zeta. cbn [fst]. destruct (sendMessage w _ userInput); [|exact I].
      now apply (invariant_plain a0 "## FINAL SUMMARY ##").
    + cbn [fst]. destruct (sendMessage w _ userInput); [|exact I].
      now apply (invariant_plain a "## FINAL SUMMARY ##").
  - rewrite handleInformationGathering000_run. cbv zeta. cbn [fst].
    destruct (fst (Part000.fetchGeminiResponse w _ _)) as [[t|]|m]; try exact I.
    now apply (invariant_plain t "FINAL SUMMARY").
  - destruct (continuationMode && Js.truthy partialResponse) eqn:Hc.
    + rewrite (streamInformationGathering001_continuation w userInput h _ _ Hc).
      cbv zeta. cbn [snd app records]. rewrite records_app. cbn [records].
      rewrite (records_enqueues (chunkRecord [Rec.Continuation true])).
      apply Forall_app. split.
      * apply invariant_chunks. intros c. split; reflexivity.
      * destruct (failure _).
        -- now apply invariant_streamError.
        -- constructor; [apply invariant_gatheringDone | constructor].
    + rewrite (streamInformationGathering001_fresh w userInput h _ _ Hc).
      cbv zeta. cbn [snd app records]. rewrite records_app. cbn [records].
      rewrite (records_enqueues (chunkRecord [])).
      apply Forall_app. split.
      * apply invariant_chunks. intros c. split; reflexivity.
      * destruct (failure _).
        -- now apply invariant_streamError.
        -- constructor; [|constructor].
           change (h ++ [mkTurn "user" userInput; mkTurn "model" ?t])%list
             with (h ++ [mkTurn "user" userInput] ++ [mkTurn "model" t])%list.
           rewrite app_assoc. apply invariant_gatheringDone.
  - rewrite streamInformationGathering002_run. cbv zeta.
    destruct h as [|x h].
    + destruct (sendMessage w [] IMPROVED_PROMPT).
      * cbn [snd app records]. rewrite records_app. cbn [records].
        rewrite (records_enqueues (chunkRecord [])).
        apply Forall_app. split.
        -- apply invariant_chunks. intros c. split; reflexivity.
        -- destruct (failure _).
           ++ now apply invariant_streamError.
           ++ constructor; [|constructor].
              match goal with
              | |- context [gatheringDone ?l ?t []] =>
                  change l with ([mkTurn "user" IMPROVED_PROMPT;
                                  mkTurn "model" "System initialization complete";
                                  mkTurn "user" userInput] ++ [mkTurn "model" t])%list
              end.
              apply invariant_gatheringDone.
      * cbn [snd records]. now apply invariant_streamError.
    + cbn [snd app records]. rewrite records_app. cbn [records].
      rewrite (records_enqueues (chunkRecord [])).
      apply Forall_app. split.
      * apply invariant_chunks. intros c. split; reflexivity.
      * destruct (failure _).
        -- now apply invariant_streamError.
        -- constructor; [|constructor].
           change (x :: h ++ [mkTurn "user" userInput; mkTurn "model" ?t])%list
             with ((x :: h) ++ [mkTurn "user" userInput] ++ [mkTurn "model" t])%list.
           rewrite app_assoc. apply invariant_gatheringDone.
Qed.

(* ===================================================================== *)
(** ** The conversation history *)
(* ===================================================================== *)

Lemma popPartialModelTurn_model (h : list Turn) (t : string) :
  popPartialModelTurn (h ++ [mkTurn "model" t]) = h.
Proof.
  unfold popPartialModelTurn. rewrite rev_app_distr. cbn.
  apply removelast_last.
Qed.

Lemma popPartialModelTurn_other (h : list Turn) (r t : string) :
  r <> "model" ->
  popPartialModelTurn (h ++ [mkTurn r t]) = (h ++ [mkTurn r t])%list.
Proof.
  intros Hr. unfold popPartialModelTurn. rewrite rev_app_distr. cbn.
  destruct (String.eqb_spec r "model"); [contradiction | reflexivity].
Qed.

(** The claim of C5 fails as stated.  On the route with
    [continuationMode], a continuation request whose history ends with the
    partial model turn returns a history of the same length, the partial
    turn being replaced by the stitched one and no user turn added; on the
    route of part_002 a first request returns the two seed turns before the
    two turns of the exchange. *)
Lemma history_postcondition_counterexample :
  (exists r,
     fst (Part001.handleInformationGathering exampleWorld "deck"
            [mkTurn "user" "deck"; mkTurn "model" "par"] true "par") = Return r
     /\ Rec.text r = Some "partial"
     /\ Rec.conversationHistory r
        = Some [mkTurn "user" "deck"; mkTurn "model" "partial"]
     /\ forall t,
          Rec.conversationHistory r
          <> Some ([mkTurn "user" "deck"; mkTurn "model" "par"]
                   ++ [mkTurn "user" "deck"; mkTurn "model" t])%list)
  /\ (exists r,
        fst (Part002.handleInformationGathering exampleWorld "prompt" "deck" [])
        = Return r
        /\ Rec.text r = Some "tial"
        /\ Rec.conversationHistory r
           = Some [mkTurn "user" "prompt"; mkTurn "model" "tial";
                   mkTurn "user" "deck"; mkTurn "model" "tial"]
        /\ forall t,
             Rec.conversationHistory r
             <> Some ([] ++ [mkTurn "user" "deck"; mkTurn "model" t])%list).
Proof.
  split; eexists; (split; [reflexivity|]); repeat split; intros t; discriminate.
Qed.

(** A continuation request whose history ends with a completed model
    turn (the client sends the history of the completed exchanges): the
    test of the continuation branch looks at the role only, so that turn
    is removed. *)
Lemma continuation_pops_completed_turn :
  exists r,
    fst (Part001.handleInformationGathering exampleWorld "wood"
           [mkTurn "user" "deck"; mkTurn "model" "size?"] true "par") = Return r
    /\ Rec.conversationHistory r
       = Some [mkTurn "user" "deck"; mkTurn "model" "partial"].
Proof. eexists. split; reflexivity. Qed.

(** C5 (conversation-state postcondition), amended.  With input history
    [h], user input [u] and model output [t]:
    - on the route with [continuationMode], a request that is not a
      continuation ([continuationMode] false or no partial text) returns
      [h] followed by the user turn for [u] and the model turn for [t];
    - on that route a continuation request with partial text [p] adds no
      user turn: when [h] ends with the partial model turn, that turn is
      replaced by the model turn holding the stitched text, and when [h]
      is empty or ends with a turn of another role, that model turn is
      appended to [h];
    - on the route of part_002 a request with a non-empty [h] returns [h]
      followed by the two turns, and a request with an empty [h] returns the
      two seed turns (the prompt as a user turn and a model turn: the reply
      to the prompt in the plain handler, a fixed text in the stream)
      followed by the two turns.
    Each item is stated for the plain handler when it returns and for the
    terminal record of the stream when the model stream ends normally. *)
Theorem history_postcondition
    (w : World) (IMPROVED_PROMPT u : string) (h : list Turn)
    (continuationMode : bool) (p : string) :
  let sent := Part001.messageSent u h continuationMode p in
  let plain001 := Part001.handleInformationGathering w u h continuationMode p in
  let stream001 :=
    records (snd (Part001.streamInformationGathering w u h continuationMode p)) in
  let plain002 := Part002.handleInformationGathering w IMPROVED_PROMPT u h in
  let stream002 :=
    records (snd (Part002.streamInformationGathering w IMPROVED_PROMPT u h)) in
  (continuationMode && Js.truthy p = false ->
   returns plain001
     (fun r => exists t, Rec.text r = Some t
                /\ Rec.conversationHistory r
                   = Some (h ++ [mkTurn "user" u; mkTurn "model" t])%list)
   /\ forall cs,
        sendMessageStream w (fst sent) (snd sent) = mkStream cs None ->
        exists r,
          terminal stream001 = Some r
          /\ Rec.conversationHistory r
             = Some (h ++ [mkTurn "user" u; mkTurn "model" (Js.concat cs)])%list)
  /\ (continuationMode && Js.truthy p = true ->
      forall kept : list Turn,
        (h = (kept ++ [mkTurn "model" p])%list
         \/ (h = kept
             /\ (h = []
                 \/ exists before r x,
                      h = (before ++ [mkTurn r x])%list /\ r <> "model"))) ->
        returns plain001
          (fun r => exists t, Rec.text r = Some t
                     /\ Rec.conversationHistory r
                        = Some (kept ++ [mkTurn "model" t])%list)
        /\ forall cs,
             sendMessageStream w (fst sent) (snd sent) = mkStream cs None ->
             exists r,
               terminal stream001 = Some r
               /\ Rec.conversationHistory r
                  = Some (kept ++ [mkTurn "model" (p ++ Js.concat cs)])%list)
  /\ (h <> [] ->
      returns plain002
        (fun r => exists t, Rec.text r = Some t
                   /\ Rec.conversationHistory r
                      = Some (h ++ [mkTurn "user" u; mkTurn "model" t])%list)
      /\ forall cs,
           generateContentStream w u = mkStream cs None ->
           exists r,
             terminal stream002 = Some r
             /\ Rec.conversationHistory r
                = Some (h ++ [mkTurn "user" u; mkTurn "model" (Js.concat cs)])%list)
  /\ (h = [] ->
      returns plain002
        (fun r => exists systemResponse t,
                    Rec.text r = Some t
                    /\ Rec.conversationHistory r
                       = Some [mkTurn "user" IMPROVED_PROMPT;
                               mkTurn "model" systemResponse;
                               mkTurn "user" u; mkTurn "model" t])
      /\ forall cs systemResponse,
           sendMessage w [] IMPROVED_PROMPT = Return systemResponse ->
           generateContentStream w u = mkStream cs None ->
           exists r,
             terminal stream002 = Some r
             /\ Rec.conversationHistory r
                = Some [mkTurn "user" IMPROVED_PROMPT;
                        mkTurn "model" "System initialization complete";
                        mkTurn "user" u; mkTurn "model" (Js.concat cs)]).
Proof.
  intros sent plain001 stream001 plain002 stream002.
  subst sent plain001 stream001 plain002 stream002.
  unfold Part001.messageSent, returns.
  repeat apply conj.
  - intros Hc. rewrite Hc. cbn [fst snd]. split.
    + rewrite (handleInformationGathering001_fresh w u h _ _ Hc).
      cbv zeta. cbn [fst]. destruct (sendMessage w _ _); [|exact I].
      eexists; split; reflexivity.
    + intros cs Hs.
      rewrite (streamInformationGathering001_fresh w u h _ _ Hc).
      cbv zeta. rewrite Hs. cbn [fragments failure snd app records].
      rewrite records_app. cbn [records]. rewrite terminal_snoc.
      eexists; split; reflexivity.
  - intros Hc kept Hk. rewrite Hc. cbn [fst snd].
    assert (Hpop : popPartialModelTurn h = kept).
    { destruct Hk as [-> | [<- [-> | [before [r [x [-> Hr]]]]]]].
      - apply popPartialModelTurn_model.
      - reflexivity.
      - now apply popPartialModelTurn_other. }
    split.
    + rewrite (handleInformationGathering001_continuation w u h _ _ Hc).
      cbv zeta. cbn [fst]. destruct (sendMessage w _ _); [|exact I].
      rewrite Hpop. eexists; split; reflexivity.
    + intros cs Hs.
      rewrite (streamInformationGathering001_continuation w u h _ _ Hc).
      cbv zeta. rewrite Hs. cbn [fragments failure snd app records].
      rewrite records_app. cbn [records]. rewrite terminal_snoc.
      rewrite Hpop. eexists; split; reflexivity.
  - intros Hh. destruct h as [|x h]; [contradiction|]. split.
    + rewrite handleInformationGathering002_run. cbn [fst].
      destruct (sendMessage w _ u); [|exact I].
      eexists; split; reflexivity.
    + intros cs Hs. rewrite streamInformationGathering002_run.
      cbv zeta. rewrite Hs. cbn [fragments failure snd app records].
      rewrite records_app. cbn [records]. rewrite terminal_snoc.
      eexists; split; reflexivity.
  - intros ->. split.
    + rewrite handleInformationGathering002_run.
      destruct (sendMessage w [] IMPROVED_PROMPT); [|exact I].
      cbv zeta. cbn [fst]. destruct (sendMessage w _ u); [|exact I].
      do 2 eexists; split; reflexivity.
    + intros cs systemResponse Hsys Hs. rewrite streamInformationGathering002_run.
      cbv zeta. rewrite Hsys, Hs. cbn [fragments failure snd app records].
      rewrite records_app. cbn [records]. rewrite terminal_snoc.
      eexists; split; reflexivity.
Qed.

(** C5 amended, on the example world: a second turn that is not a
    continuation, a continuation whose history ends with the partial
    turn, and a second and a first turn on part_002. *)
Lemma history_postcondition_witness :
  returns (Part001.handleInformationGathering exampleWorld "wood"
             [mkTurn "user" "deck"; mkTurn "model" "size?"] false "")
    (fun r => exists t,
       Rec.text r = Some t
       /\ Rec.conversationHistory r
          = Some [mkTurn "user" "deck"; mkTurn "model" "size?";
                  mkTurn "user" "wood"; mkTurn "model" t])
  /\ returns (Part001.handleInformationGathering exampleWorld "deck"
                [mkTurn "user" "deck"; mkTurn "model" "par"] true "par")
       (fun r => exists t,
          Rec.text r = Some t
          /\ Rec.conversationHistory r
             = Some [mkTurn "user" "deck"; mkTurn "model" t])
  /\ returns (Part002.handleInformationGathering exampleWorld "prompt" "wood"
                [mkTurn "user" "deck"; mkTurn "model" "size?"])
       (fun r => exists t,
          Rec.text r = Some t
          /\ Rec.conversationHistory r
             = Some [mkTurn "user" "deck"; mkTurn "model" "size?";
                     mkTurn "user" "wood"; mkTurn "model" t])
  /\ returns (Part002.handleInformationGathering exampleWorld "prompt" "deck" [])
       (fun r => exists systemResponse t,
          Rec.text r = Some t
          /\ Rec.conversationHistory r
             = Some [mkTurn "user" "prompt"; mkTurn "model" systemResponse;
                     mkTurn "user" "deck"; mkTurn "model" t]).
Proof.
  pose proof (history_postcondition exampleWorld "prompt" "wood"
                [mkTurn "user" "deck"; mkTurn "model" "size?"] false "") as A.
  pose proof (history_postcondition exampleWorld "prompt" "deck"
                [mkTurn "user" "deck"; mkTurn "model" "par"] true "par") as B.
  pose proof (history_postcondition exampleWorld "prompt" "deck" [] false "") as C.
  cbv zeta in A, B, C.
  destruct A as [A1 [_ [A3 _]]]. destruct B as [_ [B2 _]].
  destruct C as [_ [_ [_ C4]]].
  split; [exact (proj1 (A1 eq_refl))|].
  split; [exact (proj1 (B2 eq_refl [mkTurn "user" "deck"] (or_introl eq_refl)))|].
  split; [refine (proj1 (A3 _)); discriminate|].
  exact (proj1 (C4 eq_refl)).
Defined.

(* ===================================================================== *)
(** ** The catalog *)
(* ===================================================================== *)

Lemma catalogFails_cases (w : World) :
  catalogFails w ->
  (exists e, readFile w "tool_information.txt" = Throw e)
  \/ (exists t e, readFile w "tool_information.txt" = Return t
                  /\ readFile w "product_urls.txt" = Throw e).
Proof.
  intros [[e He] | [e He]].
  - left. now exists e.
  - destruct (readFile w "tool_information.txt") as [t|e'] eqn:Ht.
    + right. now exists t, e.
    + left. now exists e'.
Qed.

Lemma gathering_reads_nothing
    (w : World) (IMPROVED_PROMPT userInput conversationContext : string)
    (h : list Turn) (continuationMode : bool) (partialResponse : string) :
  reads (snd (Part001.streamInformationGathering w userInput h continuationMode
                partialResponse)) = []
  /\ reads (snd (Part001.handleInformationGathering w userInput h
                   continuationMode partialResponse)) = []
  /\ reads (snd (Part002.streamInformationGathering w IMPROVED_PROMPT userInput h))
     = []
  /\ reads (snd (Part002.handleInformationGathering w IMPROVED_PROMPT userInput h))
     = []
  /\ reads (snd (Part000.handleInformationGathering w IMPROVED_PROMPT userInput
                   conversationContext)) = [].
Proof.
  repeat apply conj.
  - destruct (continuationMode && Js.truthy partialResponse) eqn:Hc.
    + rewrite (streamInformationGathering001_continuation w userInput h _ _ Hc).
      cbv zeta. cbn [snd app reads]. rewrite reads_app.
      now rewrite (reads_enqueues (chunkRecord [Rec.Continuation true])).
    + rewrite (streamInformationGathering001_fresh w userInput h _ _ Hc).
      cbv zeta. cbn [snd app reads]. rewrite reads_app.
      now rewrite (reads_enqueues (chunkRecord [])).
  - destruct (continuationMode && Js.truthy partialResponse) eqn:Hc.
    + now rewrite (handleInformationGathering001_continuation w userInput h _ _ Hc).
    + now rewrite (handleInformationGathering001_fresh w userInput h _ _ Hc).
  - rewrite streamInformationGathering002_run. cbv zeta.
    destruct h as [|x h]; [destruct (sendMessage w [] IMPROVED_PROMPT)|];
      cbn [snd app reads]; try reflexivity;
      rewrite reads_app; now rewrite (reads_enqueues (chunkRecord [])).
  - rewrite handleInformationGathering002_run.
    destruct h as [|x h]; [destruct (sendMessage w [] IMPROVED_PROMPT)|];
      reflexivity.
  - now rewrite handleInformationGathering000_run.
Qed.

Lemma recommendation_without_catalog
    (w : World) (PROMPT_TEMPLATE projectInformation : string)
    (continuationMode : bool) (partialResponse : string)
    (partial : option Part002.PartialResponse) :
  catalogFails w ->
  (records (snd (Part001.streamToolRecommendation w PROMPT_TEMPLATE
                   projectInformation continuationMode partialResponse))
   = [catalogErrorRecord]
   /\ generations (snd (Part001.streamToolRecommendation w PROMPT_TEMPLATE
                          projectInformation continuationMode partialResponse))
      = [])
  /\ (fst (Part001.handleToolRecommendation w PROMPT_TEMPLATE projectInformation
             continuationMode partialResponse) = Return catalogErrorResult
      /\ generations (snd (Part001.handleToolRecommendation w PROMPT_TEMPLATE
                             projectInformation continuationMode partialResponse))
         = [])
  /\ (records (snd (Part002.streamToolRecommendation w PROMPT_TEMPLATE
                      projectInformation partial))
      = [catalogErrorRecord]
      /\ generations (snd (Part002.streamToolRecommendation w PROMPT_TEMPLATE
                             projectInformation partial)) = [])
  /\ (fst (Part002.handleToolRecommendation w PROMPT_TEMPLATE projectInformation
             partial) = Return catalogErrorResult
      /\ generations (snd (Part002.handleToolRecommendation w PROMPT_TEMPLATE
                             projectInformation partial)) = []).
Proof.
  intros Hf. apply catalogFails_cases in Hf.
  repeat apply conj; destruct Hf as [[e He] | [t [e [Ht He]]]].
  - now rewrite (streamToolRecommendation001_no_tool w _ _ _ _ e He).
  - now rewrite (streamToolRecommendation001_no_urls w _ _ _ _ t e Ht He).
  - now rewrite (streamToolRecommendation001_no_tool w _ _ _ _ e He).
  - now rewrite (streamToolRecommendation001_no_urls w _ _ _ _ t e Ht He).
  - now rewrite (handleToolRecommendation001_no_tool w _ _ _ _ e He).
  - now rewrite (handleToolRecommendation001_no_urls w _ _ _ _ t e Ht He).
  - now rewrite (handleToolRecommendation001_no_tool w _ _ _ _ e He).
  - now rewrite (handleToolRecommendation001_no_urls w _ _ _ _ t e Ht He).
  - now rewrite (streamToolRecommendation002_no_tool w _ _ _ e He).
  - now rewrite (streamToolRecommendation002_no_urls w _ _ _ t e Ht He).
  - now rewrite (streamToolRecommendation002_no_tool w _ _ _ e He).
  - now rewrite (streamToolRecommendation002_no_urls w _ _ _ t e Ht He).
  - now rewrite (handleToolRecommendation002_no_tool w _ _ _ e He).
  - now rewrite (handleToolRecommendation002_no_urls w _ _ _ t e Ht He).
  - now rewrite (handleToolRecommendation002_no_tool w _ _ _ e He).
  - now rewrite (handleToolRecommendation002_no_urls w _ _ _ t e Ht He).
Qed.

(** C6 (catalog failure handling).  When reading either catalog file
    fails, the recommendation stream consists of the single record
    [{error: true, text: <try again later>, done: true}], the plain
    handler returns [{text: <try again later>, error: true}], and neither
    calls the model.  The gathering handlers read no file at all, whatever
    the state of the catalog. *)
Theorem catalog_failure_handling
    (w : World) (IMPROVED_PROMPT PROMPT_TEMPLATE projectInformation : string)
    (continuationMode : bool) (partialResponse : string)
    (partial : option Part002.PartialResponse)
    (userInput conversationContext : string) (h : list Turn) :
  catalogFails w ->
  (records (snd (Part001.streamToolRecommendation w PROMPT_TEMPLATE
                   projectInformation continuationMode partialResponse))
   = [catalogErrorRecord]
   /\ generations (snd (Part001.streamToolRecommendation w PROMPT_TEMPLATE
                          projectInformation continuationMode partialResponse))
      = [])
  /\ (fst (Part001.handleToolRecommendation w PROMPT_TEMPLATE projectInformation
             continuationMode partialResponse) = Return catalogErrorResult
      /\ generations (snd (Part001.handleToolRecommendation w PROMPT_TEMPLATE
                             projectInformation continuationMode partialResponse))
         = [])
  /\ (records (snd (Part002.streamToolRecommendation w PROMPT_TEMPLATE
                      projectInformation partial))
      = [catalogErrorRecord]
      /\ generations (snd (Part002.streamToolRecommendation w PROMPT_TEMPLATE
                             projectInformation partial)) = [])
  /\ (fst (Part002.handleToolRecommendation w PROMPT_TEMPLATE projectInformation
             partial) = Return catalogErrorResult
      /\ generations (snd (Part002.handleToolRecommendation w PROMPT_TEMPLATE
                             projectInformation partial)) = [])
  /\ (Rec.error catalogErrorRecord = Some true
      /\ Rec.error catalogErrorResult = Some true
      /\ Rec.text catalogErrorRecord = Rec.text catalogErrorResult
      /\ exists message,
           Rec.text catalogErrorResult = Some message
           /\ Js.includes message "Please try again later." = true)
  /\ (reads (snd (Part001.streamInformationGathering w userInput h
                    continuationMode partialResponse)) = []
      /\ reads (snd (Part001.handleInformationGathering w userInput h
                       continuationMode partialResponse)) = []
      /\ reads (snd (Part002.streamInformationGathering w IMPROVED_PROMPT
                       userInput h)) = []
      /\ reads (snd (Part002.handleInformationGathering w IMPROVED_PROMPT
                       userInput h)) = []
      /\ reads (snd (Part000.handleInformationGathering w IMPROVED_PROMPT
                       userInput conversationContext)) = []).
Proof.
  intros Hf.
  destruct (recommendation_without_catalog w PROMPT_TEMPLATE projectInformation
              continuationMode partialResponse partial Hf)
    as [H1 [H2 [H3 H4]]].
  split; [exact H1|]. split; [exact H2|]. split; [exact H3|].
  split; [exact H4|]. split.
  - repeat split. eexists; split; reflexivity.
  - exact (gathering_reads_nothing w IMPROVED_PROMPT userInput
             conversationContext h continuationMode partialResponse).
Qed.

(** C6 on a world without the product URL file: a first recommendation
    request gets the single error record and the model is not called. *)
Lemma catalog_failure_handling_witness :
  catalogFails noUrlsWorld
  /\ records (snd (Part001.streamToolRecommendation noUrlsWorld "template"
                     "project" false "")) = [catalogErrorRecord]
  /\ generations (snd (Part001.streamToolRecommendation noUrlsWorld "template"
                         "project" false "")) = [].
Proof.
  assert (Hf : catalogFails noUrlsWorld).
  { right. exists "ENOENT: no such file or directory". reflexivity. }
  split; [exact Hf|].
  exact (proj1 (catalog_failure_handling noUrlsWorld "prompt" "template"
                  "project" false "" None "deck" "" [] Hf)).
Defined.

(* ===================================================================== *)
(** ** What the client keeps of a stream *)
(* ===================================================================== *)

Lemma split_line (s rest : string) :
  Wire.oneLine s = true ->
  Wire.split (s ++ Js.nl ++ rest) = s :: Wire.split rest.
Proof.
  induction s as [|c s IH]; intros H.
  - reflexivity.
  - cbn in H. apply andb_true_iff in H. destruct H as [Hc Hs].
    apply negb_true_iff in Hc.
    change (String c s ++ Js.nl ++ rest) with (String c (s ++ Js.nl ++ rest)).
    cbn [Wire.split]. change (ascii_of_nat 10) with "010"%char.
    rewrite Hc. now rewrite (IH Hs).
Qed.

(** A read in which records arrive whole gives one line for each. *)
Lemma lines_encode (json : Json) (rs : list Rec.t) :
  Forall (Wire.readable json) rs ->
  Wire.lines (Wire.encode json rs) = map (stringify json) rs.
Proof.
  induction 1 as [|r rs (_ & Hl & Hn) _ IH]; [reflexivity|].
  unfold Wire.lines, Wire.encode in *. cbn [map Js.concat fold_right].
  fold (Js.concat (map (Wire.line json) rs)).
  unfold Wire.line at 1. rewrite append_assoc.
  rewrite (split_line _ _ Hl). cbn [filter].
  destruct (stringify json r) eqn:E; [contradiction|].
  cbn [Js.truthy]. now rewrite IH.
Qed.

Lemma fold_reads {S : Type} (f : list string -> S -> S) (json : Json)
    (groups : list (list Rec.t)) (st : S) :
  Forall (Forall (Wire.readable json)) groups ->
  fold_left (fun st chunkText => f (Wire.lines chunkText) st)
            (map (Wire.encode json) groups) st
  = fold_left (fun st g => f (map (stringify json) g) st) groups st.
Proof.
  intros H. revert st. induction H as [|g groups Hg _ IH]; intros st;
    [reflexivity|].
  cbn [map fold_left]. now rewrite (lines_encode json g Hg), IH.
Qed.

(** A loop over the reads of a stream that passes its state from one
    read to the next sees the records as if they came in one read, as
    long as a record that ends the inner loop is the last record of the
    stream. *)
Lemma reads_as_one {S : Type} (P : Rec.t -> Prop) (f : list Rec.t -> S -> S) :
  (forall st, f [] st = st) ->
  (forall a b st, Forall P a -> f (a ++ b)%list st = f b (f a st)) ->
  forall reads pre last st,
    concat reads = (pre ++ [last])%list ->
    Forall P pre ->
    fold_left (fun st chunks => f chunks st) reads st
    = f (pre ++ [last])%list st.
Proof.
  intros Hnil Happ reads. induction reads as [|chunks reads IH];
    intros pre last st Hc Hp.
  - now destruct pre.
  - cbn [concat fold_left] in *.
    destruct (concat reads) as [|x rest] eqn:Hrest.
    + rewrite app_nil_r in Hc. subst chunks.
      clear IH. revert Hrest. generalize (f (pre ++ [last])%list st).
      induction reads as [|c reads IH]; intros s Hrest; [reflexivity|].
      cbn [concat] in Hrest. apply app_eq_nil in Hrest.
      destruct Hrest as [-> Hrest]. cbn [fold_left]. rewrite Hnil.
      now apply IH.
    + destruct (exists_last (l := x :: rest)) as (pre2 & last2 & Hl);
        [discriminate|].
      rewrite Hl in Hc. rewrite app_assoc in Hc.
      apply app_inj_tail in Hc. destruct Hc as [Hpre <-].
      subst pre. apply Forall_app in Hp. destruct Hp as [Hp1 Hp2].
      rewrite (IH pre2 last2 (f chunks st) Hl Hp2).
      rewrite <- app_assoc. now rewrite (Happ chunks _ st Hp1).
Qed.

(** The same for the reads on the wire, when every record arrives
    whole. *)
Lemma stream_as_one {S : Type} (json : Json) (f : list string -> S -> S)
    (groups : list (list Rec.t)) (pre : list Rec.t) (last : Rec.t) (st : S) :
  (forall st, f [] st = st) ->
  (forall a b st,
      Forall (passes json) a ->
      f (map (stringify json) a ++ b)%list st
      = f b (f (map (stringify json) a) st)) ->
  concat groups = (pre ++ [last])%list ->
  Forall (passes json) pre ->
  Wire.readable json last ->
  fold_left (fun st chunkText => f (Wire.lines chunkText) st)
            (map (Wire.encode json) groups) st
  = f [stringify json last] (f (map (stringify json) pre) st).
Proof.
  intros Hnil Happ Hc Hp Hl.
  rewrite fold_reads.
  - rewrite (reads_as_one (passes json)
               (fun g st => f (map (stringify json) g) st)
               Hnil
               (fun a b st Ha =>
                  eq_trans (f_equal (fun l => f l st) (map_app _ a b))
                           (Happ a (map (stringify json) b) st Ha))
               groups pre last st Hc Hp).
    rewrite map_app. now rewrite (Happ pre _ st Hp).
  - apply Forall_concat. rewrite Hc. apply Forall_app. split.
    + eapply Forall_impl; [|exact Hp]. now intros d [Hd _].
    + now constructor.
Qed.

Lemma readChunks_app (json : Json) (a : list Rec.t) (b : list string)
    (completeData : option Rec.t) :
  Forall (passes json) a ->
  Client.readChunks json (map (stringify json) a ++ b) completeData
  = Client.readChunks json b
      (Client.readChunks json (map (stringify json) a) completeData).
Proof.
  intros Ha. revert completeData.
  induction Ha as [|d a ((Hd & _) & He) _ IH]; intros completeData;
    [reflexivity|].
  cbn [map app Client.readChunks]. rewrite Hd, He.
  destruct (negb (Client.truthy (Rec.done d))); apply IH.
Qed.

Lemma errorMessages_app (json : Json) (a : list Rec.t) (b : list string)
    (shown : list (option string)) :
  Forall (passes json) a ->
  (shown ++ Client.errorMessages json (map (stringify json) a ++ b))%list
  = ((shown ++ Client.errorMessages json (map (stringify json) a))
     ++ Client.errorMessages json b)%list.
Proof.
  intros Ha. rewrite <- app_assoc. f_equal.
  induction Ha as [|d a ((Hd & _) & He) _ IH]; [reflexivity|].
  cbn [map app Client.errorMessages]. now rewrite Hd, He.
Qed.

(** The fragment records of a stream leave [completeData] alone and add
    no system message. *)
Lemma readChunks_fragments (json : Json) (rs : list Rec.t)
    (completeData : option Rec.t) :
  Forall (passes json) rs ->
  Forall (fun d => Client.truthy (Rec.done d) = false) rs ->
  Client.readChunks json (map (stringify json) rs) completeData = completeData
  /\ Client.errorMessages json (map (stringify json) rs) = [].
Proof.
  intros Hp Hd. induction Hp as [|d rs ((Hr & _) & He) _ IH];
    [now split|].
  inversion Hd as [|? ? Hd1 Hd2]; subst.
  cbn [map Client.readChunks Client.errorMessages]. rewrite Hr, He, Hd1.
  exact (IH Hd2).
Qed.

Lemma systemMessages_fold (json : Json) (reads : list string) :
  Client.systemMessages json reads
  = fold_left
      (fun shown chunkText =>
         (shown ++ Client.errorMessages json (Wire.lines chunkText))%list)
      reads [].
Proof.
  unfold Client.systemMessages.
  assert (G : forall shown,
             fold_left
               (fun shown chunkText =>
                  (shown ++ Client.errorMessages json (Wire.lines chunkText))%list)
               reads shown
             = (shown
                ++ flat_map (fun chunkText =>
                               Client.errorMessages json (Wire.lines chunkText))
                            reads)%list).
  { induction reads as [|x reads IH]; intros shown; cbn.
    - now rewrite app_nil_r.
    - now rewrite IH, app_assoc. }
  now rewrite G.
Qed.

(** A stream that ends with an error record, every record arriving
    whole: the client keeps no terminal record and shows the text of the
    error record as one system message. *)
Lemma failed_stream_read (json : Json) (groups : list (list Rec.t))
    (pre : list Rec.t) (failed : Rec.t) :
  concat groups = (pre ++ [failed])%list ->
  Forall (passes json) pre ->
  Forall (fun d => Client.truthy (Rec.done d) = false) pre ->
  Wire.readable json failed ->
  Client.truthy (Rec.error failed) = true ->
  Client.readStream json (map (Wire.encode json) groups) = None
  /\ Client.systemMessages json (map (Wire.encode json) groups)
     = [Rec.text failed].
Proof.
  intros Hc Hp Hd Hr He. destruct Hr as (Hparse & Hline).
  destruct (readChunks_fragments json pre None Hp Hd) as (H1 & H2).
  split.
  - unfold Client.readStream.
    rewrite (stream_as_one json (Client.readChunks json) groups pre failed
               None (fun _ => eq_refl) (readChunks_app json) Hc Hp
               (conj Hparse Hline)).
    rewrite H1. cbn [Client.readChunks]. now rewrite Hparse, He.
  - rewrite systemMessages_fold.
    rewrite (stream_as_one json
               (fun chunks shown =>
                  (shown ++ Client.errorMessages json chunks)%list)
               groups pre failed [] (fun shown => app_nil_r shown)
               (fun a b shown => errorMessages_app json a b shown) Hc Hp
               (conj Hparse Hline)).
    rewrite H2. cbn [Client.errorMessages app]. now rewrite Hparse, He.
Qed.

(** The fragment records of the streams pass and are not done, when they
    arrive whole. *)
Lemma fragments_pass (json : Json) (extra : list Rec.Field)
    (chunks : list string) :
  (forall c, Rec.error (chunkRecord extra c) = None) ->
  (forall c, Rec.done (chunkRecord extra c) = Some false) ->
  Forall (Wire.readable json) (map (chunkRecord extra) chunks) ->
  Forall (passes json) (map (chunkRecord extra) chunks)
  /\ Forall (fun d => Client.truthy (Rec.done d) = false)
            (map (chunkRecord extra) chunks).
Proof.
  intros He Hd Hr. split.
  - apply Forall_forall. intros d Hin. split.
    + now apply (proj1 (Forall_forall _ _) Hr).
    + apply in_map_iff in Hin. destruct Hin as (c & <- & _). now rewrite He.
  - apply Forall_forall. intros d Hin.
    apply in_map_iff in Hin. destruct Hin as (c & <- & _). now rewrite Hd.
Qed.

(* ===================================================================== *)
(** ** Failures of the model *)
(* ===================================================================== *)

(** The body of the 500 response of the SDK routes. *)
Lemma POST001_plain_gathering (w : World) (PROMPT_TEMPLATE : string)
    (body : Part001.Request) :
  Part001.streaming body = false ->
  Part001.phase body = "gathering" ->
  Part001.POST w PROMPT_TEMPLATE body
  = (match fst (Part001.handleInformationGathering w (Part001.userInput body)
                  (Part001.conversationHistory body)
                  (Part001.continuationMode body)
                  (Part001.partialResponse body)) with
     | Return result => Return (JsonResponse 200 result)
     | Throw m =>
         Return
           (JsonResponse 500
              (Rec.object
                 [Rec.Error true;
                  Rec.Text ("An error occurred while processing your request: "
                            ++ m)]))
     end,
     snd (Part001.handleInformationGathering w (Part001.userInput body)
            (Part001.conversationHistory body)
            (Part001.continuationMode body)
            (Part001.partialResponse body))).
Proof.
  intros Hs Hp. unfold Part001.POST. rewrite Hs, Hp, String.eqb_refl.
  destruct (Part001.handleInformationGathering w _ _ _ _) as [[r|m] l];
    eff; now rewrite ?app_nil_r.
Qed.

(** The failed gathering stream of part_001: one call to the model, the
    error record last, and what the client makes of it. *)
Lemma failed_gathering_stream
    (w : World) (json : Json) (userInput : string) (h : list Turn)
    (continuationMode : bool) (p : string) (cs : list string) (m : string) :
  let sent := Part001.messageSent userInput h continuationMode p in
  sendMessageStream w (fst sent) (snd sent) = mkStream cs (Some m) ->
  let log :=
    snd (Part001.streamInformationGathering w userInput h continuationMode p) in
  generations log = [SendMessageStream (fst sent) (snd sent)]
  /\ terminal (records log) = Some (Part001.streamErrorRecord m)
  /\ forall groups,
       concat groups = records log ->
       Forall (Wire.readable json) (records log) ->
       Client.readStream json (map (Wire.encode json) groups) = None
       /\ Client.systemMessages json (map (Wire.encode json) groups)
          = [Some ("Error in streaming response: " ++ m)].
Proof.
  intros sent. subst sent. unfold Part001.messageSent.
  destruct (continuationMode && Js.truthy p) eqn:Hc; cbn [fst snd]; intros Hs.
  - rewrite (streamInformationGathering001_continuation w userInput h _ _ Hc).
    cbv zeta. rewrite Hs. cbn [fragments failure snd app records generations].
    rewrite generations_app, records_app. cbn [records generations].
    rewrite (generations_enqueues (chunkRecord [Rec.Continuation true])).
    rewrite (records_enqueues (chunkRecord [Rec.Continuation true])).
    rewrite terminal_snoc. split; [reflexivity|]. split; [reflexivity|].
    intros groups Hg Hr. apply Forall_app in Hr. destruct Hr as [Hr1 Hr2].
    destruct (fragments_pass json [Rec.Continuation true] cs
                (fun _ => eq_refl) (fun _ => eq_refl) Hr1)
      as (Hp1 & Hp2).
    exact (failed_stream_read json groups _ _ Hg Hp1 Hp2
             (Forall_inv Hr2) eq_refl).
  - rewrite (streamInformationGathering001_fresh w userInput h _ _ Hc).
    cbv zeta. rewrite Hs. cbn [fragments failure snd app records generations].
    rewrite generations_app, records_app. cbn [records generations].
    rewrite (generations_enqueues (chunkRecord [])).
    rewrite (records_enqueues (chunkRecord [])).
    rewrite terminal_snoc. split; [reflexivity|]. split; [reflexivity|].
    intros groups Hg Hr. apply Forall_app in Hr. destruct Hr as [Hr1 Hr2].
    destruct (fragments_pass json [] cs
                (fun _ => eq_refl) (fun _ => eq_refl) Hr1)
      as (Hp1 & Hp2).
    exact (failed_stream_read json groups _ _ Hg Hp1 Hp2
             (Forall_inv Hr2) eq_refl).
Qed.

(** The claim of C7 fails in two places.
    - On the first route, whose REST endpoint answers with status 500 in
      the example world, the gathering handler returns normally, with no
      [error] key and the fallback text as the reply, and the
      conversation context has grown by the user turn and by the
      fallback text as a model turn.
    - On the route with [continuationMode], the failure is retried
      without the user: the stream of a world whose model breaks after
      the fragment ["par"] ends with the error record, which the client
      shows as a system message; the watchdog started by
      [handleSendMessage] is still armed, and when its timer runs out the
      client starts a continuation of the request with the partial text
      ["par"], for which the route calls the model again. *)
Lemma upstream_error_counterexample :
  (upstreamFails (fetch exampleWorld "gemini-2.0-flash"
                    (Part000.contextSent "prompt" "deck" "ctx")) = true
   /\ exists r,
        fst (Part000.handleInformationGathering exampleWorld "prompt" "deck" "ctx")
        = Return r
        /\ fst (Part000.POST exampleWorld "prompt" "template"
                  (Part000.mkRequest "gathering" "deck" "ctx" ""))
           = Return (JsonResponse 200 r)
        /\ Rec.error r = None
        /\ Rec.text r = Some "Error generating response. Please try again."
        /\ Rec.conversationContext r
           = Some ("ctx" ++ Js.nl ++ "User: deck" ++ Js.nl ++ Js.nl
                   ++ "AI: Error generating response. Please try again." ++ Js.nl)
        /\ Rec.conversationContext r <> Some "ctx")
  /\ (let stream :=
        records (snd (Part001.streamInformationGathering brokenStreamWorld
                        "deck" [] false "")) in
      let reads := [Wire.encode exampleJson stream] in
      let st :=
        Watchdog.handleSendMessage exampleJson
          (Watchdog.mkInfo Client.gathering (Some "deck") (Some ""))
          (Some reads) Watchdog.initial in
      stream = [chunkRecord [] "par"; Part001.streamErrorRecord "fetch failed"]
      /\ Client.systemMessages exampleJson reads
         = [Some "Error in streaming response: fetch failed"]
      /\ Watchdog.timers st = [2]
      /\ Watchdog.actions (Watchdog.fire 2 st)
         = [Watchdog.TimeoutNotice;
            Watchdog.ContinueGathering (Some "deck") "par"]
      /\ generations
           (snd (Part001.streamInformationGathering brokenStreamWorld
                   "deck" [] true "par"))
         = [SendMessageStream [] (Part001.gatheringContinuationPrompt "par")]).
Proof.
  split.
  - split; [reflexivity|]. eexists. split; [reflexivity|].
    repeat split. discriminate.
  - cbv zeta. repeat split.
Qed.

(** C7 (upstream error handling), amended.
    - First route (part_000).  The call to the REST endpoint is made once
      and not retried.  When it fails in a way that [fetchGeminiResponse]
      catches (network error, failure status, body that is not JSON,
      missing or empty candidate list, candidate without content), no
      error is raised: [fetchGeminiResponse] answers with the fixed text
      "Error generating response. Please try again.", which the gathering
      handler returns as an ordinary reply, without [error] key, with
      [isComplete] false and an empty project information.  When the
      first candidate holds no text, [fetchGeminiResponse] returns an
      undefined text, the handler throws on it, and [POST] answers with
      status 500 and the body [{error: true, text: "An error occurred
      while processing your request."}], which carries no conversation
      context.
    - Route with [continuationMode] (part_001).  When the model call of a
      gathering request fails with message [m], the route makes the call
      once and does not retry it; the stream ends with the record
      [{error: true, text: "Error in streaming response: " + m, done: true}]
      and the plain request gets the 500 body
      [{error: true, text: "An error occurred while processing your
      request: " + m}]; neither carries a conversation history.  The
      client that reads the failed stream, its records arriving whole in
      any number of reads, shows the text of the error record as one
      system message and keeps its phase, its conversation history and
      its project information as they were. *)
Theorem upstream_error_handling
    (w : World) (json : Json)
    (IMPROVED_PROMPT PROMPT_TEMPLATE userInput conversationContext
       projectInformation : string)
    (h : list Turn) (continuationMode : bool) (p : string) :
  let context :=
    Part000.contextSent IMPROVED_PROMPT userInput conversationContext in
  let sent := Part001.messageSent userInput h continuationMode p in
  (upstreamFails (fetch w "gemini-2.0-flash" context) = true ->
   if textMissing (fetch w "gemini-2.0-flash" context) then
     Part000.fetchGeminiResponse w context "gemini-2.0-flash"
     = (Return None, [Fetch "gemini-2.0-flash" context])
     /\ Part000.handleInformationGathering w IMPROVED_PROMPT userInput
          conversationContext
        = (Throw Part000.undefinedIncludes, [Fetch "gemini-2.0-flash" context])
     /\ Part000.POST w IMPROVED_PROMPT PROMPT_TEMPLATE
          (Part000.mkRequest "gathering" userInput conversationContext
             projectInformation)
        = (Return
             (JsonResponse 500
                (Rec.object
                   [Rec.Error true;
                    Rec.Text "An error occurred while processing your request."])),
           [Fetch "gemini-2.0-flash" context])
   else
     Part000.fetchGeminiResponse w context "gemini-2.0-flash"
     = (Return (Some Part000.fallbackText), [Fetch "gemini-2.0-flash" context])
     /\ exists r,
          Part000.handleInformationGathering w IMPROVED_PROMPT userInput
            conversationContext
          = (Return r, [Fetch "gemini-2.0-flash" context])
          /\ Part000.POST w IMPROVED_PROMPT PROMPT_TEMPLATE
               (Part000.mkRequest "gathering" userInput conversationContext
                  projectInformation)
             = (Return (JsonResponse 200 r), [Fetch "gemini-2.0-flash" context])
          /\ Rec.error r = None
          /\ Rec.text r = Some Part000.fallbackText
          /\ Rec.isComplete r = Some false
          /\ Rec.projectInformation r = Some "")
  /\ (forall (cs : list string) (m : string),
        sendMessageStream w (fst sent) (snd sent) = mkStream cs (Some m) ->
        let log :=
          snd (Part001.streamInformationGathering w userInput h
                 continuationMode p) in
        generations log = [SendMessageStream (fst sent) (snd sent)]
        /\ terminal (records log)
           = Some (Rec.object
                     [Rec.Error true;
                      Rec.Text ("Error in streaming response: " ++ m);
                      Rec.Done true])
        /\ forall (seen : Client.Phase) (st : Client.State)
                  (groups : list (list Rec.t)),
             concat groups = records log ->
             Forall (Wire.readable json) (records log) ->
             let reads := map (Wire.encode json) groups in
             Client.handleSendMessage json seen reads st = st
             /\ Client.systemMessages json reads
                = [Some ("Error in streaming response: " ++ m)])
  /\ (forall m : string,
        sendMessage w (fst sent) (snd sent) = Throw m ->
        Part001.POST w PROMPT_TEMPLATE
          (Part001.mkRequest "gathering" userInput h "" false continuationMode p)
        = (Return
             (JsonResponse 500
                (Rec.object
                   [Rec.Error true;
                    Rec.Text ("An error occurred while processing your request: "
                              ++ m)])),
           [SendMessage (fst sent) (snd sent)])).
Proof.
  intros context sent. repeat apply conj.
  - intros Hf. unfold upstreamFails in Hf.
    assert (Hpost : Part000.POST w IMPROVED_PROMPT PROMPT_TEMPLATE
                      (Part000.mkRequest "gathering" userInput
                         conversationContext projectInformation)
                    = (match fst (Part000.handleInformationGathering w
                                    IMPROVED_PROMPT userInput
                                    conversationContext) with
                       | Return r => Return (JsonResponse 200 r)
                       | Throw _ =>
                           Return
                             (JsonResponse 500
                                (Rec.object
                                   [Rec.Error true;
                                    Rec.Text "An error occurred while processing your request."]))
                       end,
                       [Fetch "gemini-2.0-flash" context])).
    { unfold Part000.POST. cbn [Part000.phase Part000.userInput
                                 Part000.conversationContext].
      rewrite String.eqb_refl, handleInformationGathering000_run. cbv zeta.
      fold context.
      destruct (fst (Part000.fetchGeminiResponse w context "gemini-2.0-flash"))
        as [[t|]|e]; reflexivity. }
    rewrite Hpost, handleInformationGathering000_run. cbv zeta. fold context.
    rewrite fetchGeminiResponse_run. cbn [fst].
    destruct (fetch w "gemini-2.0-flash" context)
      as [e|status e|e|[[|[t| |e] more]|]];
      cbn [textMissing fetchCaught orb] in *;
      try discriminate;
      try (split; [reflexivity|]; eexists; split; [reflexivity|];
           now repeat split).
    now repeat split.
  - intros cs m Hs log.
    destruct (failed_gathering_stream w json userInput h continuationMode p
                cs m Hs) as (Hg & Ht & Hc).
    split; [exact Hg|]. split; [exact Ht|].
    intros seen st groups Hgroups Hr reads.
    destruct (Hc groups Hgroups Hr) as (Hread & Hshown).
    split; [|exact Hshown].
    unfold Client.handleSendMessage. subst reads. now rewrite Hread.
  - intros m. subst sent. unfold Part001.messageSent.
    rewrite POST001_plain_gathering by reflexivity.
    cbn [Part001.userInput Part001.conversationHistory Part001.continuationMode
         Part001.partialResponse].
    destruct (continuationMode && Js.truthy p) eqn:Hc; cbn [fst snd]; intros Hs.
    + rewrite (handleInformationGathering001_continuation w userInput h _ _ Hc).
      cbv zeta. now rewrite Hs.
    + rewrite (handleInformationGathering001_fresh w userInput h _ _ Hc).
      cbv zeta. now rewrite Hs.
Qed.

(** C7 amended, on two worlds: the example world, whose REST endpoint
    answers with status 500 (one call, and the fallback text as an
    ordinary reply), and a world whose endpoint answers with a candidate
    without text (one call, and status 500). *)
Lemma upstream_error_handling_witness :
  (exists r,
     Part000.handleInformationGathering exampleWorld "prompt" "deck" "ctx"
     = (Return r,
        [Fetch "gemini-2.0-flash" (Part000.contextSent "prompt" "deck" "ctx")])
     /\ Rec.error r = None
     /\ Rec.text r = Some Part000.fallbackText
     /\ Rec.isComplete r = Some false
     /\ Rec.projectInformation r = Some "")
  /\ fst (Part000.POST noTextWorld "prompt" "template"
            (Part000.mkRequest "gathering" "deck" "ctx" ""))
     = Return
         (JsonResponse 500
            (Rec.object
               [Rec.Error true;
                Rec.Text "An error occurred while processing your request."])).
Proof.
  split.
  - destruct (proj2 (proj1 (upstream_error_handling exampleWorld exampleJson
                              "prompt" "template" "deck" "ctx" "" [] false "")
                       eq_refl))
      as (r & Hr & _ & He & Ht & Hc & Hp).
    exists r. now repeat split.
  - exact (f_equal fst
             (proj2 (proj2 (proj1 (upstream_error_handling noTextWorld
                                     exampleJson "prompt" "template" "deck"
                                     "ctx" "" [] false "")
                              eq_refl)))).
Defined.

(* ===================================================================== *)
(** ** The terminal record of a stream *)
(* ===================================================================== *)

Lemma fragments_chunkRecord (extra : list Rec.Field) (chunks : list string) :
  (forall c, isFragment (chunkRecord extra c)) ->
  Forall isFragment (map (chunkRecord extra) chunks).
Proof.
  intros H. apply Forall_forall. intros r Hr. apply in_map_iff in Hr.
  destruct Hr as [c [<- _]]. apply H.
Qed.

Lemma isFragment_plain (c : string) : isFragment (chunkRecord [] c).
Proof. repeat split. discriminate. Qed.

Lemma isFragment_continuation (b : bool) (c : string) :
  isFragment (chunkRecord [Rec.Continuation b] c).
Proof. repeat split. discriminate. Qed.

Lemma doneCount_disciplined (final : Rec.t -> Prop) (stream : list Rec.t) :
  disciplined final stream -> doneCount stream = 1.
Proof.
  intros [fr [last [-> [Hfr [Hdone _]]]]]. unfold doneCount.
  rewrite filter_app, length_app. cbn. rewrite Hdone. cbn.
  induction Hfr as [|r fr Hr _ IH]; [reflexivity|].
  cbn. destruct Hr as [_ [Hd _]]. rewrite Hd. exact IH.
Qed.

Lemma disciplined_stream (final : Rec.t -> Prop) (extra : list Rec.Field)
    (chunks : list string) (last : Rec.t) :
  (forall c, isFragment (chunkRecord extra c)) ->
  Rec.done last = Some true ->
  final last ->
  disciplined final (map (chunkRecord extra) chunks ++ [last]).
Proof.
  intros Hfr Hd Hf. exists (map (chunkRecord extra) chunks), last.
  repeat split; try assumption. now apply fragments_chunkRecord.
Qed.

Lemma isErrorRecord_stream (m : string) :
  isErrorRecord (Part001.streamErrorRecord m)
  /\ isErrorRecord (Part002.streamErrorRecord m)
  /\ isErrorRecord catalogErrorRecord.
Proof. repeat split; discriminate. Qed.

Lemma gatheringState_done (history : list Turn) (t : string) :
  gatheringState t (gatheringDone (history ++ [mkTurn "model" t]) t [])
  /\ gatheringState t
       (gatheringDone (history ++ [mkTurn "model" t]) t
          [Rec.Continuation true; Rec.FullResponse t]).
Proof.
  split; repeat split; try discriminate;
    unfold outputText; cbn; rewrite rev_app_distr; reflexivity.
Qed.

(** The claim of C8 fails as stated: when the model stream breaks, the
    last record of a gathering stream has [done: true] but is the error
    record, with neither conversation history nor completion flag, and the
    last record of a recommendation stream holds the error message, not
    the text generated so far. *)
Lemma terminal_record_counterexample :
  records (snd (Part001.streamInformationGathering brokenStreamWorld "deck" []
                  false ""))
  = [chunkRecord [] "par";
     Rec.object [Rec.Error true;
                 Rec.Text "Error in streaming response: fetch failed";
                 Rec.Done true]]
  /\ (forall full,
        ~ disciplined (gatheringState full)
            (records (snd (Part001.streamInformationGathering brokenStreamWorld
                             "deck" [] false ""))))
  /\ (forall full,
        ~ disciplined (recommendationState full)
            (records (snd (Part002.streamToolRecommendation brokenStreamWorld
                             "template" "project" None)))).
Proof.
  split; [reflexivity|]. split; intros full.
  - intros [fr [last [Hs [_ [_ [He _]]]]]].
    change (records _) with
      ([chunkRecord [] "par"]
       ++ [Rec.object [Rec.Error true;
                       Rec.Text "Error in streaming response: fetch failed";
                       Rec.Done true]])%list in Hs.
    apply app_inj_tail in Hs. destruct Hs as [_ <-]. discriminate.
  - intros [fr [last [Hs [_ [_ [He _]]]]]].
    change (records _) with
      ([chunkRecord [] "par"]
       ++ [Rec.object [Rec.Error true;
                       Rec.Text "Error in streaming response: fetch failed";
                       Rec.Done true]])%list in Hs.
    apply app_inj_tail in Hs. destruct Hs as [_ <-]. discriminate.
Qed.

(** C8 (terminal-record discipline), amended.  Every stream of the two
    streaming routes consists of records that carry a fragment only
    ([done: false]) followed by exactly one record with [done: true],
    which is last.  That record carries the final state (for a
    recommendation the full text; for a gathering turn the updated
    history ending with the full text, the completion flag and the
    project information) when the request went through; when a catalog
    read or the model call failed it is instead the record
    [{error: true, text: <message>, done: true}], which carries no
    history and no flag. *)
Theorem terminal_record_discipline
    (w : World) (IMPROVED_PROMPT PROMPT_TEMPLATE userInput projectInformation : string)
    (h : list Turn) (continuationMode : bool) (p : string)
    (partial : option Part002.PartialResponse) :
  let sent := Part001.messageSent userInput h continuationMode p in
  let gathering001 :=
    records (snd (Part001.streamInformationGathering w userInput h
                    continuationMode p)) in
  let gathering002 :=
    records (snd (Part002.streamInformationGathering w IMPROVED_PROMPT
                    userInput h)) in
  let recommendation001 :=
    records (snd (Part001.streamToolRecommendation w PROMPT_TEMPLATE
                    projectInformation continuationMode p)) in
  let recommendation002 :=
    records (snd (Part002.streamToolRecommendation w PROMPT_TEMPLATE
                    projectInformation partial)) in
  disciplined
    (stateOrError (endsNormally (sendMessageStream w (fst sent) (snd sent)))
       (gatheringState
          ((if continuationMode && Js.truthy p then p else "")
           ++ Js.concat (fragments (sendMessageStream w (fst sent) (snd sent))))))
    gathering001
  /\ disciplined
       (stateOrError
          (match h with
           | [] => returned (sendMessage w [] IMPROVED_PROMPT)
           | _ => true
           end && endsNormally (generateContentStream w userInput))
          (gatheringState
             (Js.concat (fragments (generateContentStream w userInput)))))
       gathering002
  /\ disciplined
       (stateOrError
          (match readFile w "tool_information.txt",
                 readFile w "product_urls.txt" with
           | Return t, Return u =>
               endsNormally
                 (generateContentStream w
                    (Part001.promptSent w PROMPT_TEMPLATE projectInformation
                       continuationMode p t u))
           | _, _ => false
           end)
          (fun r =>
             exists t u,
               readFile w "tool_information.txt" = Return t
               /\ readFile w "product_urls.txt" = Return u
               /\ recommendationState
                    ((if continuationMode then p else "")
                     ++ Js.concat
                          (fragments
                             (generateContentStream w
                                (Part001.promptSent w PROMPT_TEMPLATE
                                   projectInformation continuationMode p t u))))
                    r))
       recommendation001
  /\ disciplined
       (stateOrError
          (match readFile w "tool_information.txt",
                 readFile w "product_urls.txt" with
           | Return t, Return u =>
               endsNormally
                 (generateContentStream w
                    (Part002.promptSent w PROMPT_TEMPLATE projectInformation
                       partial t u))
           | _, _ => false
           end)
          (fun r =>
             exists t u,
               readFile w "tool_information.txt" = Return t
               /\ readFile w "product_urls.txt" = Return u
               /\ recommendationState
                    (match partial with
                     | Some x => Js.or (Part002.partialText x) ""
                     | None => ""
                     end
                     ++ Js.concat
                          (fragments
                             (generateContentStream w
                                (Part002.promptSent w PROMPT_TEMPLATE
                                   projectInformation partial t u))))
                    r))
       recommendation002
  /\ doneCount gathering001 = 1
  /\ doneCount gathering002 = 1
  /\ doneCount recommendation001 = 1
  /\ doneCount recommendation002 = 1.
Proof.
  intros sent gathering001 gathering002 recommendation001 recommendation002.
  assert (H1 : disciplined
                 (stateOrError
                    (endsNormally (sendMessageStream w (fst sent) (snd sent)))
                    (gatheringState
                       ((if continuationMode && Js.truthy p then p else "")
                        ++ Js.concat
                             (fragments
                                (sendMessageStream w (fst sent) (snd sent))))))
                 gathering001).
  { subst sent gathering001. unfold Part001.messageSent, endsNormally.
    destruct (continuationMode && Js.truthy p) eqn:Hc; cbn [fst snd].
    - rewrite (streamInformationGathering001_continuation w userInput h _ _ Hc).
      cbv zeta. cbn [snd app records]. rewrite records_app. cbn [records].
      rewrite (records_enqueues (chunkRecord [Rec.Continuation true])).
      apply disciplined_stream.
      + apply isFragment_continuation.
      + now destruct (failure _).
      + destruct (failure _); cbn [stateOrError].
        * apply isErrorRecord_stream.
        * apply gatheringState_done.
    - rewrite (streamInformationGathering001_fresh w userInput h _ _ Hc).
      cbv zeta. cbn [snd app records]. rewrite records_app. cbn [records].
      rewrite (records_enqueues (chunkRecord [])).
      apply disciplined_stream.
      + apply isFragment_plain.
      + now destruct (failure _).
      + destruct (failure _); cbn [stateOrError].
        * apply isErrorRecord_stream.
        * change (h ++ [mkTurn "user" userInput; mkTurn "model" ?t])%list
            with (h ++ [mkTurn "user" userInput] ++ [mkTurn "model" t])%list.
          rewrite app_assoc. apply gatheringState_done. }
  assert (H2 : disciplined
                 (stateOrError
                    (match h with
                     | [] => returned (sendMessage w [] IMPROVED_PROMPT)
                     | _ => true
                     end && endsNormally (generateContentStream w userInput))
                    (gatheringState
                       (Js.concat (fragments (generateContentStream w userInput)))))
                 gathering002).
  { subst gathering002. unfold endsNormally.
    rewrite streamInformationGathering002_run. cbv zeta.
    destruct h as [|x h'].
    - destruct (sendMessage w [] IMPROVED_PROMPT) as [a|m]; cbn [returned andb].
      + cbn [snd app records]. rewrite records_app. cbn [records].
        rewrite (records_enqueues (chunkRecord [])).
        apply disciplined_stream.
        * apply isFragment_plain.
        * now destruct (failure _).
        * destruct (failure _); cbn [stateOrError].
          -- apply isErrorRecord_stream.
          -- match goal with
             | |- context [gatheringDone ?l ?t []] =>
                 change l with
                   ([mkTurn "user" IMPROVED_PROMPT;
                     mkTurn "model" "System initialization complete";
                     mkTurn "user" userInput] ++ [mkTurn "model" t])%list
             end.
             apply gatheringState_done.
      + cbn [snd records]. exists [], (Part002.streamErrorRecord m).
        repeat split; try discriminate. constructor.
    - cbn [andb snd app records]. rewrite records_app. cbn [records].
      rewrite (records_enqueues (chunkRecord [])).
      apply disciplined_stream.
      + apply isFragment_plain.
      + now destruct (failure _).
      + destruct (failure _); cbn [stateOrError].
        * apply isErrorRecord_stream.
        * change (x :: h' ++ [mkTurn "user" userInput; mkTurn "model" ?t])%list
            with ((x :: h') ++ [mkTurn "user" userInput] ++ [mkTurn "model" t])%list.
          rewrite app_assoc. apply gatheringState_done. }
  assert (H3 : disciplined
                 (stateOrError
                    (match readFile w "tool_information.txt",
                           readFile w "product_urls.txt" with
                     | Return t, Return u =>
                         endsNormally
                           (generateContentStream w
                              (Part001.promptSent w PROMPT_TEMPLATE
                                 projectInformation continuationMode p t u))
                     | _, _ => false
                     end)
                    (fun r =>
                       exists t u,
                         readFile w "tool_information.txt" = Return t
                         /\ readFile w "product_urls.txt" = Return u
                         /\ recommendationState
                              ((if continuationMode then p else "")
                               ++ Js.concat
                                    (fragments
                                       (generateContentStream w
                                          (Part001.promptSent w PROMPT_TEMPLATE
                                             projectInformation continuationMode
                                             p t u))))
                              r))
                 recommendation001).
  { subst recommendation001. unfold endsNormally.
    destruct (readFile w "tool_information.txt") as [t|e] eqn:Ht.
    - destruct (readFile w "product_urls.txt") as [u|e] eqn:Hu.
      + rewrite (streamToolRecommendation001_catalog w _ _ _ _ t u Ht Hu).
        cbv zeta. cbn [snd app records]. rewrite records_app. cbn [records].
        rewrite (records_enqueues (chunkRecord [Rec.Continuation continuationMode])).
        apply disciplined_stream.
        * apply isFragment_continuation.
        * now destruct (failure _).
        * destruct (failure _); cbn [stateOrError].
          -- apply isErrorRecord_stream.
          -- exists t, u. repeat split; try assumption.
      + rewrite (streamToolRecommendation001_no_urls w _ _ _ _ t e Ht Hu).
        exists [], catalogErrorRecord.
        repeat split; try discriminate. constructor.
    - rewrite (streamToolRecommendation001_no_tool w _ _ _ _ e Ht).
      exists [], catalogErrorRecord.
      repeat split; try discriminate. constructor. }
  assert (H4 : disciplined
                 (stateOrError
                    (match readFile w "tool_information.txt",
                           readFile w "product_urls.txt" with
                     | Return t, Return u =>
                         endsNormally
                           (generateContentStream w
                              (Part002.promptSent w PROMPT_TEMPLATE
                                 projectInformation partial t u))
                     | _, _ => false
                     end)
                    (fun r =>
                       exists t u,
                         readFile w "tool_information.txt" = Return t
                         /\ readFile w "product_urls.txt" = Return u
                         /\ recommendationState
                              (match partial with
                               | Some x => Js.or (Part002.partialText x) ""
                               | None => ""
                               end
                               ++ Js.concat
                                    (fragments
                                       (generateContentStream w
                                          (Part002.promptSent w PROMPT_TEMPLATE
                                             projectInformation partial t u))))
                              r))
                 recommendation002).
  { subst recommendation002. unfold endsNormally.
    destruct (readFile w "tool_information.txt") as [t|e] eqn:Ht.
    - destruct (readFile w "product_urls.txt") as [u|e] eqn:Hu.
      + rewrite (streamToolRecommendation002_catalog w _ _ _ t u Ht Hu).
        cbv zeta. cbn [snd app records]. rewrite records_app. cbn [records].
        rewrite (records_enqueues (chunkRecord [])).
        apply disciplined_stream.
        * apply isFragment_plain.
        * now destruct (failure _).
        * destruct (failure _); cbn [stateOrError].
          -- apply isErrorRecord_stream.
          -- exists t, u. destruct partial; repeat split; try assumption.
      + rewrite (streamToolRecommendation002_no_urls w _ _ _ t e Ht Hu).
        exists [], catalogErrorRecord.
        repeat split; try discriminate. constructor.
    - rewrite (streamToolRecommendation002_no_tool w _ _ _ e Ht).
      exists [], catalogErrorRecord.
      repeat split; try discriminate. constructor. }
  repeat split; try assumption; eapply doneCount_disciplined; eassumption.
Qed.

(* ===================================================================== *)
(** ** The phase of the client *)
(* ===================================================================== *)

Lemma onComplete_phase (seen : Client.Phase) (completeData : Rec.t)
    (st : Client.State) :
  Client.phase (Client.onComplete seen completeData st)
  = if Client.truthy (Rec.isComplete completeData) && Client.isGathering seen
    then Client.recommendation
    else Client.phase st.
Proof.
  unfold Client.onComplete.
  destruct (Client.truthy _ && Client.isGathering seen);
    destruct (Rec.conversationHistory completeData); reflexivity.
Qed.

Lemma step_phase (json : Json) (c : Client.Component) (s : Client.Step) :
  Client.phase (Client.state (Client.step json c s)) = Client.recommendation
  \/ Client.phase (Client.state (Client.step json c s))
     = Client.phase (Client.state c).
Proof.
  destruct s as [|n|n reads|reads]; cbn [Client.step]; try now right.
  - destruct (nth_error (Client.handlers c) n); now right.
  - destruct (nth_error (Client.handlers c) n) as [h|]; [|now right].
    destruct (Client.ended h); [now right|]. cbn [Client.state].
    unfold Client.handleSendMessage.
    destruct (Client.readStream json reads); [|now right].
    rewrite onComplete_phase.
    destruct (Client.truthy _ && _); [now left | now right].
Qed.

Lemma step_recommendation (json : Json) (c : Client.Component)
    (s : Client.Step) :
  Client.phase (Client.state c) = Client.recommendation ->
  Client.phase (Client.state (Client.step json c s)) = Client.recommendation.
Proof. intros H. destruct (step_phase json c s) as [H'|H']; congruence. Qed.

Lemma run_recommendation (json : Json) (steps : list Client.Step)
    (c : Client.Component) :
  Client.phase (Client.state c) = Client.recommendation ->
  Client.phase (Client.state (Client.run json c steps)) = Client.recommendation.
Proof.
  revert c; induction steps as [|s steps IH]; intros c H; [exact H|].
  cbn. apply IH. now apply step_recommendation.
Qed.

Lemma transitions_recommendation (json : Json) (steps : list Client.Step)
    (c : Client.Component) :
  Client.phase (Client.state c) = Client.recommendation ->
  Client.transitions json c steps = 0.
Proof.
  revert c; induction steps as [|s steps IH]; intros c H; [reflexivity|].
  cbn. unfold Client.fires. rewrite H. cbn.
  apply IH. now apply step_recommendation.
Qed.

Lemma fires_recommendation (json : Json) (c : Client.Component)
    (s : Client.Step) :
  Client.fires json c s = true ->
  Client.phase (Client.state (Client.step json c s)) = Client.recommendation.
Proof.
  unfold Client.fires. intros H. apply andb_true_iff in H. destruct H as [_ H].
  now destruct (Client.phase (Client.state (Client.step json c s))).
Qed.

(** The value of the phase switches at most once along any run of the
    component, overlapping handlers included. *)
Lemma transitions_at_most_once (json : Json) (steps : list Client.Step)
    (c : Client.Component) :
  Client.transitions json c steps <= 1.
Proof.
  revert c; induction steps as [|s steps IH]; intros c; cbn; [lia|].
  destruct (Client.fires json c s) eqn:Hf.
  - rewrite transitions_recommendation; [lia|]. now apply fires_recommendation.
  - apply IH.
Qed.

(** The recommendation handlers of the three routes never set
    [isComplete]. *)
Lemma recommendation_sets_no_flag
    (w : World) (PROMPT_TEMPLATE projectInformation : string)
    (continuationMode : bool) (p : string)
    (partial : option Part002.PartialResponse) :
  Forall (fun r => Rec.isComplete r = None)
    (records (snd (Part001.streamToolRecommendation w PROMPT_TEMPLATE
                     projectInformation continuationMode p)))
  /\ Forall (fun r => Rec.isComplete r = None)
       (records (snd (Part002.streamToolRecommendation w PROMPT_TEMPLATE
                        projectInformation partial)))
  /\ returns (Part001.handleToolRecommendation w PROMPT_TEMPLATE
                projectInformation continuationMode p)
       (fun r => Rec.isComplete r = None)
  /\ returns (Part002.handleToolRecommendation w PROMPT_TEMPLATE
                projectInformation partial)
       (fun r => Rec.isComplete r = None)
  /\ returns (Part000.handleToolRecommendation w PROMPT_TEMPLATE
                projectInformation)
       (fun r => Rec.isComplete r = None).
Proof.
  assert (Hchunks : forall extra chunks,
            (forall c, Rec.isComplete (chunkRecord extra c) = None) ->
            Forall (fun r => Rec.isComplete r = None)
                   (map (chunkRecord extra) chunks)).
  { intros extra chunks H. apply Forall_forall. intros r Hr.
    apply in_map_iff in Hr. destruct Hr as [c [<- _]]. apply H. }
  unfold returns. repeat apply conj.
  - destruct (readFile w "tool_information.txt") as [t|e] eqn:Ht;
      [destruct (readFile w "product_urls.txt") as [u|e] eqn:Hu|].
    + rewrite (streamToolRecommendation001_catalog w _ _ _ _ t u Ht Hu).
      cbv zeta. cbn [snd app records]. rewrite records_app. cbn [records].
      rewrite (records_enqueues (chunkRecord [Rec.Continuation continuationMode])).
      apply Forall_app. split; [now apply Hchunks|].
      constructor; [now destruct (failure _) | constructor].
    + rewrite (streamToolRecommendation001_no_urls w _ _ _ _ t e Ht Hu).
      now repeat constructor.
    + rewrite (streamToolRecommendation001_no_tool w _ _ _ _ e Ht).
      now repeat constructor.
  - destruct (readFile w "tool_information.txt") as [t|e] eqn:Ht;
      [destruct (readFile w "product_urls.txt") as [u|e] eqn:Hu|].
    + rewrite (streamToolRecommendation002_catalog w _ _ _ t u Ht Hu).
      cbv zeta. cbn [snd app records]. rewrite records_app. cbn [records].
      rewrite (records_enqueues (chunkRecord [])).
      apply Forall_app. split; [now apply Hchunks|].
      constructor; [now destruct (failure _) | constructor].
    + rewrite (streamToolRecommendation002_no_urls w _ _ _ t e Ht Hu).
      now repeat constructor.
    + rewrite (streamToolRecommendation002_no_tool w _ _ _ e Ht).
      now repeat constructor.
  - destruct (readFile w "tool_information.txt") as [t|e] eqn:Ht;
      [destruct (readFile w "product_urls.txt") as [u|e] eqn:Hu|].
    + rewrite (handleToolRecommendation001_catalog w _ _ _ _ t u Ht Hu).
      cbv zeta. cbn [fst]. now destruct (generateContent w _).
    + now rewrite (handleToolRecommendation001_no_urls w _ _ _ _ t e Ht Hu).
    + now rewrite (handleToolRecommendation001_no_tool w _ _ _ _ e Ht).
  - destruct (readFile w "tool_information.txt") as [t|e] eqn:Ht;
      [destruct (readFile w "product_urls.txt") as [u|e] eqn:Hu|].
    + rewrite (handleToolRecommendation002_catalog w _ _ _ t u Ht Hu).
      cbv zeta. cbn [fst]. now destruct (generateContent w _).
    + now rewrite (handleToolRecommendation002_no_urls w _ _ _ t e Ht Hu).
    + now rewrite (handleToolRecommendation002_no_tool w _ _ _ e Ht).
  - unfold Part000.handleToolRecommendation, Part000.readFromFile.
    destruct (readFile w "tool_information.txt") as [t|e]; eff; [|reflexivity].
    rewrite fetchGeminiResponse_run. cbn [fst].
    now destruct (fetch w _ _) as [m|st e|m|[[|[x| |e] cs]|]].
Qed.

Lemma nth_error_last {A : Type} (l : list A) (x : A) :
  nth_error (l ++ [x]) (length l) = Some x.
Proof. rewrite nth_error_app2 by lia. now rewrite Nat.sub_diag. Qed.

Lemma nth_error_before_last {A : Type} (l : list A) (x y : A) :
  nth_error ((l ++ [x]) ++ [y]) (length l) = Some x.
Proof.
  rewrite nth_error_app1 by (rewrite length_app; cbn; lia).
  apply nth_error_last.
Qed.

Lemma nth_error_last_of_two {A : Type} (l : list A) (x y : A) :
  nth_error ((l ++ [x]) ++ [y]) (S (length l)) = Some y.
Proof.
  replace (S (length l)) with (length (l ++ [x]))
    by (rewrite length_app; cbn; lia).
  apply nth_error_last.
Qed.

Lemma finish_before (hs : list Client.Handler) (h h' : Client.Handler) :
  Client.finish (length hs) ((hs ++ [h]) ++ [h'])
  = ((hs ++ [Client.mkHandler (Client.seen h) true]) ++ [h'])%list.
Proof. induction hs as [|x hs IH]; cbn; [reflexivity | now rewrite IH]. Qed.

(** C9 (idempotent phase transition): the guard of the transition tests
    a stale phase.  The completion block of a gathering handler tests
    the [phase] its handler closed over, not the phase of the component
    when the stream ends.  Take a component in the gathering phase.  The
    user sends a message; the stream stalls and the watchdog starts a
    continuation of the request; then both streams end, each with a
    terminal record whose [isComplete] is true.  The first completion
    switches the phase and schedules the recommendation.  The second one
    runs while the phase is recommendation, and its block fires again:
    it overwrites the project information and schedules a second
    recommendation.  The value of the phase has switched once. *)
Theorem stale_phase_fires_twice
    (json : Json) (c : Client.Component) (reads1 reads2 : list string)
    (d1 d2 : Rec.t) :
  Client.phase (Client.state c) = Client.gathering ->
  Client.readStream json reads1 = Some d1 ->
  Rec.isComplete d1 = Some true ->
  Client.readStream json reads2 = Some d2 ->
  Rec.isComplete d2 = Some true ->
  let n := length (Client.handlers c) in
  let steps :=
    [Client.Send; Client.Timeout n; Client.Complete n reads1] in
  let c1 := Client.run json c steps in
  let c2 := Client.step json c1 (Client.Complete (S n) reads2) in
  Client.phase (Client.state c1) = Client.recommendation
  /\ Client.scheduled (Client.state c1)
     = (Client.scheduled (Client.state c) ++ [Rec.projectInformation d1])%list
  /\ Client.phase (Client.state c2) = Client.recommendation
  /\ Client.projectInformation (Client.state c2) = Rec.projectInformation d2
  /\ Client.scheduled (Client.state c2)
     = (Client.scheduled (Client.state c)
        ++ [Rec.projectInformation d1; Rec.projectInformation d2])%list
  /\ Client.transitions json c
       (steps ++ [Client.Complete (S n) reads2]) = 1.
Proof.
  destruct c as [st hs]. intros Hp H1 Hc1 H2 Hc2.
  cbn [Client.state Client.handlers] in Hp |- *.
  set (n := length hs).
  set (steps := [Client.Send; Client.Timeout n; Client.Complete n reads1]).
  set (c1 := Client.run json (Client.mkComponent st hs) steps).
  set (c2 := Client.step json c1 (Client.Complete (S n) reads2)).
  assert (E1 : c1
               = Client.mkComponent
                   (Client.onComplete Client.gathering d1 st)
                   ((hs ++ [Client.mkHandler Client.gathering true])
                    ++ [Client.mkHandler Client.gathering false])).
  { subst c1 steps n.
    cbn [Client.run fold_left Client.step Client.start Client.state
         Client.handlers].
    rewrite Hp, nth_error_last.
    cbn [Client.seen Client.start Client.state Client.handlers].
    rewrite nth_error_before_last. cbn [Client.ended Client.seen].
    unfold Client.handleSendMessage. rewrite H1.
    now rewrite finish_before. }
  assert (E2 : Client.state c2
               = Client.onComplete Client.gathering d2 (Client.state c1)).
  { subst c2. rewrite E1. cbn [Client.step Client.handlers Client.state].
    subst n. rewrite nth_error_last_of_two. cbn [Client.ended Client.seen].
    unfold Client.handleSendMessage. now rewrite H2. }
  assert (S1 : Client.state c1
               = Client.mkState Client.recommendation
                   (match Rec.conversationHistory d1 with
                    | Some history => history
                    | None => Client.conversationHistory st
                    end)
                   (Rec.projectInformation d1)
                   (Client.scheduled st ++ [Rec.projectInformation d1])).
  { rewrite E1. cbn [Client.state]. unfold Client.onComplete.
    rewrite Hc1. cbn [Client.truthy Client.isGathering andb].
    now destruct (Rec.conversationHistory d1). }
  assert (S2 : Client.state c2
               = Client.mkState Client.recommendation
                   (match Rec.conversationHistory d2 with
                    | Some history => history
                    | None => Client.conversationHistory (Client.state c1)
                    end)
                   (Rec.projectInformation d2)
                   ((Client.scheduled st ++ [Rec.projectInformation d1])
                    ++ [Rec.projectInformation d2])).
  { rewrite E2. unfold Client.onComplete.
    rewrite Hc2. cbn [Client.truthy Client.isGathering andb].
    rewrite S1. now destruct (Rec.conversationHistory d2). }
  split; [now rewrite S1|]. split; [now rewrite S1|].
  split; [now rewrite S2|]. split; [now rewrite S2|].
  split; [rewrite S2; cbn [Client.scheduled]; now rewrite <- app_assoc|].
  assert (Hle := transitions_at_most_once json
                   (steps ++ [Client.Complete (S n) reads2])
                   (Client.mkComponent st hs)).
  assert (Hge : 1 <= Client.transitions json (Client.mkComponent st hs)
                       (steps ++ [Client.Complete (S n) reads2])).
  { subst steps. cbn [app Client.transitions].
    assert (F3 : Client.fires json
                   (Client.step json
                      (Client.step json (Client.mkComponent st hs) Client.Send)
                      (Client.Timeout n))
                   (Client.Complete n reads1) = true).
    { unfold Client.fires.
      change (Client.step json
                (Client.step json
                   (Client.step json (Client.mkComponent st hs) Client.Send)
                   (Client.Timeout n))
                (Client.Complete n reads1)) with c1.
      rewrite S1. cbn [Client.phase Client.isGathering negb].
      rewrite andb_true_r. subst n.
      cbn [Client.step Client.start Client.state Client.handlers].
      rewrite Hp, nth_error_last.
      cbn [Client.seen Client.start Client.state]. now rewrite Hp. }
    rewrite F3. lia. }
  lia.
Qed.

(** C9, on a run of the component: both streams end with the record of
    a completed gathering turn, and two recommendations are scheduled. *)
Lemma stale_phase_fires_twice_witness :
  let reads := [Wire.encode exampleJson [completeRecord]] in
  let c :=
    Client.run exampleJson Client.mounted
      [Client.Send; Client.Timeout 0; Client.Complete 0 reads;
       Client.Complete 1 reads] in
  Client.phase (Client.state c) = Client.recommendation
  /\ Client.scheduled (Client.state c)
     = [Some "## FINAL SUMMARY ## deck"; Some "## FINAL SUMMARY ## deck"].
Proof.
  intros reads c.
  destruct (stale_phase_fires_twice exampleJson Client.mounted reads reads
              completeRecord completeRecord eq_refl eq_refl eq_refl eq_refl
              eq_refl)
    as (_ & _ & Hp & _ & Hs & _).
  split; [exact Hp | exact Hs].
Defined.

(* ===================================================================== *)
(** ** The catalog in continuation mode *)
(* ===================================================================== *)

(** C10.  A recommendation request in continuation mode (on part_001,
    [continuationMode] set; on part_002, a [partialResponse] object) starts
    by reading the catalog.  If a read fails, the request ends with the
    catalog error and the model is not called.  If both reads succeed,
    both took place before the one call to the model, and in continuation
    mode (on part_001 the handler's own test, [continuationMode] with a
    non-empty partial text) the prompt of that call is the continuation
    instruction around the partial text: it holds neither the template
    nor what was read. *)
Theorem continuation_reads_catalog
    (w : World) (PROMPT_TEMPLATE projectInformation p : string)
    (x : Part002.PartialResponse) :
  let stream001 :=
    Part001.streamToolRecommendation w PROMPT_TEMPLATE projectInformation true p in
  let plain001 :=
    Part001.handleToolRecommendation w PROMPT_TEMPLATE projectInformation true p in
  let stream002 :=
    Part002.streamToolRecommendation w PROMPT_TEMPLATE projectInformation (Some x) in
  let plain002 :=
    Part002.handleToolRecommendation w PROMPT_TEMPLATE projectInformation (Some x) in
  let prompt001 := Part001.recommendationContinuationPrompt p in
  let prompt002 := Part002.continuationPrompt (Js.or (Part002.partialText x) "") in
  ((exists rest, snd stream001 = ReadFile "tool_information.txt" :: rest)
   /\ (exists rest, snd plain001 = ReadFile "tool_information.txt" :: rest)
   /\ (exists rest, snd stream002 = ReadFile "tool_information.txt" :: rest)
   /\ (exists rest, snd plain002 = ReadFile "tool_information.txt" :: rest))
  /\ (catalogFails w ->
      (records (snd stream001) = [catalogErrorRecord]
       /\ generations (snd stream001) = [])
      /\ (fst plain001 = Return catalogErrorResult
          /\ generations (snd plain001) = [])
      /\ (records (snd stream002) = [catalogErrorRecord]
          /\ generations (snd stream002) = [])
      /\ (fst plain002 = Return catalogErrorResult
          /\ generations (snd plain002) = []))
  /\ (forall t u,
        readFile w "tool_information.txt" = Return t ->
        readFile w "product_urls.txt" = Return u ->
        (Js.truthy p = true ->
         (exists rest,
            snd stream001
            = ReadFile "tool_information.txt" :: ReadFile "product_urls.txt"
              :: GenerateContentStream prompt001 :: rest
            /\ generations rest = [])
         /\ snd plain001
            = [ReadFile "tool_information.txt"; ReadFile "product_urls.txt";
               GenerateContent prompt001])
        /\ (exists rest,
              snd stream002
              = ReadFile "tool_information.txt" :: ReadFile "product_urls.txt"
                :: GenerateContentStream prompt002 :: rest
              /\ generations rest = [])
        /\ snd plain002
           = [ReadFile "tool_information.txt"; ReadFile "product_urls.txt";
              GenerateContent prompt002]).
Proof.
  intros stream001 plain001 stream002 plain002 prompt001 prompt002.
  subst stream001 plain001 stream002 plain002 prompt001 prompt002.
  split; [|split].
  - destruct (readFile w "tool_information.txt") as [t|e] eqn:Ht;
      [destruct (readFile w "product_urls.txt") as [u|e] eqn:Hu|].
    + rewrite (streamToolRecommendation001_catalog w _ _ _ _ t u Ht Hu),
        (handleToolRecommendation001_catalog w _ _ _ _ t u Ht Hu),
        (streamToolRecommendation002_catalog w _ _ _ t u Ht Hu),
        (handleToolRecommendation002_catalog w _ _ _ t u Ht Hu).
      cbv zeta. cbn [snd app]. repeat split; eexists; reflexivity.
    + rewrite (streamToolRecommendation001_no_urls w _ _ _ _ t e Ht Hu),
        (handleToolRecommendation001_no_urls w _ _ _ _ t e Ht Hu),
        (streamToolRecommendation002_no_urls w _ _ _ t e Ht Hu),
        (handleToolRecommendation002_no_urls w _ _ _ t e Ht Hu).
      cbn [snd]. repeat split; eexists; reflexivity.
    + rewrite (streamToolRecommendation001_no_tool w _ _ _ _ e Ht),
        (handleToolRecommendation001_no_tool w _ _ _ _ e Ht),
        (streamToolRecommendation002_no_tool w _ _ _ e Ht),
        (handleToolRecommendation002_no_tool w _ _ _ e Ht).
      cbn [snd]. repeat split; eexists; reflexivity.
  - intros Hf.
    exact (recommendation_without_catalog w PROMPT_TEMPLATE projectInformation
             true p (Some x) Hf).
  - intros t u Ht Hu.
    rewrite (streamToolRecommendation001_catalog w _ _ _ _ t u Ht Hu),
      (handleToolRecommendation001_catalog w _ _ _ _ t u Ht Hu),
      (streamToolRecommendation002_catalog w _ _ _ t u Ht Hu),
      (handleToolRecommendation002_catalog w _ _ _ t u Ht Hu).
    cbv zeta. unfold Part001.promptSent, Part002.promptSent.
    split; [intros Hp; rewrite Hp; cbn [andb snd app]; split | split].
    + eexists. split; [reflexivity|].
      rewrite generations_app.
      rewrite (generations_enqueues (chunkRecord [Rec.Continuation true])).
      reflexivity.
    + reflexivity.
    + cbn [snd app]. eexists. split; [reflexivity|].
      rewrite generations_app.
      rewrite (generations_enqueues (chunkRecord [])).
      reflexivity.
    + reflexivity.
Qed.

(** With [continuationMode] set but no partial text, part_001 takes its
    normal branch: the prompt is the template with the catalog in it. *)
Lemma continuation_without_partial_text
    (w : World) (PROMPT_TEMPLATE projectInformation t u : string) :
  Part001.promptSent w PROMPT_TEMPLATE projectInformation true "" t u
  = Part001.recommendationPrompt w PROMPT_TEMPLATE projectInformation t u.
Proof. reflexivity. Qed.

(** C10 on two worlds.  Without the product URL file, the continuation
    of a recommendation reads the first file, fails on the second and
    never calls the model; with both files, it reads them and then sends
    the continuation prompt. *)
Lemma continuation_reads_catalog_witness :
  generations
    (snd (Part001.streamToolRecommendation noUrlsWorld "template" "project"
            true "Use a plate")) = []
  /\ snd (Part001.handleToolRecommendation exampleWorld "template" "project"
            true "Use a plate")
     = [ReadFile "tool_information.txt"; ReadFile "product_urls.txt";
        GenerateContent (Part001.recommendationContinuationPrompt "Use a plate")].
Proof.
  assert (Hf : catalogFails noUrlsWorld).
  { right. exists "ENOENT: no such file or directory". reflexivity. }
  split.
  - exact (proj2 (proj1 (proj1 (proj2 (continuation_reads_catalog noUrlsWorld
                                         "template" "project" "Use a plate"
                                         (Part002.mkPartial "Use a plate"
                                            "recommendation")))
                           Hf))).
  - exact (proj2 (proj1 (proj2 (proj2 (continuation_reads_catalog exampleWorld
                                         "template" "project" "Use a plate"
                                         (Part002.mkPartial "Use a plate"
                                            "recommendation")))
                           "catalog" "catalog" eq_refl eq_refl)
                    eq_refl)).
Defined.

(* ===================================================================== *)
(** ** Further properties: the entry point *)
(* ===================================================================== *)

Lemma tryCatch_answer {A B : Type} (m : Eff A) (f : A -> B) (g : string -> B) :
  tryCatch (r <- m ;; ret (f r)) (fun message => ret (g message))
  = (match fst m with
     | Return r => Return (f r)
     | Throw message => Return (g message)
     end, snd m).
Proof. destruct m as [[r|message] l]; eff; now rewrite ?app_nil_r. Qed.

Lemma doneCount_stream (extra : list Rec.Field) (chunks : list string)
    (last : Rec.t) :
  (forall c, Rec.done (chunkRecord extra c) = Some false) ->
  Rec.done last = Some true ->
  doneCount (map (chunkRecord extra) chunks ++ [last]) = 1.
Proof.
  intros Hc Hl. unfold doneCount. rewrite filter_app, length_app.
  cbn [filter]. rewrite Hl. cbn [length].
  induction chunks as [|c chunks IH]; [reflexivity|].
  cbn [map filter]. rewrite Hc. exact IH.
Qed.

Lemma streams_end_once
    (w : World) (IMPROVED_PROMPT PROMPT_TEMPLATE userInput projectInformation : string)
    (h : list Turn) (continuationMode : bool) (p : string)
    (partial : option Part002.PartialResponse) :
  doneCount (records (snd (Part001.streamInformationGathering w userInput h
                             continuationMode p))) = 1
  /\ doneCount (records (snd (Part001.streamToolRecommendation w PROMPT_TEMPLATE
                                projectInformation continuationMode p))) = 1
  /\ doneCount (records (snd (Part002.streamInformationGathering w
                                IMPROVED_PROMPT userInput h))) = 1
  /\ doneCount (records (snd (Part002.streamToolRecommendation w PROMPT_TEMPLATE
                                projectInformation partial))) = 1.
Proof.
  repeat apply conj.
  - destruct (continuationMode && Js.truthy p) eqn:Hc.
    + rewrite (streamInformationGathering001_continuation w userInput h _ _ Hc).
      cbv zeta. cbn [snd app records]. rewrite records_app. cbn [records].
      rewrite (records_enqueues (chunkRecord [Rec.Continuation true])).
      apply doneCount_stream; [reflexivity | now destruct (failure _)].
    + rewrite (streamInformationGathering001_fresh w userInput h _ _ Hc).
      cbv zeta. cbn [snd app records]. rewrite records_app. cbn [records].
      rewrite (records_enqueues (chunkRecord [])).
      apply doneCount_stream; [reflexivity | now destruct (failure _)].
  - destruct (readFile w "tool_information.txt") as [t|e] eqn:Ht;
      [destruct (readFile w "product_urls.txt") as [u|e] eqn:Hu|].
    + rewrite (streamToolRecommendation001_catalog w _ _ _ _ t u Ht Hu).
      cbv zeta. cbn [snd app records]. rewrite records_app. cbn [records].
      rewrite (records_enqueues (chunkRecord [Rec.Continuation continuationMode])).
      apply doneCount_stream; [reflexivity | now destruct (failure _)].
    + now rewrite (streamToolRecommendation001_no_urls w _ _ _ _ t e Ht Hu).
    + now rewrite (streamToolRecommendation001_no_tool w _ _ _ _ e Ht).
  - rewrite streamInformationGathering002_run. cbv zeta.
    destruct h as [|x h]; [destruct (sendMessage w [] IMPROVED_PROMPT)|];
      try reflexivity;
      cbn [snd app records]; rewrite records_app; cbn [records];
      rewrite (records_enqueues (chunkRecord []));
      (apply doneCount_stream; [reflexivity | now destruct (failure _)]).
  - destruct (readFile w "tool_information.txt") as [t|e] eqn:Ht;
      [destruct (readFile w "product_urls.txt") as [u|e] eqn:Hu|].
    + rewrite (streamToolRecommendation002_catalog w _ _ _ t u Ht Hu).
      cbv zeta. cbn [snd app records]. rewrite records_app. cbn [records].
      rewrite (records_enqueues (chunkRecord [])).
      apply doneCount_stream; [reflexivity | now destruct (failure _)].
    + now rewrite (streamToolRecommendation002_no_urls w _ _ _ t e Ht Hu).
    + now rewrite (streamToolRecommendation002_no_tool w _ _ _ e Ht).
Qed.

(** X1.  [POST] never lets an exception out: on the three routes, for
    every request and whatever the files and the model do, it returns a
    response.  A JSON response has status 200, 400 or 500, and a body with
    another status than 200 has [error: true] and a text; a streaming
    response holds exactly one record with [done: true]. *)
Theorem post_always_answers
    (w : World) (IMPROVED_PROMPT PROMPT_TEMPLATE : string)
    (body0 : Part000.Request) (body1 : Part001.Request)
    (body2 : Part002.Request) :
  (exists r, fst (Part000.POST w IMPROVED_PROMPT PROMPT_TEMPLATE body0) = Return r
             /\ answered r)
  /\ (exists r, fst (Part001.POST w PROMPT_TEMPLATE body1) = Return r
                /\ answered r)
  /\ (exists r, fst (Part002.POST w IMPROVED_PROMPT PROMPT_TEMPLATE body2) = Return r
                /\ answered r).
Proof.
  assert (Hjson : forall status body,
            (status = 200 \/ status = 400 \/ status = 500) ->
            (status <> 200 -> Rec.error body = Some true /\ Rec.text body <> None) ->
            answered (JsonResponse status body)) by (intros; now split).
  repeat apply conj.
  - unfold Part000.POST.
    destruct (String.eqb (Part000.phase body0) "gathering");
      [|destruct (String.eqb (Part000.phase body0) "recommendation")].
    + rewrite tryCatch_answer. cbn [fst].
      destruct (fst (Part000.handleInformationGathering _ _ _ _));
        eexists; (split; [reflexivity|]); apply Hjson; auto;
        try (intros H; now contradiction H);
        intros _; split; [reflexivity | discriminate].
    + rewrite tryCatch_answer. cbn [fst].
      destruct (fst (Part000.handleToolRecommendation _ _ _));
        eexists; (split; [reflexivity|]); apply Hjson; auto;
        try (intros H; now contradiction H);
        intros _; split; [reflexivity | discriminate].
    + eexists; split; [reflexivity|]. apply Hjson; auto.
      intros _; split; [reflexivity | discriminate].
  - unfold Part001.POST.
    destruct (Part001.streaming body1);
      (destruct (String.eqb (Part001.phase body1) "gathering");
       [|destruct (String.eqb (Part001.phase body1) "recommendation")]).
    + eexists; split; [reflexivity|]. cbn [answered].
      apply (streams_end_once w "" PROMPT_TEMPLATE _ "" _ _ _ None).
    + eexists; split; [reflexivity|]. cbn [answered].
      apply (streams_end_once w "" PROMPT_TEMPLATE "" _ [] _ _ None).
    + eexists; split; [reflexivity|]. apply Hjson; auto.
      intros _; split; [reflexivity | discriminate].
    + rewrite tryCatch_answer. cbn [fst].
      destruct (fst (Part001.handleInformationGathering _ _ _ _ _));
        eexists; (split; [reflexivity|]); apply Hjson; auto;
        try (intros H; now contradiction H);
        intros _; split; [reflexivity | discriminate].
    + rewrite tryCatch_answer. cbn [fst].
      destruct (fst (Part001.handleToolRecommendation _ _ _ _ _));
        eexists; (split; [reflexivity|]); apply Hjson; auto;
        try (intros H; now contradiction H);
        intros _; split; [reflexivity | discriminate].
    + eexists; split; [reflexivity|]. apply Hjson; auto.
      intros _; split; [reflexivity | discriminate].
  - unfold Part002.POST.
    destruct (Part002.streaming body2);
      (destruct (String.eqb (Part002.phase body2) "gathering");
       [|destruct (String.eqb (Part002.phase body2) "recommendation")]).
    + eexists; split; [reflexivity|]. cbn [answered].
      apply (streams_end_once w IMPROVED_PROMPT PROMPT_TEMPLATE _ "" _ false ""
               None).
    + eexists; split; [reflexivity|]. cbn [answered].
      apply (streams_end_once w IMPROVED_PROMPT PROMPT_TEMPLATE "" _ [] false ""
               _).
    + eexists; split; [reflexivity|]. apply Hjson; auto.
      intros _; split; [reflexivity | discriminate].
    + rewrite tryCatch_answer. cbn [fst].
      destruct (fst (Part002.handleInformationGathering _ _ _ _));
        eexists; (split; [reflexivity|]); apply Hjson; auto;
        try (intros H; now contradiction H);
        intros _; split; [reflexivity | discriminate].
    + rewrite tryCatch_answer. cbn [fst].
      destruct (fst (Part002.handleToolRecommendation _ _ _ _));
        eexists; (split; [reflexivity|]); apply Hjson; auto;
        try (intros H; now contradiction H);
        intros _; split; [reflexivity | discriminate].
    + eexists; split; [reflexivity|]. apply Hjson; auto.
      intros _; split; [reflexivity | discriminate].
Qed.

Lemma eqb_other (a b : string) : a <> b -> String.eqb a b = false.
Proof. intros H. now apply String.eqb_neq. Qed.

(** X2.  A request whose phase is neither ["gathering"] nor
    ["recommendation"] is answered with status 400 and an error body, on
    the three routes and in both modes, without any file read, model call
    or stream record. *)
Theorem post_invalid_phase
    (w : World) (IMPROVED_PROMPT PROMPT_TEMPLATE phase userInput context
       projectInformation partialText : string)
    (h : list Turn) (streaming continuationMode : bool)
    (partial : option Part002.PartialResponse) :
  phase <> "gathering" ->
  phase <> "recommendation" ->
  let invalid :=
    if streaming
    then "Invalid phase specified for streaming. Must be 'gathering' or 'recommendation'."
    else "Invalid phase specified. Must be 'gathering' or 'recommendation'." in
  Part000.POST w IMPROVED_PROMPT PROMPT_TEMPLATE
    (Part000.mkRequest phase userInput context projectInformation)
  = (Return
       (JsonResponse 400
          (Rec.object
             [Rec.Error true;
              Rec.Text "Invalid phase specified. Must be 'gathering' or 'recommendation'."])),
     [])
  /\ Part001.POST w PROMPT_TEMPLATE
       (Part001.mkRequest phase userInput h projectInformation streaming
          continuationMode partialText)
     = (Return (JsonResponse 400 (Rec.object [Rec.Error true; Rec.Text invalid])),
        [])
  /\ Part002.POST w IMPROVED_PROMPT PROMPT_TEMPLATE
       (Part002.mkRequest phase userInput h projectInformation streaming partial)
     = (Return (JsonResponse 400 (Rec.object [Rec.Error true; Rec.Text invalid])),
        []).
Proof.
  intros Hg Hr invalid. subst invalid.
  unfold Part000.POST, Part001.POST, Part002.POST.
  cbn [Part000.phase Part001.phase Part002.phase Part001.streaming
       Part002.streaming].
  rewrite (eqb_other _ _ Hg), (eqb_other _ _ Hr).
  destruct streaming; repeat split.
Qed.

(** X2 on a request with the phase ["summary"]. *)
Lemma post_invalid_phase_witness :
  fst (Part001.POST exampleWorld "template"
         (Part001.mkRequest "summary" "deck" [] "" true false ""))
  = Return
      (JsonResponse 400
         (Rec.object
            [Rec.Error true;
             Rec.Text "Invalid phase specified for streaming. Must be 'gathering' or 'recommendation'."])).
Proof.
  assert (G : "summary" <> "gathering") by discriminate.
  assert (R : "summary" <> "recommendation") by discriminate.
  pose proof (post_invalid_phase exampleWorld "prompt" "template" "summary"
                "deck" "" "" "" [] true false None G R) as H.
  cbv zeta in H. destruct H as [_ [H _]]. now rewrite H.
Defined.

(** X3.  How failures reach the HTTP level on the route with
    [continuationMode].  A catalog that cannot be read is not an HTTP
    error: the plain recommendation request is answered with status 200
    and the body [{text, error: true}], the streaming one with a stream
    of the single error record.  A model call that throws with message
    [m] turns the plain request into status 500 with the message in the
    body. *)
Theorem post_failure_statuses
    (w : World) (PROMPT_TEMPLATE userInput projectInformation p : string)
    (h : list Turn) (continuationMode : bool) :
  (catalogFails w ->
   fst (Part001.POST w PROMPT_TEMPLATE
          (Part001.mkRequest "recommendation" userInput h projectInformation
             false continuationMode p))
   = Return (JsonResponse 200 catalogErrorResult)
   /\ fst (Part001.POST w PROMPT_TEMPLATE
             (Part001.mkRequest "recommendation" userInput h projectInformation
                true continuationMode p))
      = Return (StreamResponse [catalogErrorRecord]))
  /\ (forall t u m,
        readFile w "tool_information.txt" = Return t ->
        readFile w "product_urls.txt" = Return u ->
        generateContent w
          (Part001.promptSent w PROMPT_TEMPLATE projectInformation
             continuationMode p t u) = Throw m ->
        fst (Part001.POST w PROMPT_TEMPLATE
               (Part001.mkRequest "recommendation" userInput h projectInformation
                  false continuationMode p))
        = Return
            (JsonResponse 500
               (Rec.object
                  [Rec.Error true;
                   Rec.Text ("An error occurred while processing your request: "
                             ++ m)]))).
Proof.
  split.
  - intros Hf.
    destruct (recommendation_without_catalog w PROMPT_TEMPLATE projectInformation
                continuationMode p None Hf) as [[Hs _] [[Hp _] _]].
    unfold Part001.POST.
    cbn [Part001.streaming Part001.phase Part001.projectInformation
         Part001.continuationMode Part001.partialResponse].
    change (String.eqb "recommendation" "gathering") with false.
    change (String.eqb "recommendation" "recommendation") with true.
    cbv iota. split.
    + rewrite tryCatch_answer. cbn [fst]. now rewrite Hp.
    + unfold streamingResponse, tryCatch. cbn [fst snd]. now rewrite Hs.
  - intros t u m Ht Hu Hm. unfold Part001.POST.
    cbn [Part001.streaming Part001.phase Part001.projectInformation
         Part001.continuationMode Part001.partialResponse].
    change (String.eqb "recommendation" "gathering") with false.
    change (String.eqb "recommendation" "recommendation") with true.
    cbv iota. rewrite tryCatch_answer. cbn [fst].
    rewrite (handleToolRecommendation001_catalog w _ _ _ _ t u Ht Hu).
    cbv zeta. cbn [fst]. now rewrite Hm.
Qed.

(** X3 on the world without the product URL file. *)
Lemma post_failure_statuses_witness :
  fst (Part001.POST noUrlsWorld "template"
         (Part001.mkRequest "recommendation" "" [] "project" false false ""))
  = Return (JsonResponse 200 catalogErrorResult).
Proof.
  assert (Hf : catalogFails noUrlsWorld).
  { right. exists "ENOENT: no such file or directory". reflexivity. }
  exact (proj1 (proj1 (post_failure_statuses noUrlsWorld "template" "" "project"
                         "" [] false) Hf)).
Defined.

(** X4.  The plain recommendation handlers stitch like the streaming
    ones.  With the catalog read and a continuation of the partial text
    [p] to which the model answers [c], the result's [text] is [p ++ c];
    on part_002 the result also carries the new part alone as
    [partialText], so that [text] is the previous output followed by
    [partialText]. *)
Theorem plain_recommendation_stitch
    (w : World) (PROMPT_TEMPLATE projectInformation p phase t u c : string) :
  readFile w "tool_information.txt" = Return t ->
  readFile w "product_urls.txt" = Return u ->
  (generateContent w
     (Part001.promptSent w PROMPT_TEMPLATE projectInformation true p t u)
   = Return c ->
   fst (Part001.handleToolRecommendation w PROMPT_TEMPLATE projectInformation
          true p)
   = Return (Rec.object [Rec.Text (p ++ c); Rec.Error false;
                         Rec.Continuation true]))
  /\ (generateContent w
        (Part002.promptSent w PROMPT_TEMPLATE projectInformation
           (Some (Part002.mkPartial p phase)) t u)
      = Return c ->
      fst (Part002.handleToolRecommendation w PROMPT_TEMPLATE projectInformation
             (Some (Part002.mkPartial p phase)))
      = Return (Rec.object [Rec.Text (p ++ c); Rec.PartialText c;
                            Rec.Error false])).
Proof.
  intros Ht Hu. split; intros Hc.
  - rewrite (handleToolRecommendation001_catalog w _ _ _ _ t u Ht Hu).
    cbv zeta. cbn [fst]. rewrite Hc. cbn [andb]. now destruct p.
  - rewrite (handleToolRecommendation002_catalog w _ _ _ t u Ht Hu).
    cbv zeta. cbn [fst]. rewrite Hc. cbn [Part002.partialText].
    now rewrite or_empty.
Qed.

(** X4 on the example world, whose model answers ["tial"]. *)
Lemma plain_recommendation_stitch_witness :
  fst (Part001.handleToolRecommendation exampleWorld "template" "project" true
         "par")
  = Return (Rec.object [Rec.Text "partial"; Rec.Error false;
                        Rec.Continuation true]).
Proof.
  exact (proj1 (plain_recommendation_stitch exampleWorld "template" "project"
                  "par" "recommendation" "catalog" "catalog" "tial"
                  eq_refl eq_refl) eq_refl).
Defined.

(* ===================================================================== *)
(** ** Further properties: what the model is sent *)
(* ===================================================================== *)

(** X5.  The gathering stream of part_002 does not replay the
    conversation: for a non-empty history the only call to the model is
    [generateContentStream(userInput)], on the model and not on the chat
    built from the history.  So two requests with the same input and
    different non-empty histories stream the same records apart from the
    history they return, whereas the plain handler of the same route
    sends the history with the message. *)
Theorem gathering_stream_without_history
    (w : World) (IMPROVED_PROMPT userInput : string) (h1 h2 : list Turn) :
  h1 <> [] ->
  h2 <> [] ->
  generations (snd (Part002.streamInformationGathering w IMPROVED_PROMPT
                      userInput h1))
  = [GenerateContentStream userInput]
  /\ map withoutHistory
       (records (snd (Part002.streamInformationGathering w IMPROVED_PROMPT
                        userInput h1)))
     = map withoutHistory
         (records (snd (Part002.streamInformationGathering w IMPROVED_PROMPT
                          userInput h2)))
  /\ generations (snd (Part002.handleInformationGathering w IMPROVED_PROMPT
                         userInput h1))
     = [SendMessage (Part002.formatChatHistory h1) userInput].
Proof.
  intros H1 H2. destruct h1 as [|x1 h1]; [contradiction|].
  destruct h2 as [|x2 h2]; [contradiction|].
  rewrite !streamInformationGathering002_run, handleInformationGathering002_run.
  cbv zeta. cbn [snd app records generations].
  rewrite generations_app, !records_app. cbn [records generations].
  rewrite (generations_enqueues (chunkRecord [])).
  rewrite !(records_enqueues (chunkRecord [])), !map_app.
  repeat split. f_equal. cbn [map]. now destruct (failure _).
Qed.

(** X5 on the echo world: the histories differ, the streams do not. *)
Lemma gathering_stream_without_history_witness :
  map withoutHistory
    (records (snd (Part002.streamInformationGathering echoWorld "prompt" "wood"
                     [mkTurn "user" "deck"; mkTurn "model" "size?"])))
  = map withoutHistory
      (records (snd (Part002.streamInformationGathering echoWorld "prompt" "wood"
                       [mkTurn "user" "fence"; mkTurn "model" "length?"]))).
Proof.
  refine (proj1 (proj2 (gathering_stream_without_history echoWorld "prompt"
                          "wood" [mkTurn "user" "deck"; mkTurn "model" "size?"]
                          [mkTurn "user" "fence"; mkTurn "model" "length?"]
                          _ _))); discriminate.
Defined.

(** X6.  A continuation request of the gathering phase does not use the
    user input: on part_001, with [continuationMode] and a non-empty
    partial text, the streaming and the plain handlers do the same and
    answer the same for any two inputs.  The input reaches neither the
    model nor the returned history. *)
Theorem continuation_ignores_user_input
    (w : World) (userInput1 userInput2 : string) (h : list Turn) (p : string) :
  Js.truthy p = true ->
  Part001.streamInformationGathering w userInput1 h true p
  = Part001.streamInformationGathering w userInput2 h true p
  /\ Part001.handleInformationGathering w userInput1 h true p
     = Part001.handleInformationGathering w userInput2 h true p.
Proof.
  intros Hp. assert (Hc : true && Js.truthy p = true) by now rewrite Hp.
  split.
  - now rewrite !(streamInformationGathering001_continuation w _ h true p Hc).
  - now rewrite !(handleInformationGathering001_continuation w _ h true p Hc).
Qed.

(** X6 on the example world. *)
Lemma continuation_ignores_user_input_witness :
  Part001.handleInformationGathering exampleWorld "wood" [] true "par"
  = Part001.handleInformationGathering exampleWorld "metal" [] true "par".
Proof.
  exact (proj2 (continuation_ignores_user_input exampleWorld "wood" "metal" []
                  "par" eq_refl)).
Defined.

(** X7.  The catalog is read in a fixed order and the second read is
    skipped when the first fails: every recommendation handler of the SDK
    routes first reads [tool_information.txt], then, only if that
    succeeded, [product_urls.txt], and reads nothing else; the handler of
    the first route reads [tool_information.txt] only. *)
Theorem catalog_read_order
    (w : World) (PROMPT_TEMPLATE projectInformation : string)
    (continuationMode : bool) (p : string)
    (partial : option Part002.PartialResponse) :
  let expected :=
    match readFile w "tool_information.txt" with
    | Return _ => ["tool_information.txt"; "product_urls.txt"]
    | Throw _ => ["tool_information.txt"]
    end in
  reads (snd (Part001.streamToolRecommendation w PROMPT_TEMPLATE
                projectInformation continuationMode p)) = expected
  /\ reads (snd (Part001.handleToolRecommendation w PROMPT_TEMPLATE
                   projectInformation continuationMode p)) = expected
  /\ reads (snd (Part002.streamToolRecommendation w PROMPT_TEMPLATE
                   projectInformation partial)) = expected
  /\ reads (snd (Part002.handleToolRecommendation w PROMPT_TEMPLATE
                   projectInformation partial)) = expected
  /\ reads (snd (Part000.handleToolRecommendation w PROMPT_TEMPLATE
                   projectInformation)) = ["tool_information.txt"].
Proof.
  intros expected. subst expected.
  assert (H0 : reads (snd (Part000.handleToolRecommendation w PROMPT_TEMPLATE
                             projectInformation)) = ["tool_information.txt"]).
  { unfold Part000.handleToolRecommendation, Part000.readFromFile.
    destruct (readFile w "tool_information.txt") as [t|e]; eff; [|reflexivity].
    rewrite fetchGeminiResponse_run. cbn [fst snd app reads].
    now destruct (fetch w _ _) as [m|st e|m|[[|[x| |e] cs]|]]. }
  destruct (readFile w "tool_information.txt") as [t|e] eqn:Ht;
    [destruct (readFile w "product_urls.txt") as [u|e] eqn:Hu|].
  - rewrite (streamToolRecommendation001_catalog w _ _ _ _ t u Ht Hu),
      (handleToolRecommendation001_catalog w _ _ _ _ t u Ht Hu),
      (streamToolRecommendation002_catalog w _ _ _ t u Ht Hu),
      (handleToolRecommendation002_catalog w _ _ _ t u Ht Hu).
    cbv zeta. cbn [snd app reads]. rewrite !reads_app.
    rewrite (reads_enqueues (chunkRecord [Rec.Continuation continuationMode])).
    rewrite (reads_enqueues (chunkRecord [])).
    repeat split; assumption.
  - rewrite (streamToolRecommendation001_no_urls w _ _ _ _ t e Ht Hu),
      (handleToolRecommendation001_no_urls w _ _ _ _ t e Ht Hu),
      (streamToolRecommendation002_no_urls w _ _ _ t e Ht Hu),
      (handleToolRecommendation002_no_urls w _ _ _ t e Ht Hu).
    repeat split; assumption.
  - rewrite (streamToolRecommendation001_no_tool w _ _ _ _ e Ht),
      (handleToolRecommendation001_no_tool w _ _ _ _ e Ht),
      (streamToolRecommendation002_no_tool w _ _ _ e Ht),
      (handleToolRecommendation002_no_tool w _ _ _ e Ht).
    repeat split; assumption.
Qed.

(** X8.  The streaming and the plain handlers of part_001 agree.  When
    the model streams the fragments of the text it returns to the plain
    call, the terminal record of the gathering stream holds the same
    conversation history, completion flag and project information as the
    plain result, and the terminal record of the recommendation stream the
    same text. *)
Theorem stream_agrees_with_plain
    (w : World) (PROMPT_TEMPLATE userInput projectInformation p t u : string)
    (h : list Turn) (continuationMode : bool) (cs : list string) :
  let sent := Part001.messageSent userInput h continuationMode p in
  let prompt :=
    Part001.promptSent w PROMPT_TEMPLATE projectInformation continuationMode
      p t u in
  (sendMessageStream w (fst sent) (snd sent) = mkStream cs None ->
   sendMessage w (fst sent) (snd sent) = Return (Js.concat cs) ->
   exists streamed plain,
     terminal (records (snd (Part001.streamInformationGathering w userInput h
                               continuationMode p))) = Some streamed
     /\ fst (Part001.handleInformationGathering w userInput h continuationMode p)
        = Return plain
     /\ Rec.conversationHistory streamed = Rec.conversationHistory plain
     /\ Rec.isComplete streamed = Rec.isComplete plain
     /\ Rec.projectInformation streamed = Rec.projectInformation plain)
  /\ (readFile w "tool_information.txt" = Return t ->
      readFile w "product_urls.txt" = Return u ->
      generateContentStream w prompt = mkStream cs None ->
      generateContent w prompt = Return (Js.concat cs) ->
      exists streamed plain,
        terminal (records (snd (Part001.streamToolRecommendation w
                                  PROMPT_TEMPLATE projectInformation
                                  continuationMode p))) = Some streamed
        /\ fst (Part001.handleToolRecommendation w PROMPT_TEMPLATE
                  projectInformation continuationMode p) = Return plain
        /\ Rec.text streamed = Rec.text plain).
Proof.
  intros sent prompt. subst sent prompt. unfold Part001.messageSent. split.
  - destruct (continuationMode && Js.truthy p) eqn:Hc; cbn [fst snd];
      intros Hs Hp.
    + rewrite (streamInformationGathering001_continuation w userInput h _ _ Hc),
        (handleInformationGathering001_continuation w userInput h _ _ Hc).
      cbv zeta. rewrite Hs, Hp. cbn [fragments failure fst snd app records].
      rewrite records_app. cbn [records]. rewrite terminal_snoc.
      do 2 eexists. repeat split.
    + rewrite (streamInformationGathering001_fresh w userInput h _ _ Hc),
        (handleInformationGathering001_fresh w userInput h _ _ Hc).
      cbv zeta. rewrite Hs, Hp. cbn [fragments failure fst snd app records].
      rewrite records_app. cbn [records]. rewrite terminal_snoc.
      do 2 eexists. repeat split.
  - intros Ht Hu Hs Hp.
    rewrite (streamToolRecommendation001_catalog w _ _ _ _ t u Ht Hu),
      (handleToolRecommendation001_catalog w _ _ _ _ t u Ht Hu).
    cbv zeta. rewrite Hs, Hp. cbn [fragments failure fst snd app records].
    rewrite records_app. cbn [records]. rewrite terminal_snoc.
    do 2 eexists. repeat split.
    now destruct continuationMode, p.
Qed.

(** X8 on the echo world, where the stream of a message is that message
    in one fragment. *)
Lemma stream_agrees_with_plain_witness :
  exists streamed plain,
    terminal (records (snd (Part001.streamInformationGathering echoWorld
                              "deck ## FINAL SUMMARY ##" [] false "")))
    = Some streamed
    /\ fst (Part001.handleInformationGathering echoWorld
              "deck ## FINAL SUMMARY ##" [] false "") = Return plain
    /\ Rec.conversationHistory streamed = Rec.conversationHistory plain
    /\ Rec.isComplete streamed = Rec.isComplete plain
    /\ Rec.projectInformation streamed = Rec.projectInformation plain.
Proof.
  exact (proj1 (stream_agrees_with_plain echoWorld "template"
                  "deck ## FINAL SUMMARY ##" "" "" "catalog" "catalog"
                  [] false ["deck ## FINAL SUMMARY ##"])
           eq_refl eq_refl).
Defined.

(* ===================================================================== *)
(** ** Further properties: a conversation *)
(* ===================================================================== *)

Lemma alternates_app (a b : list Turn) :
  alternates a = true -> alternates (a ++ b) = alternates b.
Proof.
  assert (G : forall n (a : list Turn), length a <= n ->
                alternates a = true -> alternates (a ++ b) = alternates b).
  { induction n as [|n IH]; intros [|x [|y l]] Hl Ha; cbn in *;
      try reflexivity; try discriminate; try lia.
    apply andb_true_iff in Ha. destruct Ha as [Hxy Ha]. rewrite Hxy. cbn.
    apply IH; [lia | exact Ha]. }
  apply (G (length a) a). lia.
Qed.

Lemma alternates_exchangeTurns (exchanges : list (string * string)) :
  alternates (exchangeTurns exchanges) = true.
Proof. induction exchanges as [|e l IH]; [reflexivity | exact IH]. Qed.

(** X9.  Successive gathering requests compose into an append-only
    conversation.  When the client sends each plain request to part_001
    with the history the previous one returned and none fails, the final
    history is the first one followed by one exchange per input, the user
    turn for the input and then the model turn for the reply, in order;
    a history that alternates user and model turns still does. *)
Theorem conversation_appends
    (w : World) (inputs : list string) (h h' : list Turn) :
  conversation001 w inputs h = Some h' ->
  exists outputs,
    length outputs = length inputs
    /\ h' = (h ++ exchangeTurns (combine inputs outputs))%list
    /\ length h' = length h + 2 * length inputs
    /\ (alternates h = true -> alternates h' = true).
Proof.
  revert h. induction inputs as [|u inputs IH]; intros h; cbn [conversation001].
  - intros [= <-]. exists []. cbn. rewrite app_nil_r.
    repeat split; [lia | trivial].
  - rewrite (handleInformationGathering001_fresh w u h false "" eq_refl).
    cbv zeta. cbn [fst].
    destruct (sendMessage w _ u) as [t|m]; [|discriminate].
    cbn [Rec.conversationHistory Rec.object fold_left Rec.set].
    intros H. apply IH in H. destruct H as [outputs [Hl [-> [Hn Ha]]]].
    exists (t :: outputs). cbn [length combine exchangeTurns flat_map fst snd].
    repeat split.
    + now rewrite Hl.
    + rewrite <- app_assoc. reflexivity.
    + rewrite Hn, length_app. cbn. lia.
    + intros Hh. apply Ha. rewrite (alternates_app h _ Hh). reflexivity.
Qed.

(** X9 on the echo world: two turns from an empty history. *)
Lemma conversation_appends_witness :
  conversation001 echoWorld ["deck"; "wood"] []
  = Some [mkTurn "user" "deck"; mkTurn "model" "deck";
          mkTurn "user" "wood"; mkTurn "model" "wood"]
  /\ exists outputs,
       length outputs = 2
       /\ [mkTurn "user" "deck"; mkTurn "model" "deck";
           mkTurn "user" "wood"; mkTurn "model" "wood"]
          = exchangeTurns (combine ["deck"; "wood"] outputs).
Proof.
  split; [reflexivity|].
  destruct (conversation_appends echoWorld ["deck"; "wood"] []
              [mkTurn "user" "deck"; mkTurn "model" "deck";
               mkTurn "user" "wood"; mkTurn "model" "wood"] eq_refl)
    as [outputs [Hl [He _]]].
  exists outputs. split; [exact Hl | exact He].
Defined.

(* ===================================================================== *)
(** ** Further properties: the recommendation of the first route *)
(* ===================================================================== *)

(** X10.  The recommendation handler of the first route.  When
    [tool_information.txt] cannot be read it returns
    [{text: "Error: Unable to access tool information. Please try again
    later.", error: true}] without calling the model.  When the file is
    read and the REST call fails, it makes the call once and returns the
    fallback text with [error: false]: the failure is not flagged.  When
    the first candidate of the reply holds no text, the result holds no
    text either, again with [error: false]. *)
Theorem legacy_recommendation_failures
    (w : World) (PROMPT_TEMPLATE projectInformation : string) :
  (forall e,
     readFile w "tool_information.txt" = Throw e ->
     Part000.handleToolRecommendation w PROMPT_TEMPLATE projectInformation
     = (Return
          (Rec.object
             [Rec.Text "Error: Unable to access tool information. Please try again later.";
              Rec.Error true]),
        [ReadFile "tool_information.txt"]))
  /\ (forall t,
        readFile w "tool_information.txt" = Return t ->
        let prompt :=
          replace w
            (replace w PROMPT_TEMPLATE "{project_information}" projectInformation)
            "{tool_information}" t in
        upstreamFails (fetch w "gemini-2.0-flash" prompt) = true ->
        Part000.handleToolRecommendation w PROMPT_TEMPLATE projectInformation
        = (Return
             (if textMissing (fetch w "gemini-2.0-flash" prompt)
              then Rec.object [Rec.Error false]
              else Rec.object [Rec.Text Part000.fallbackText; Rec.Error false]),
           [ReadFile "tool_information.txt"; Fetch "gemini-2.0-flash" prompt])).
Proof.
  split.
  - intros e He. unfold Part000.handleToolRecommendation, Part000.readFromFile.
    now rewrite He.
  - intros t Ht prompt Hf. subst prompt.
    unfold Part000.handleToolRecommendation, Part000.readFromFile.
    rewrite Ht. eff. rewrite fetchGeminiResponse_run. eff.
    unfold upstreamFails in Hf.
    destruct (fetch w "gemini-2.0-flash" _)
      as [e|status e|e|[[|[t'| |e] more]|]];
      cbn [textMissing fetchCaught orb] in *; try discriminate; reflexivity.
Qed.

(** X10 on the example world, whose REST endpoint answers with status
    500. *)
Lemma legacy_recommendation_failures_witness :
  fst (Part000.handleToolRecommendation exampleWorld "template" "project")
  = Return (Rec.object [Rec.Text Part000.fallbackText; Rec.Error false]).
Proof.
  pose proof (proj2 (legacy_recommendation_failures exampleWorld "template"
                       "project") "catalog" eq_refl eq_refl) as H.
  now rewrite H.
Defined.

(* ===================================================================== *)
(** ** Further properties: the recommendation prompt *)
(* ===================================================================== *)

Lemma startsWith_append (p rest : string) : Js.startsWith (p ++ rest) p = true.
Proof. apply startsWith_iff. now exists rest. Qed.

Lemma drop_append (p rest : string) :
  JsReplace.drop (String.length p) (p ++ rest) = rest.
Proof. induction p as [|c p IH]; [now destruct rest | exact IH]. Qed.

Lemma cut_equation (s pattern : string) :
  JsReplace.cut s pattern
  = if Js.startsWith s pattern
    then Some ("", JsReplace.drop (String.length pattern) s)
    else match s with
         | EmptyString => None
         | String c s' =>
             match JsReplace.cut s' pattern with
             | Some (before, after) => Some (String c before, after)
             | None => None
             end
         end.
Proof. now destruct s. Qed.

(** The first occurrence of a pattern that starts with [c0], after a text
    in which [c0] does not occur. *)
Lemma cut_after_fresh (c0 : ascii) (pattern' a rest : string) :
  JsReplace.without c0 a = true ->
  JsReplace.cut (a ++ String c0 pattern' ++ rest) (String c0 pattern')
  = Some (a, rest).
Proof.
  intros Ha. induction a as [|x a IH].
  - change ("" ++ String c0 pattern' ++ rest)
      with (String c0 pattern' ++ rest).
    rewrite cut_equation, startsWith_append.
    now rewrite (drop_append (String c0 pattern') rest).
  - cbn in Ha. apply andb_true_iff in Ha. destruct Ha as [Hx Ha].
    apply negb_true_iff in Hx.
    rewrite cut_equation.
    change ((String x a) ++ String c0 pattern' ++ rest)
      with (String x (a ++ String c0 pattern' ++ rest)).
    cbn [Js.startsWith]. rewrite Hx. now rewrite (IH Ha).
Qed.

Lemma cut_absent (s pattern : string) :
  Js.includes s pattern = false -> JsReplace.cut s pattern = None.
Proof.
  induction s as [|c s IH]; cbn [Js.includes JsReplace.cut]; intros H;
    apply orb_false_iff in H; destruct H as [H1 H2].
  - cbn [Js.startsWith] in *. now rewrite H1.
  - change (match pattern with
            | "" => true
            | String b t' => if Ascii.eqb c b then Js.startsWith s t' else false
            end) with (Js.startsWith (String c s) pattern) in H1.
    rewrite H1. now rewrite (IH H2).
Qed.

Lemma getSubstitution_plain (matched before after r : string) :
  JsReplace.without "$" r = true ->
  JsReplace.getSubstitution matched before after r = r.
Proof.
  induction r as [|c r IH]; [reflexivity|]. cbn. intros H.
  apply andb_true_iff in H. destruct H as [Hc Hr].
  apply negb_true_iff in Hc. rewrite Hc. now rewrite (IH Hr).
Qed.

Lemma replace_after_fresh (c0 : ascii) (pattern' a rest r : string) :
  JsReplace.without c0 a = true ->
  JsReplace.without "$" r = true ->
  JsReplace.replace (a ++ String c0 pattern' ++ rest) (String c0 pattern') r
  = a ++ r ++ rest.
Proof.
  intros Ha Hr. unfold JsReplace.replace.
  rewrite (cut_after_fresh c0 pattern' a rest Ha).
  now rewrite getSubstitution_plain.
Qed.

Lemma without_append (c : ascii) (a b : string) :
  JsReplace.without c (a ++ b) = JsReplace.without c a && JsReplace.without c b.
Proof.
  induction a as [|x a IH]; [reflexivity|]. cbn. rewrite IH.
  now rewrite andb_assoc.
Qed.

(** X11.  The recommendation prompt, with the [replace] of JavaScript.
    When the template is [a {project_information} b {tool_information} c
    {product_urls_file} d], where the texts [a], [b], [c] and the project
    information and tool information hold no opening brace, and the three
    inserted texts hold no dollar sign, the prompt sent by the
    recommendation handlers of part_001 in normal mode is
    [a], the project information, [b], the tool information, [c], the
    product URLs, [d]: each text once, verbatim, in its place. *)
Theorem prompt_substitution
    (w : World) (a b c d projectInformation toolInformation productUrls : string) :
  let template :=
    a ++ "{project_information}" ++ b ++ "{tool_information}" ++ c
    ++ "{product_urls_file}" ++ d in
  JsReplace.without "{" a = true ->
  JsReplace.without "{" b = true ->
  JsReplace.without "{" c = true ->
  JsReplace.without "{" projectInformation = true ->
  JsReplace.without "{" toolInformation = true ->
  JsReplace.without "$" projectInformation = true ->
  JsReplace.without "$" toolInformation = true ->
  JsReplace.without "$" productUrls = true ->
  readFile w "tool_information.txt" = Return toolInformation ->
  readFile w "product_urls.txt" = Return productUrls ->
  let prompt :=
    a ++ projectInformation ++ b ++ toolInformation ++ c ++ productUrls ++ d in
  Part001.recommendationPrompt (withReplace w) template projectInformation
    toolInformation productUrls = prompt
  /\ generations
       (snd (Part001.handleToolRecommendation (withReplace w) template
               projectInformation false ""))
     = [GenerateContent prompt].
Proof.
  intros template Ha Hb Hc Hpi Hti Hpd Htd Hud Ht Hu prompt.
  assert (Hp : Part001.recommendationPrompt (withReplace w) template
                 projectInformation toolInformation productUrls = prompt).
  { subst template prompt. unfold Part001.recommendationPrompt.
    cbn [replace withReplace].
    change "{project_information}" with (String "{" "project_information}").
    rewrite (replace_after_fresh "{" "project_information}" a _ _ Ha Hpd).
    change "{tool_information}" with (String "{" "tool_information}").
    replace (a ++ projectInformation ++ b
             ++ String "{" "tool_information}" ++ c ++ "{product_urls_file}" ++ d)
      with ((a ++ projectInformation ++ b)
            ++ String "{" "tool_information}" ++ c ++ "{product_urls_file}" ++ d)
      by now rewrite !append_assoc.
    rewrite replace_after_fresh;
      [| now rewrite !without_append, Ha, Hpi, Hb | exact Htd].
    change "{product_urls_file}" with (String "{" "product_urls_file}").
    replace ((a ++ projectInformation ++ b) ++ toolInformation ++ c
             ++ String "{" "product_urls_file}" ++ d)
      with ((a ++ projectInformation ++ b ++ toolInformation ++ c)
            ++ String "{" "product_urls_file}" ++ d)
      by now rewrite !append_assoc.
    rewrite replace_after_fresh;
      [| now rewrite !without_append, Ha, Hpi, Hb, Hti, Hc | exact Hud].
    now rewrite !append_assoc. }
  split; [exact Hp|].
  rewrite (handleToolRecommendation001_catalog (withReplace w) template
             projectInformation false "" toolInformation productUrls Ht Hu).
  cbv zeta. cbn [snd generations]. unfold Part001.promptSent. cbn [andb].
  now rewrite Hp.
Qed.

(** X11 on a small template. *)
Lemma prompt_substitution_witness :
  Part001.recommendationPrompt (withReplace exampleWorld)
    "P: {project_information} T: {tool_information} U: {product_urls_file}."
    "a deck" "catalog" "catalog"
  = "P: a deck T: catalog U: catalog.".
Proof.
  exact (proj1 (prompt_substitution exampleWorld "P: " " T: " " U: " "."
                  "a deck" "catalog" "catalog"
                  eq_refl eq_refl eq_refl eq_refl eq_refl eq_refl eq_refl eq_refl
                  eq_refl eq_refl)).
Defined.


Lemma replace_at (c0 : ascii) (pattern' a rest r : string) :
  JsReplace.without c0 a = true ->
  JsReplace.replace (a ++ String c0 pattern' ++ rest) (String c0 pattern') r
  = a ++ JsReplace.getSubstitution (String c0 pattern') a rest r ++ rest.
Proof.
  intros Ha. unfold JsReplace.replace.
  now rewrite (cut_after_fresh c0 pattern' a rest Ha).
Qed.

Lemma getSubstitution_append (matched before after x r : string) :
  JsReplace.without "$" x = true ->
  JsReplace.getSubstitution matched before after (x ++ r)
  = x ++ JsReplace.getSubstitution matched before after r.
Proof.
  induction x as [|c x IH]; [reflexivity|]. intros H. cbn in H.
  apply andb_true_iff in H. destruct H as [Hc Hx].
  apply negb_true_iff in Hc.
  change (String c x ++ r) with (String c (x ++ r)).
  cbn [JsReplace.getSubstitution]. rewrite Hc, (IH Hx). reflexivity.
Qed.

(** The first [{product_urls_file}] of a text that holds
    [{tool_information}] before it and no other opening brace. *)
Lemma cut_past_tool_placeholder (s1 s2 rest : string) :
  JsReplace.without "{" s1 = true ->
  JsReplace.without "{" s2 = true ->
  JsReplace.cut
    (s1 ++ "{tool_information}" ++ s2 ++ "{product_urls_file}" ++ rest)
    "{product_urls_file}"
  = Some (s1 ++ "{tool_information}" ++ s2, rest).
Proof.
  intros H1 H2. induction s1 as [|x s1 IH].
  - change ("" ++ "{tool_information}" ++ s2 ++ "{product_urls_file}" ++ rest)
      with (String "{" (("tool_information}" ++ s2)
                        ++ "{product_urls_file}" ++ rest)).
    rewrite cut_equation.
    change (Js.startsWith
              (String "{" (("tool_information}" ++ s2)
                           ++ "{product_urls_file}" ++ rest))
              "{product_urls_file}") with false.
    cbv iota.
    change "{product_urls_file}" with (String "{" "product_urls_file}").
    rewrite cut_after_fresh; [reflexivity|].
    now rewrite without_append, H2.
  - cbn in H1. apply andb_true_iff in H1. destruct H1 as [Hx H1].
    apply negb_true_iff in Hx.
    rewrite cut_equation.
    change (String x s1 ++ "{tool_information}" ++ s2
            ++ "{product_urls_file}" ++ rest)
      with (String x (s1 ++ "{tool_information}" ++ s2
                      ++ "{product_urls_file}" ++ rest)).
    change "{product_urls_file}" with (String "{" "product_urls_file}") at 1.
    cbn [Js.startsWith]. rewrite Hx.
    change (String "{" "product_urls_file}") with "{product_urls_file}".
    now rewrite (IH H1).
Qed.

(** X12.  A placeholder inside the project information is filled in.
    The three replacements run one after the other on the whole text, so
    when the project information is [x {tool_information} y], the tool
    information is inserted inside it, between [x] and [y], and the
    template's own [{tool_information}] stays in the prompt as written
    (texts without other braces and without dollar signs). *)
Theorem placeholder_in_project_information
    (w : World) (a b c d x y toolInformation productUrls : string) :
  let template :=
    a ++ "{project_information}" ++ b ++ "{tool_information}" ++ c
    ++ "{product_urls_file}" ++ d in
  let projectInformation := x ++ "{tool_information}" ++ y in
  JsReplace.without "{" a = true ->
  JsReplace.without "{" b = true ->
  JsReplace.without "{" c = true ->
  JsReplace.without "{" x = true ->
  JsReplace.without "{" y = true ->
  JsReplace.without "{" toolInformation = true ->
  JsReplace.without "$" x = true ->
  JsReplace.without "$" y = true ->
  JsReplace.without "$" toolInformation = true ->
  JsReplace.without "$" productUrls = true ->
  Part001.recommendationPrompt (withReplace w) template projectInformation
    toolInformation productUrls
  = a ++ x ++ toolInformation ++ y ++ b ++ "{tool_information}" ++ c
    ++ productUrls ++ d.
Proof.
  intros template projectInformation Ha Hb Hc Hx Hy Ht Hxd Hyd Htd Hud.
  subst template projectInformation. unfold Part001.recommendationPrompt.
  cbn [replace withReplace].
  change "{project_information}" with (String "{" "project_information}").
  rewrite (replace_after_fresh "{" "project_information}" a _ _ Ha);
    [| now rewrite !without_append, Hxd, Hyd ].
  change "{tool_information}" with (String "{" "tool_information}").
  replace (a ++ (x ++ String "{" "tool_information}" ++ y) ++ b
           ++ String "{" "tool_information}" ++ c ++ "{product_urls_file}" ++ d)
    with ((a ++ x) ++ String "{" "tool_information}" ++ y ++ b
          ++ String "{" "tool_information}" ++ c ++ "{product_urls_file}" ++ d)
    by now rewrite !append_assoc.
  rewrite replace_after_fresh;
    [| now rewrite !without_append, Ha, Hx | exact Htd].
  change (String "{" "tool_information}") with "{tool_information}".
  unfold JsReplace.replace.
  replace ((a ++ x) ++ toolInformation ++ y ++ b ++ "{tool_information}"
           ++ c ++ "{product_urls_file}" ++ d)
    with ((a ++ x ++ toolInformation ++ y ++ b) ++ "{tool_information}"
          ++ c ++ "{product_urls_file}" ++ d)
    by now rewrite !append_assoc.
  rewrite cut_past_tool_placeholder;
    [| now rewrite !without_append, Ha, Hx, Ht, Hy, Hb | exact Hc].
  rewrite (getSubstitution_plain _ _ _ _ Hud).
  now rewrite !append_assoc.
Qed.

(** X12 on a small template. *)
Lemma placeholder_in_project_information_witness :
  Part001.recommendationPrompt (withReplace exampleWorld)
    "P: {project_information} T: {tool_information} U: {product_urls_file}."
    "a deck {tool_information}!" "catalog" "urls"
  = "P: a deck catalog! T: {tool_information} U: urls.".
Proof.
  exact (placeholder_in_project_information exampleWorld "P: " " T: " " U: "
           "." "a deck " "!" "catalog" "urls"
           eq_refl eq_refl eq_refl eq_refl eq_refl eq_refl eq_refl eq_refl
           eq_refl eq_refl).
Defined.

(** X13.  The inserted texts are replacement patterns, not plain text.
    In the project information [x $$ y] the two dollars come out as one,
    and in [x $& y] the dollar pattern comes out as the placeholder
    [{project_information}] itself; the rest of the prompt is built as
    usual (texts without braces and without other dollar signs). *)
Theorem dollar_patterns_are_expanded
    (w : World) (a b c d x y toolInformation productUrls : string) :
  let template :=
    a ++ "{project_information}" ++ b ++ "{tool_information}" ++ c
    ++ "{product_urls_file}" ++ d in
  JsReplace.without "{" a = true ->
  JsReplace.without "{" b = true ->
  JsReplace.without "{" c = true ->
  JsReplace.without "{" x = true ->
  JsReplace.without "{" y = true ->
  JsReplace.without "{" toolInformation = true ->
  JsReplace.without "$" x = true ->
  JsReplace.without "$" y = true ->
  JsReplace.without "$" toolInformation = true ->
  JsReplace.without "$" productUrls = true ->
  Part001.recommendationPrompt (withReplace w) template (x ++ "$$" ++ y)
    toolInformation productUrls
  = a ++ (x ++ "$" ++ y) ++ b ++ toolInformation ++ c ++ productUrls ++ d
  /\ JsReplace.replace template "{project_information}" (x ++ "$&" ++ y)
     = a ++ (x ++ "{project_information}" ++ y) ++ b ++ "{tool_information}"
       ++ c ++ "{product_urls_file}" ++ d.
Proof.
  intros template Ha Hb Hc Hx Hy Ht Hxd Hyd Htd Hud. subst template.
  assert (Hsub : forall m before after,
             JsReplace.getSubstitution m before after (x ++ "$$" ++ y)
             = x ++ "$" ++ y).
  { intros. rewrite (getSubstitution_append _ _ _ _ _ Hxd).
    change ("$$" ++ y) with (String "$" (String "$" y)).
    cbn [JsReplace.getSubstitution Ascii.eqb Bool.eqb].
    now rewrite (getSubstitution_plain _ _ _ _ Hyd). }
  assert (Hamp : forall m before after,
             JsReplace.getSubstitution m before after (x ++ "$&" ++ y)
             = x ++ m ++ y).
  { intros. rewrite (getSubstitution_append _ _ _ _ _ Hxd).
    change ("$&" ++ y) with (String "$" (String "&" y)).
    cbn [JsReplace.getSubstitution Ascii.eqb Bool.eqb].
    now rewrite (getSubstitution_plain _ _ _ _ Hyd). }
  split.
  - unfold Part001.recommendationPrompt. cbn [replace withReplace].
    change "{project_information}" with (String "{" "project_information}").
    rewrite (replace_at "{" "project_information}" a _ _ Ha), Hsub.
    change "{tool_information}" with (String "{" "tool_information}").
    replace (a ++ (x ++ "$" ++ y) ++ b
             ++ String "{" "tool_information}" ++ c ++ "{product_urls_file}" ++ d)
      with ((a ++ (x ++ "$" ++ y) ++ b)
            ++ String "{" "tool_information}" ++ c ++ "{product_urls_file}" ++ d)
      by now rewrite !append_assoc.
    rewrite replace_after_fresh;
      [| now rewrite !without_append, Ha, Hx, Hy, Hb | exact Htd].
    change "{product_urls_file}" with (String "{" "product_urls_file}").
    replace ((a ++ (x ++ "$" ++ y) ++ b) ++ toolInformation ++ c
             ++ String "{" "product_urls_file}" ++ d)
      with ((a ++ (x ++ "$" ++ y) ++ b ++ toolInformation ++ c)
            ++ String "{" "product_urls_file}" ++ d)
      by now rewrite !append_assoc.
    rewrite replace_after_fresh;
      [| now rewrite !without_append, Ha, Hx, Hy, Hb, Ht, Hc | exact Hud].
    now rewrite !append_assoc.
  - change "{project_information}" with (String "{" "project_information}").
    now rewrite (replace_at "{" "project_information}" a _ _ Ha), Hamp.
Qed.

(** X13 on a small template. *)
Lemma dollar_patterns_are_expanded_witness :
  Part001.recommendationPrompt (withReplace exampleWorld)
    "P: {project_information} T: {tool_information} U: {product_urls_file}."
    "budget $$200" "catalog" "urls"
  = "P: budget $200 T: catalog U: urls.".
Proof.
  exact (proj1 (dollar_patterns_are_expanded exampleWorld "P: " " T: " " U: "
                  "." "budget " "200" "catalog" "urls"
                  eq_refl eq_refl eq_refl eq_refl eq_refl eq_refl eq_refl
                  eq_refl eq_refl eq_refl)).
Defined.


(* ===================================================================== *)
(** ** Further properties: the stream watchdog of the client *)
(* ===================================================================== *)

Lemma clearTimeout_same (id : nat) : Watchdog.clearTimeout id [id] = [].
Proof. unfold Watchdog.clearTimeout. cbn. now rewrite Nat.eqb_refl. Qed.

(** After [clearTimeoutTimer] no timer is armed; the other refs are as
    they were. *)
Lemma clearTimeoutTimer_guarded (st : Watchdog.State) :
  Watchdog.guarded st ->
  Watchdog.timers (Watchdog.clearTimeoutTimer st) = []
  /\ Watchdog.responseRef (Watchdog.clearTimeoutTimer st)
     = Watchdog.responseRef st
  /\ Watchdog.isStreamingRef (Watchdog.clearTimeoutTimer st)
     = Watchdog.isStreamingRef st
  /\ Watchdog.currentRequestRef (Watchdog.clearTimeoutTimer st)
     = Watchdog.currentRequestRef st
  /\ Watchdog.nextTimer (Watchdog.clearTimeoutTimer st)
     = Watchdog.nextTimer st
  /\ Watchdog.actions (Watchdog.clearTimeoutTimer st) = Watchdog.actions st.
Proof.
  unfold Watchdog.guarded, Watchdog.clearTimeoutTimer.
  intros [Ht | (id & Hid & Ht & Hr & _)].
  - destruct (Watchdog.timeoutRef st) as [id|]; [|now rewrite Ht].
    destruct (negb (Nat.eqb id 0)); cbn; now rewrite Ht.
  - apply Nat.eqb_neq in Hid.
    rewrite Hr, Hid, Ht, clearTimeout_same. cbn. now repeat split.
Qed.

(** [resetTimeoutTimer] while a stream is tracked: one new timer. *)
Lemma resetTimeoutTimer_streaming (st : Watchdog.State) :
  Watchdog.guarded st ->
  Watchdog.isStreamingRef st = true ->
  Watchdog.resetTimeoutTimer st
  = Watchdog.mkState (Some (Watchdog.nextTimer st)) (Watchdog.responseRef st)
      true (Watchdog.currentRequestRef st) [Watchdog.nextTimer st]
      (S (Watchdog.nextTimer st)) (Watchdog.actions st).
Proof.
  intros Hg Hs. unfold Watchdog.resetTimeoutTimer.
  destruct (clearTimeoutTimer_guarded st Hg) as (Ht & Hr & Hi & Hc & Hn & Ha).
  now rewrite Hi, Hs, Ht, Hr, Hc, Hn, Ha.
Qed.

(** [resetTimeoutTimer] while no stream is tracked: no timer. *)
Lemma resetTimeoutTimer_idle (st : Watchdog.State) :
  Watchdog.guarded st ->
  Watchdog.isStreamingRef st = false ->
  Watchdog.resetTimeoutTimer st = Watchdog.clearTimeoutTimer st.
Proof.
  intros Hg Hs. unfold Watchdog.resetTimeoutTimer.
  destruct (clearTimeoutTimer_guarded st Hg) as (_ & _ & Hi & _).
  now rewrite Hi, Hs.
Qed.

Lemma fire_armed (id : nat) (st : Watchdog.State) :
  Watchdog.timers st = [id] ->
  Watchdog.fire id st
  = Watchdog.mkState (Watchdog.timeoutRef st) (Watchdog.responseRef st) false
      (Watchdog.currentRequestRef st) [] (Watchdog.nextTimer st)
      (Watchdog.actions st
       ++ [Watchdog.TimeoutNotice;
           Watchdog.continuation (Watchdog.currentRequestRef st)
             (Watchdog.responseRef st)]).
Proof.
  intros Ht. unfold Watchdog.fire. rewrite Ht. cbn [existsb].
  rewrite Nat.eqb_refl, clearTimeout_same. reflexivity.
Qed.

Lemma fire_other (id : nat) (st : Watchdog.State) :
  existsb (Nat.eqb id) (Watchdog.timers st) = false ->
  Watchdog.fire id st = st.
Proof. intros H. unfold Watchdog.fire. now rewrite H. Qed.

Lemma timeouts_snoc (st : Watchdog.State) (a : Watchdog.Action) (n : nat) :
  Watchdog.timeouts st = n ->
  length (filter (fun a => match a with
                           | Watchdog.TimeoutNotice => true
                           | _ => false
                           end)
            (Watchdog.actions st
             ++ [Watchdog.TimeoutNotice; a]))
  = S n + (match a with Watchdog.TimeoutNotice => 1 | _ => 0 end).
Proof.
  unfold Watchdog.timeouts. intros <-.
  rewrite filter_app, length_app. destruct a; cbn; lia.
Qed.

(** The invariant of the watchdog and the bound on its timeouts, along
    one event: the streams started so far are [starts]. *)
Lemma step_guarded (st : Watchdog.State) (e : Watchdog.Event) (starts : nat) :
  Watchdog.guarded st ->
  Watchdog.nextTimer st <> 0 ->
  Watchdog.timeouts st + (if Watchdog.isStreamingRef st then 1 else 0)
  <= starts ->
  let st' := Watchdog.step st e in
  Watchdog.guarded st'
  /\ Watchdog.nextTimer st' <> 0
  /\ Watchdog.timeouts st' + (if Watchdog.isStreamingRef st' then 1 else 0)
     <= starts + (if Watchdog.isStart e then 1 else 0).
Proof.
  intros Hg Hn Hb. destruct e as [info | chunk | | | | id]; cbn [Watchdog.step].
  - unfold Watchdog.startStreamTracking.
    rewrite resetTimeoutTimer_streaming; [| | reflexivity].
    + cbn. split; [|split; [lia|]].
      * right. exists (Watchdog.nextTimer st). now repeat split.
      * unfold Watchdog.timeouts in *. cbn.
        destruct (Watchdog.isStreamingRef st); lia.
    + destruct Hg as [Ht | (i & Hi & Ht & Hr & Hs)]; [now left|].
      right. exists i. now repeat split.
  - unfold Watchdog.updateResponseContent.
    assert (Hg' : Watchdog.guarded
              (Watchdog.mkState (Watchdog.timeoutRef st)
                 (Watchdog.responseRef st ++ chunk)
                 (Watchdog.isStreamingRef st) (Watchdog.currentRequestRef st)
                 (Watchdog.timers st) (Watchdog.nextTimer st)
                 (Watchdog.actions st))).
    { destruct Hg as [Ht | (i & Hi & Ht & Hr & Hs')]; [now left|].
      right. exists i. now repeat split. }
    destruct (Bool.bool_dec (Watchdog.isStreamingRef st) true) as [Hs|Hs].
    + rewrite resetTimeoutTimer_streaming; [| exact Hg' | exact Hs].
      cbn. split; [|split; [lia|]].
      * right. exists (Watchdog.nextTimer st). now repeat split.
      * rewrite Hs in Hb. unfold Watchdog.timeouts in *. cbn. lia.
    + apply not_true_is_false in Hs.
      rewrite resetTimeoutTimer_idle; [| exact Hg' | exact Hs].
      destruct (clearTimeoutTimer_guarded _ Hg') as (Ht & Hr & Hi & Hc & Hn' & Ha).
      cbn in Hr, Hi, Hc, Hn', Ha.
      split; [now left|]. split; [now rewrite Hn'|].
      unfold Watchdog.timeouts in *. rewrite Ha, Hi, Hs. lia.
  - unfold Watchdog.finishStreamTracking.
    destruct (clearTimeoutTimer_guarded _ Hg) as (Ht & Hr & Hi & Hc & Hn' & Ha).
    cbn. split; [now left|]. split; [now rewrite Hn'|].
    unfold Watchdog.timeouts in *. cbn. rewrite Ha.
    destruct (Watchdog.isStreamingRef st); lia.
  - unfold Watchdog.handleResetProject.
    destruct (clearTimeoutTimer_guarded _ Hg) as (Ht & Hr & Hi & Hc & Hn' & Ha).
    cbn. split; [now left|]. split; [now rewrite Hn'|].
    unfold Watchdog.timeouts in *. cbn. rewrite Ha.
    destruct (Watchdog.isStreamingRef st); lia.
  - destruct (clearTimeoutTimer_guarded _ Hg) as (Ht & Hr & Hi & Hc & Hn' & Ha).
    cbn. split; [now left|]. split; [now rewrite Hn'|].
    unfold Watchdog.timeouts in *. rewrite Ha, Hi. lia.
  - destruct (existsb (Nat.eqb id) (Watchdog.timers st)) eqn:He.
    + destruct Hg as [Ht | (i & Hi & Ht & Hr & Hs)];
        [rewrite Ht in He; discriminate|].
      rewrite Ht in He. cbn in He. rewrite orb_false_r in He.
      apply Nat.eqb_eq in He. subst i.
      rewrite (fire_armed id st Ht). cbn.
      split; [now left|]. split; [exact Hn|].
      rewrite Hs in Hb. rewrite (timeouts_snoc st _ _ eq_refl).
      destruct (Watchdog.continuation _ _) eqn:Hk;
        [unfold Watchdog.continuation in Hk;
         destruct (Watchdog.phase _); discriminate | lia | lia].
    + rewrite (fire_other id st He). cbn. repeat split; [exact Hg | exact Hn | lia].
Qed.

Lemma run_guarded (events : list Watchdog.Event) (st : Watchdog.State)
    (starts : nat) :
  Watchdog.guarded st ->
  Watchdog.nextTimer st <> 0 ->
  Watchdog.timeouts st + (if Watchdog.isStreamingRef st then 1 else 0)
  <= starts ->
  let st' := Watchdog.run events st in
  Watchdog.guarded st'
  /\ Watchdog.nextTimer st' <> 0
  /\ Watchdog.timeouts st' + (if Watchdog.isStreamingRef st' then 1 else 0)
     <= starts + length (filter Watchdog.isStart events).
Proof.
  revert st starts. induction events as [|e events IH]; intros st starts Hg Hn Hb.
  - cbn. repeat split; [exact Hg | exact Hn | lia].
  - destruct (step_guarded st e starts Hg Hn Hb) as (Hg' & Hn' & Hb').
    destruct (IH _ _ Hg' Hn' Hb') as (Hg2 & Hn2 & Hb2).
    cbn [Watchdog.run fold_left filter] in *.
    repeat split; [exact Hg2 | exact Hn2 |].
    unfold Watchdog.run in Hb2. destruct (Watchdog.isStart e); cbn [length]; lia.
Qed.

Lemma initial_guarded :
  Watchdog.guarded Watchdog.initial
  /\ Watchdog.nextTimer Watchdog.initial <> 0
  /\ Watchdog.timeouts Watchdog.initial
     + (if Watchdog.isStreamingRef Watchdog.initial then 1 else 0) <= 0.
Proof. split; [now left|]. split; [discriminate|]. cbn. lia. Qed.

(** X14.  One watchdog timer at most.  Whatever the order of the calls
    of [startStreamTracking], [updateResponseContent],
    [finishStreamTracking], [handleResetProject] and the effect cleanup
    and of the timers that run out, at most one timer is armed at any time; it is the one
    held in [timeoutRef], and it is armed only while [isStreamingRef] is
    set. *)
Theorem watchdog_single_timer (events : list Watchdog.Event) :
  let st := Watchdog.run events Watchdog.initial in
  Watchdog.timers st = []
  \/ exists id, Watchdog.timers st = [id]
                /\ Watchdog.timeoutRef st = Some id
                /\ Watchdog.isStreamingRef st = true.
Proof.
  destruct initial_guarded as (Hg & Hn & Hb).
  destruct (run_guarded events _ 0 Hg Hn Hb) as ([Ht | (id & _ & H)] & _).
  - now left.
  - right. now exists id.
Qed.

(** X15.  One timeout per tracked stream at most.  Along any sequence of
    watchdog events, the timeouts handled (each adds the system message
    and starts one continuation request) are never more than the calls
    of [startStreamTracking]: the chunks that arrive after a timeout,
    after [finishStreamTracking] or after a reset arm no timer. *)
Theorem timeouts_bounded_by_streams (events : list Watchdog.Event) :
  Watchdog.timeouts (Watchdog.run events Watchdog.initial)
  <= length (filter Watchdog.isStart events).
Proof.
  destruct initial_guarded as (Hg & Hn & Hb).
  destruct (run_guarded events _ 0 Hg Hn Hb) as (_ & _ & H).
  cbn [Nat.add] in H. lia.
Qed.


(** A state in which the timer [id] is armed for a tracked stream. *)
Lemma armed_guarded (st : Watchdog.State) (id : nat) :
  id <> 0 ->
  Watchdog.timers st = [id] ->
  Watchdog.timeoutRef st = Some id ->
  Watchdog.isStreamingRef st = true ->
  Watchdog.guarded st.
Proof. intros. right. now exists id. Qed.

Lemma startStreamTracking_armed (info : Watchdog.RequestInfo)
    (st : Watchdog.State) :
  Watchdog.guarded st ->
  Watchdog.startStreamTracking info st
  = Watchdog.mkState (Some (Watchdog.nextTimer st)) "" true info
      [Watchdog.nextTimer st] (S (Watchdog.nextTimer st)) (Watchdog.actions st).
Proof.
  intros Hg. unfold Watchdog.startStreamTracking.
  rewrite resetTimeoutTimer_streaming; [reflexivity | | reflexivity].
  destruct Hg as [Ht | (i & Hi & Ht & Hr & Hs)]; [now left|].
  right. exists i. now repeat split.
Qed.

Lemma updateResponseContent_armed (chunk r : string) (n : nat)
    (info : Watchdog.RequestInfo) (acts : list Watchdog.Action) :
  n <> 0 ->
  Watchdog.updateResponseContent chunk
    (Watchdog.mkState (Some n) r true info [n] (S n) acts)
  = Watchdog.mkState (Some (S n)) (r ++ chunk) true info [S n] (S (S n)) acts.
Proof.
  intros Hn. unfold Watchdog.updateResponseContent.
  rewrite resetTimeoutTimer_streaming; [reflexivity | | reflexivity].
  now apply (armed_guarded _ n).
Qed.

(** The chunks of a tracked stream: each one re-arms the timer and is
    appended to [responseRef]. *)
Lemma updates_armed (chunks : list string) (r : string) (n : nat)
    (info : Watchdog.RequestInfo) (acts : list Watchdog.Action) :
  n <> 0 ->
  Watchdog.run (map Watchdog.Update chunks)
    (Watchdog.mkState (Some n) r true info [n] (S n) acts)
  = Watchdog.mkState (Some (length chunks + n)) (r ++ Js.concat chunks)
      true info [length chunks + n] (S (length chunks + n)) acts.
Proof.
  revert r n. induction chunks as [|c chunks IH]; intros r n Hn.
  - cbn. now rewrite append_empty_r.
  - cbn [map Watchdog.run fold_left Watchdog.step].
    rewrite (updateResponseContent_armed c r n info acts Hn).
    change (fold_left Watchdog.step (map Watchdog.Update chunks) ?s)
      with (Watchdog.run (map Watchdog.Update chunks) s).
    rewrite IH by lia. cbn [Js.concat fold_right].
    fold (Js.concat chunks). rewrite <- append_assoc.
    cbn [length]. now rewrite Nat.add_succ_r.
Qed.

Lemma reachable_guarded (events : list Watchdog.Event) :
  Watchdog.guarded (Watchdog.run events Watchdog.initial)
  /\ Watchdog.nextTimer (Watchdog.run events Watchdog.initial) <> 0.
Proof.
  destruct initial_guarded as (Hg & Hn & Hb).
  destruct (run_guarded events _ 0 Hg Hn Hb) as (H1 & H2 & _). now split.
Qed.

(** X16.  What a timeout hands over.  After [startStreamTracking] for a
    request and the chunks [c1 ... cn] of its stream, one timer is
    armed, and when it runs out [handleTimeout] adds its notice and
    starts the continuation of that request with the partial text
    [c1 ++ ... ++ cn]: the text received since the tracking was started,
    whatever [responseRef] held before (the text of an earlier, timed out
    stream is not part of it).  Afterwards no timer is armed. *)
Theorem timeout_hands_over_tracked_text
    (before : list Watchdog.Event) (info : Watchdog.RequestInfo)
    (chunks : list string) :
  let st0 := Watchdog.run before Watchdog.initial in
  let st :=
    Watchdog.run (Watchdog.Start info :: map Watchdog.Update chunks) st0 in
  exists id,
    Watchdog.timers st = [id]
    /\ Watchdog.actions (Watchdog.fire id st)
       = (Watchdog.actions st0
          ++ [Watchdog.TimeoutNotice;
              Watchdog.continuation info (Js.concat chunks)])%list
    /\ Watchdog.timers (Watchdog.fire id st) = []
    /\ Watchdog.isStreamingRef (Watchdog.fire id st) = false.
Proof.
  intros st0 st. destruct (reachable_guarded before) as (Hg & Hn).
  fold st0 in Hg, Hn. subst st.
  cbn [Watchdog.run fold_left Watchdog.step].
  rewrite (startStreamTracking_armed info st0 Hg).
  change (fold_left Watchdog.step (map Watchdog.Update chunks) ?s)
    with (Watchdog.run (map Watchdog.Update chunks) s).
  rewrite updates_armed by exact Hn.
  eexists. split; [reflexivity|].
  rewrite fire_armed by reflexivity. cbn. now repeat split.
Qed.


(** The reading loop of a tracked stream keeps one timer armed. *)
Lemma trackChunks_armed (json : Json) (chunks : list string) (r : string)
    (n : nat) (info : Watchdog.RequestInfo) (acts : list Watchdog.Action) :
  n <> 0 ->
  exists r' n',
    n' <> 0
    /\ Watchdog.trackChunks json chunks
         (Watchdog.mkState (Some n) r true info [n] (S n) acts)
       = Watchdog.mkState (Some n') r' true info [n'] (S n') acts.
Proof.
  revert r n. induction chunks as [|chunk chunks IH]; intros r n Hn.
  - exists r, n. now split.
  - cbn [Watchdog.trackChunks].
    destruct (parse json chunk) as [data|]; [|now apply IH].
    destruct (Client.truthy (Rec.error data)); [exists r, n; now split|].
    destruct (negb (Client.truthy (Rec.done data))); [|now apply IH].
    rewrite (updateResponseContent_armed _ r n info acts Hn). now apply IH.
Qed.

Lemma trackStream_armed (json : Json) (reads : list string) (r : string)
    (n : nat) (info : Watchdog.RequestInfo) (acts : list Watchdog.Action) :
  n <> 0 ->
  exists r' n',
    n' <> 0
    /\ Watchdog.trackStream json reads
         (Watchdog.mkState (Some n) r true info [n] (S n) acts)
       = Watchdog.mkState (Some n') r' true info [n'] (S n') acts.
Proof.
  revert r n. induction reads as [|chunkText reads IH]; intros r n Hn.
  - exists r, n. now split.
  - cbn [Watchdog.trackStream fold_left].
    destruct (trackChunks_armed json (Wire.lines chunkText) r n info acts Hn)
      as (r1 & n1 & Hn1 & ->).
    exact (IH r1 n1 Hn1).
Qed.

Lemma finishStreamTracking_armed (r : string) (n : nat)
    (info : Watchdog.RequestInfo) (acts : list Watchdog.Action) :
  n <> 0 ->
  Watchdog.finishStreamTracking
    (Watchdog.mkState (Some n) r true info [n] (S n) acts)
  = Watchdog.mkState None r false info [] (S n) acts.
Proof.
  intros Hn. unfold Watchdog.finishStreamTracking, Watchdog.clearTimeoutTimer.
  cbn [Watchdog.timeoutRef]. apply Nat.eqb_neq in Hn. rewrite Hn.
  cbn [negb Watchdog.timers]. rewrite clearTimeout_same. reflexivity.
Qed.

(** X17.  The watchdog after a request.  [handleSendMessage] and
    [handleRecommendationPhase] start the tracking before the request and
    stop it only on a record with [done] that is no error record.  So
    when the request fails ([fetch] throws or the status is not ok) one
    timer stays armed, and when it runs out a continuation of the request
    is started with the empty partial text; when the stream ends
    without such a record (an error record, a stream cut short, or a
    terminal record that does not parse) one timer stays armed as well,
    and when it runs out one more timeout is handled; when there was
    such a record no timer is armed.  After the initial-message effect,
    which stops the tracking in its [finally], no timer is armed in any
    case.  This holds for every text of the reads and whatever
    [JSON.parse] makes of their lines. *)
Theorem watchdog_after_request
    (json : Json) (before : list Watchdog.Event)
    (info : Watchdog.RequestInfo) :
  let st0 := Watchdog.run before Watchdog.initial in
  (exists id,
      Watchdog.timers (Watchdog.handleSendMessage json info None st0) = [id]
      /\ Watchdog.actions
           (Watchdog.fire id (Watchdog.handleSendMessage json info None st0))
         = (Watchdog.actions st0
            ++ [Watchdog.TimeoutNotice; Watchdog.continuation info ""])%list)
  /\ (forall reads,
        let st := Watchdog.handleSendMessage json info (Some reads) st0 in
        match Client.readStream json reads with
        | Some _ =>
            Watchdog.timers st = [] /\ Watchdog.isStreamingRef st = false
            /\ Watchdog.actions st = Watchdog.actions st0
        | None =>
            exists id,
              Watchdog.timers st = [id]
              /\ Watchdog.timeouts (Watchdog.fire id st)
                 = S (Watchdog.timeouts st0)
        end)
  /\ (forall response,
        let st := Watchdog.initialMessage json info response st0 in
        Watchdog.timers st = [] /\ Watchdog.isStreamingRef st = false
        /\ Watchdog.actions st = Watchdog.actions st0).
Proof.
  intros st0. destruct (reachable_guarded before) as (Hg & Hn).
  fold st0 in Hg, Hn.
  assert (Hreads : forall reads,
    exists r n, n <> 0
      /\ Watchdog.trackStream json reads (Watchdog.startStreamTracking info st0)
         = Watchdog.mkState (Some n) r true info [n] (S n)
             (Watchdog.actions st0)).
  { intros reads. rewrite (startStreamTracking_armed info st0 Hg).
    exact (trackStream_armed json reads _ _ _ _ Hn). }
  split; [|split].
  - unfold Watchdog.handleSendMessage.
    rewrite (startStreamTracking_armed info st0 Hg).
    eexists. split; [reflexivity|]. now rewrite fire_armed.
  - intros reads st. subst st.
    unfold Watchdog.handleSendMessage, Watchdog.receive.
    destruct (Hreads reads) as (r & n & Hn' & ->).
    destruct (Client.readStream json reads).
    + rewrite (finishStreamTracking_armed r n info _ Hn'). now repeat split.
    + exists n. split; [reflexivity|].
      rewrite fire_armed by reflexivity.
      unfold Watchdog.timeouts.
      cbn [Watchdog.actions Watchdog.currentRequestRef Watchdog.responseRef].
      rewrite filter_app, length_app. unfold Watchdog.continuation.
      destruct (Watchdog.phase info); cbn [filter length]; lia.
  - intros response st. subst st.
    unfold Watchdog.initialMessage, Watchdog.handleSendMessage, Watchdog.receive.
    destruct response as [reads|].
    + destruct (Hreads reads) as (r & n & Hn' & ->).
      destruct (Client.readStream json reads).
      * rewrite (finishStreamTracking_armed r n info _ Hn').
        now repeat split.
      * rewrite (finishStreamTracking_armed r n info _ Hn'). now repeat split.
    + rewrite (startStreamTracking_armed info st0 Hg).
      rewrite (finishStreamTracking_armed _ _ info _ Hn). now repeat split.
Qed.

(* ===================================================================== *)
(** ** Further properties: a stream of the route read by the client *)
(* ===================================================================== *)

Lemma oneLine_app (a b : string) :
  Wire.oneLine (a ++ b) = Wire.oneLine a && Wire.oneLine b.
Proof.
  induction a as [|c a IH]; [reflexivity|]. cbn. rewrite IH.
  now rewrite andb_assoc.
Qed.

Lemma split_oneLine (s : string) :
  Wire.oneLine s = true -> Wire.split s = [s].
Proof.
  induction s as [|c s IH]; [reflexivity|]. cbn [Wire.oneLine Wire.split].
  intros H. apply andb_true_iff in H. destruct H as [Hc Hs].
  apply negb_true_iff in Hc. change (ascii_of_nat 10) with "010"%char in *.
  now rewrite Hc, (IH Hs).
Qed.

(** The two pieces of a line that the end of a read has cut. *)
Lemma lines_cut (a b : string) :
  Wire.oneLine (a ++ b) = true ->
  a <> "" ->
  b <> "" ->
  Wire.lines a = [a] /\ Wire.lines (b ++ Js.nl) = [b].
Proof.
  rewrite oneLine_app. intros H Ha Hb.
  apply andb_true_iff in H. destruct H as [Hla Hlb].
  unfold Wire.lines. split.
  - rewrite (split_oneLine a Hla). destruct a; [contradiction | reflexivity].
  - change (b ++ Js.nl) with (b ++ Js.nl ++ "").
    rewrite (split_line b "" Hlb). destruct b; [contradiction | reflexivity].
Qed.

(** Reads in which fragment records arrive whole are read as one. *)
Lemma stream_of_fragments {S : Type} (json : Json)
    (f : list string -> S -> S) (groups : list (list Rec.t)) (st : S) :
  (forall st, f [] st = st) ->
  (forall a b st,
      Forall (passes json) a ->
      f (map (stringify json) a ++ b)%list st
      = f b (f (map (stringify json) a) st)) ->
  Forall (passes json) (concat groups) ->
  fold_left (fun st chunkText => f (Wire.lines chunkText) st)
            (map (Wire.encode json) groups) st
  = f (map (stringify json) (concat groups)) st.
Proof.
  intros Hnil Happ. revert st.
  induction groups as [|g groups IH]; intros st Hp.
  - cbn. now rewrite Hnil.
  - cbn [concat map fold_left] in *. apply Forall_app in Hp.
    destruct Hp as [Hg Hrest].
    rewrite lines_encode
      by (eapply Forall_impl; [|exact Hg]; now intros d [Hd _]).
    rewrite (IH _ Hrest), map_app. now rewrite (Happ g _ st Hg).
Qed.

Lemma trackChunks_app (json : Json) (a : list Rec.t) (b : list string)
    (st : Watchdog.State) :
  Forall (passes json) a ->
  Watchdog.trackChunks json (map (stringify json) a ++ b) st
  = Watchdog.trackChunks json b
      (Watchdog.trackChunks json (map (stringify json) a) st).
Proof.
  intros Ha. revert st.
  induction Ha as [|d a ((Hd & _) & He) _ IH]; intros st; [reflexivity|].
  cbn [map app Watchdog.trackChunks]. rewrite Hd, He.
  destruct (negb (Client.truthy (Rec.done d))); apply IH.
Qed.

(** The fragment records of a stream, as the watchdog sees them. *)
Lemma trackChunks_fragments (json : Json) (record : string -> Rec.t)
    (chunks : list string) (st : Watchdog.State) :
  Forall (passes json) (map record chunks) ->
  (forall c, Client.truthy (Rec.done (record c)) = false) ->
  (forall c, Watchdog.chunkOf (record c) = c) ->
  Watchdog.trackChunks json (map (stringify json) (map record chunks)) st
  = Watchdog.run (map Watchdog.Update chunks) st.
Proof.
  intros Hp Hd Hc. revert st. induction chunks as [|c chunks IH]; intros st;
    [reflexivity|].
  cbn [map] in Hp. inversion Hp as [|? ? ((Hr & _) & He) Hrest]; subst.
  cbn [map Watchdog.trackChunks Watchdog.run fold_left Watchdog.step].
  rewrite Hr, He, Hd, Hc. cbn [negb]. now apply IH.
Qed.

Lemma records_pass (json : Json) (record : string -> Rec.t)
    (chunks : list string) :
  (forall c, Client.truthy (Rec.error (record c)) = false) ->
  (forall c, Client.truthy (Rec.done (record c)) = false) ->
  Forall (Wire.readable json) (map record chunks) ->
  Forall (passes json) (map record chunks)
  /\ Forall (fun d => Client.truthy (Rec.done d) = false) (map record chunks).
Proof.
  intros He Hd Hr. split.
  - apply Forall_forall. intros d Hin. split.
    + now apply (proj1 (Forall_forall _ _) Hr).
    + apply in_map_iff in Hin. destruct Hin as (c & <- & _). apply He.
  - apply Forall_forall. intros d Hin.
    apply in_map_iff in Hin. destruct Hin as (c & <- & _). apply Hd.
Qed.

(** The watchdog after a stream of fragment records and one last
    record, every record arriving whole, in any number of reads. *)
Lemma handleSendMessage_stream
    (json : Json) (record : string -> Rec.t) (chunks : list string)
    (final : Rec.t) (groups : list (list Rec.t))
    (info : Watchdog.RequestInfo) (st0 : Watchdog.State) :
  (forall c, Client.truthy (Rec.error (record c)) = false) ->
  (forall c, Client.truthy (Rec.done (record c)) = false) ->
  (forall c, Watchdog.chunkOf (record c) = c) ->
  Client.truthy (Rec.error final) = true
  \/ Client.truthy (Rec.done final) = true ->
  concat groups = (map record chunks ++ [final])%list ->
  Forall (Wire.readable json) (map record chunks ++ [final]) ->
  Watchdog.guarded st0 ->
  Watchdog.nextTimer st0 <> 0 ->
  let n := length chunks + Watchdog.nextTimer st0 in
  Watchdog.handleSendMessage json info
    (Some (map (Wire.encode json) groups)) st0
  = if Client.truthy (Rec.error final) then
      Watchdog.mkState (Some n) (Js.concat chunks) true info [n] (S n)
        (Watchdog.actions st0)
    else
      Watchdog.mkState None (Js.concat chunks) false info [] (S n)
        (Watchdog.actions st0).
Proof.
  intros He Hd Hc Hf Hg Hr Hgd Hn n.
  apply Forall_app in Hr. destruct Hr as [Hr1 Hr2].
  apply Forall_inv in Hr2.
  destruct (records_pass json record chunks He Hd Hr1) as (Hp1 & Hp2).
  unfold Watchdog.handleSendMessage, Watchdog.receive, Watchdog.trackStream,
    Client.readStream.
  rewrite (stream_as_one json (Watchdog.trackChunks json) groups _ final _
             (fun _ => eq_refl) (trackChunks_app json) Hg Hp1 Hr2).
  rewrite (stream_as_one json (Client.readChunks json) groups _ final _
             (fun _ => eq_refl) (readChunks_app json) Hg Hp1 Hr2).
  rewrite (trackChunks_fragments json record chunks _ Hp1 Hd Hc).
  rewrite (proj1 (readChunks_fragments json _ None Hp1 Hp2)).
  rewrite (startStreamTracking_armed info st0 Hgd).
  rewrite updates_armed by exact Hn. fold n.
  cbn [Watchdog.trackChunks Client.readChunks append].
  rewrite (proj1 Hr2).
  destruct (Client.truthy (Rec.error final)); [reflexivity|].
  destruct Hf as [Hf|Hf]; [discriminate|]. rewrite Hf. cbn [negb].
  apply finishStreamTracking_armed. subst n. lia.
Qed.

(** The watchdog and the client after a stream whose fragment records
    arrive whole and whose last record arrives in two pieces, neither of
    which parses. *)
Lemma handleSendMessage_cut
    (json : Json) (record : string -> Rec.t) (chunks : list string)
    (a b : string) (groups : list (list Rec.t))
    (info : Watchdog.RequestInfo) (st0 : Watchdog.State) :
  (forall c, Client.truthy (Rec.error (record c)) = false) ->
  (forall c, Client.truthy (Rec.done (record c)) = false) ->
  (forall c, Watchdog.chunkOf (record c) = c) ->
  concat groups = map record chunks ->
  Forall (Wire.readable json) (map record chunks) ->
  Wire.oneLine (a ++ b) = true ->
  a <> "" ->
  b <> "" ->
  parse json a = None ->
  parse json b = None ->
  Watchdog.guarded st0 ->
  Watchdog.nextTimer st0 <> 0 ->
  let n := length chunks + Watchdog.nextTimer st0 in
  let reads := (map (Wire.encode json) groups ++ [a; (b ++ Js.nl)%string])%list in
  Client.readStream json reads = None
  /\ Watchdog.handleSendMessage json info (Some reads) st0
     = Watchdog.mkState (Some n) (Js.concat chunks) true info [n] (S n)
         (Watchdog.actions st0).
Proof.
  intros He Hd Hc Hg Hr Hl Ha Hb Hpa Hpb Hgd Hn n reads.
  destruct (records_pass json record chunks He Hd Hr) as (Hp1 & Hp2).
  destruct (lines_cut a b Hl Ha Hb) as (Hla & Hlb).
  assert (Hread : Client.readStream json reads = None).
  { subst reads. unfold Client.readStream. rewrite fold_left_app.
    rewrite (stream_of_fragments json (Client.readChunks json) groups None
               (fun _ => eq_refl) (readChunks_app json))
      by now rewrite Hg.
    rewrite Hg, (proj1 (readChunks_fragments json _ None Hp1 Hp2)).
    cbn [fold_left]. rewrite Hla, Hlb. cbn [Client.readChunks].
    now rewrite Hpa, Hpb. }
  split; [exact Hread|].
  unfold Watchdog.handleSendMessage, Watchdog.receive. rewrite Hread.
  subst reads. unfold Watchdog.trackStream. rewrite fold_left_app.
  rewrite (stream_of_fragments json (Watchdog.trackChunks json) groups _
             (fun _ => eq_refl) (trackChunks_app json))
    by now rewrite Hg.
  rewrite Hg, (trackChunks_fragments json record chunks _ Hp1 Hd Hc).
  rewrite (startStreamTracking_armed info st0 Hgd).
  rewrite updates_armed by exact Hn. fold n.
  cbn [fold_left]. rewrite Hla, Hlb. cbn [Watchdog.trackChunks].
  now rewrite Hpa, Hpb.
Qed.

(** X18.  A gathering stream of the route, read by [handleSendMessage].
    The route writes each record as one line; the client splits the
    text of each read into lines and parses them, and carries nothing
    over to the next read.
    - When every record arrives whole, in any number of reads: if the
      model stream ended normally the watchdog is stopped and no timer is
      armed; if the model stream failed after the fragments [c1 ... cn],
      the error record does not stop the watchdog, one timer stays
      armed, and when it runs out the client adds its timeout notice and
      starts a continuation of the request with the partial text
      [c1 ++ ... ++ cn].
    - When the model stream ended normally but the end of a read cuts
      the terminal record into two pieces that do not parse, the record
      is dropped: the client keeps no terminal record, so the
      conversation history and the phase are not updated, the watchdog
      is not stopped, and when its timer runs out the client starts a
      continuation with the whole text [c1 ++ ... ++ cn] as the partial
      text. *)
Theorem gathering_stream_and_watchdog
    (w : World) (json : Json) (userInput : string) (h : list Turn)
    (groups : list (list Rec.t)) (before : list Watchdog.Event)
    (info : Watchdog.RequestInfo) :
  let history := match h with [] => [] | _ => Part001.formatChatHistory h end in
  let s := sendMessageStream w history userInput in
  let stream :=
    records (snd (Part001.streamInformationGathering w userInput h false "")) in
  let st0 := Watchdog.run before Watchdog.initial in
  Forall (Wire.readable json) stream ->
  (concat groups = stream ->
   let st :=
     Watchdog.handleSendMessage json info
       (Some (map (Wire.encode json) groups)) st0 in
   match failure s with
   | None =>
       Watchdog.timers st = [] /\ Watchdog.isStreamingRef st = false
       /\ Watchdog.actions st = Watchdog.actions st0
   | Some _ =>
       exists id,
         Watchdog.timers st = [id]
         /\ Watchdog.actions (Watchdog.fire id st)
            = (Watchdog.actions st0
               ++ [Watchdog.TimeoutNotice;
                   Watchdog.continuation info (Js.concat (fragments s))])%list
   end)
  /\ (forall (final : Rec.t) (a b : string),
        failure s = None ->
        stream = (map (chunkRecord []) (fragments s) ++ [final])%list ->
        concat groups = map (chunkRecord []) (fragments s) ->
        stringify json final = a ++ b ->
        a <> "" ->
        b <> "" ->
        parse json a = None ->
        parse json b = None ->
        let reads := (map (Wire.encode json) groups ++ [a; (b ++ Js.nl)%string])%list in
        let st := Watchdog.handleSendMessage json info (Some reads) st0 in
        Client.readStream json reads = None
        /\ (forall seen cst, Client.handleSendMessage json seen reads cst = cst)
        /\ exists id,
             Watchdog.timers st = [id]
             /\ Watchdog.actions (Watchdog.fire id st)
                = (Watchdog.actions st0
                   ++ [Watchdog.TimeoutNotice;
                       Watchdog.continuation info
                         (Js.concat (fragments s))])%list).
Proof.
  intros history s stream st0 Hr.
  assert (Hstream : stream
                    = (map (chunkRecord []) (fragments s)
                       ++ [match failure s with
                           | None =>
                               gatheringDone
                                 (h ++ [mkTurn "user" userInput;
                                        mkTurn "model" (Js.concat (fragments s))])
                                 (Js.concat (fragments s)) []
                           | Some m => Part001.streamErrorRecord m
                           end])%list).
  { subst stream.
    rewrite (streamInformationGathering001_fresh w userInput h false "" eq_refl).
    cbv zeta. fold history. fold s. cbn [snd].
    change (SendMessageStream history userInput :: ?l)
      with ([SendMessageStream history userInput] ++ l)%list.
    rewrite !records_app, (records_enqueues (chunkRecord [])).
    cbn [records app]. now destruct (failure s). }
  destruct (reachable_guarded before) as (Hg & Hn). fold st0 in Hg, Hn.
  split.
  - intros Hc st. subst st. rewrite Hstream in Hc, Hr.
    destruct (failure s) as [m|].
    + rewrite (handleSendMessage_stream json (chunkRecord []) (fragments s)
                 (Part001.streamErrorRecord m) groups info st0
                 (fun _ => eq_refl) (fun _ => eq_refl) (fun _ => eq_refl)
                 (or_introl eq_refl) Hc Hr Hg Hn).
      change (Client.truthy (Rec.error (Part001.streamErrorRecord m)))
        with true.
      cbv iota. eexists. split; [reflexivity|]. now rewrite fire_armed.
    + rewrite (handleSendMessage_stream json (chunkRecord []) (fragments s)
                 (gatheringDone
                    (h ++ [mkTurn "user" userInput;
                           mkTurn "model" (Js.concat (fragments s))])
                    (Js.concat (fragments s)) [])
                 groups info st0
                 (fun _ => eq_refl) (fun _ => eq_refl) (fun _ => eq_refl)
                 (or_intror eq_refl) Hc Hr Hg Hn).
      cbn. now repeat split.
  - intros final a b Hf Hs Hc Hab Ha Hb Hpa Hpb reads st.
    rewrite Hs in Hr. apply Forall_app in Hr. destruct Hr as [Hr1 Hr2].
    apply Forall_inv in Hr2. destruct Hr2 as (_ & Hl & _).
    rewrite Hab in Hl.
    destruct (handleSendMessage_cut json (chunkRecord []) (fragments s) a b
                groups info st0
                (fun _ => eq_refl) (fun _ => eq_refl) (fun _ => eq_refl)
                Hc Hr1 Hl Ha Hb Hpa Hpb Hg Hn) as (Hread & Hst).
    split; [exact Hread|]. split.
    + intros seen cst. unfold Client.handleSendMessage.
      subst reads. now rewrite Hread.
    + subst st reads. rewrite Hst.
      eexists. split; [reflexivity|]. now rewrite fire_armed.
Qed.

(** X18 at a world whose model stream breaks after one fragment, the
    two records arriving in one read: the watchdog is still armed and
    its timeout is handled. *)
Lemma gathering_stream_and_watchdog_witness :
  let stream :=
    records (snd (Part001.streamInformationGathering brokenStreamWorld
                    "a deck" [] false "")) in
  let st :=
    Watchdog.handleSendMessage exampleJson
      (Watchdog.mkInfo Client.gathering (Some "a deck") (Some ""))
      (Some [Wire.encode exampleJson stream]) Watchdog.initial in
  exists id, Watchdog.timers st = [id]
             /\ Watchdog.timeouts (Watchdog.fire id st) = 1.
Proof.
  intros stream st.
  assert (Hr : Forall (Wire.readable exampleJson) stream).
  { repeat constructor; discriminate. }
  pose proof (proj1 (gathering_stream_and_watchdog brokenStreamWorld
                       exampleJson "a deck" [] [stream] []
                       (Watchdog.mkInfo Client.gathering (Some "a deck")
                          (Some ""))
                       Hr)
                (app_nil_r _)) as H.
  cbv zeta in H. cbn [Watchdog.run fold_left map] in H.
  destruct H as (id & Ht & Ha). exists id. split; [exact Ht|].
  subst st. unfold Watchdog.timeouts. rewrite Ha. reflexivity.
Defined.
